(** * BS2PRO controller: HID command encoder and BLE telemetry decoder

    A shallow embedding of [scripts/hid_controller.py] (class
    [BS2PROHIDController]) and of [BS2PROMonitor.parse_speed_data] from
    [scripts/ble_read.py], together with the properties of the command
    frames, the telemetry decoder and the connection life cycle.

    Conventions.
    - A Python [int] is a [Z]; a [bytes]/[bytearray] value is a [list byte];
      a [str] is a [string] (characters outside the hex alphabet and the
      ASCII white space all behave alike in the code modelled here).
    - The controller object, the standard output and the HID bus form the
      state threaded through every method; methods live in the monad [py],
      which also carries Python exceptions so that [try]/[except] blocks are
      written out. Console lines and library calls are recorded in a trace.
    - The [hid] package is outside the repository: what its calls return is
      supplied by a [hid_backend]. *)

From Stdlib Require Import ZArith NArith Lia.
From Stdlib Require Import Strings.Ascii Strings.String Strings.Byte.
From stdpp Require Import base option list strings gmap fin_maps.

Local Open Scope string_scope.
Local Open Scope Z_scope.

(** ** Bytes and integers *)

Definition byte_to_Z (b : byte) : Z := Z.of_N (Byte.to_N b).

(** [bytes([n])]: raises [ValueError] unless [0 <= n < 256]. *)
Definition byte_of_Z (n : Z) : option byte :=
  if (0 <=? n) && (n <? 256) then Byte.of_N (Z.to_N n) else None.

(** [n.to_bytes(2, "little")]: [OverflowError] outside the 16-bit range. *)
Definition to_bytes_2_little (n : Z) : option (list byte) :=
  if (0 <=? n) && (n <=? 65535) then
    b0 ← byte_of_Z (n mod 256);
    b1 ← byte_of_Z (n / 256);
    Some [b0; b1]
  else None.

(** [struct.unpack(">H", bs)[0]]: [struct.error] unless [bs] has two bytes. *)
Definition unpack_H_be (bs : list byte) : option Z :=
  match bs with
  | [hi; lo] => Some (byte_to_Z hi * 256 + byte_to_Z lo)
  | _ => None
  end.

(** [struct.pack(">H", n)], used to lay out test frames. *)
Definition pack_H_be (n : Z) : option (list byte) :=
  if (0 <=? n) && (n <=? 65535) then
    hi ← byte_of_Z (n / 256);
    lo ← byte_of_Z (n mod 256);
    Some [hi; lo]
  else None.

(** Python slice [data[i:j]] for [0 <= i <= j]. *)
Definition slice {A} (i j : nat) (data : list A) : list A :=
  take (j - i)%nat (drop i data).

(** ** Hexadecimal text *)

Definition code (c : ascii) : N := Ascii.N_of_ascii c.

(** Value of a hex digit, either case ([_PyLong_DigitValue] below 16). *)
Definition hex_digit_value (c : ascii) : option N :=
  let n := code c in
  if ((48 <=? n) && (n <=? 57))%N then Some (n - 48)%N
  else if ((97 <=? n) && (n <=? 102))%N then Some (n - 87)%N
  else if ((65 <=? n) && (n <=? 70))%N then Some (n - 55)%N
  else None.

(** [Py_ISSPACE]: space, and the controls 9 to 13. *)
Definition is_space (c : ascii) : bool :=
  let n := code c in
  ((n =? 32) || ((9 <=? n) && (n <=? 13)))%N.

(** [bytes.fromhex]: white space is skipped before each pair of digits;
    anything else that is not a pair of hex digits raises [ValueError]
    ([None] here). *)
Fixpoint fromhex (s : string) : option (list byte) :=
  match s with
  | EmptyString => Some []
  | String c rest =>
      if is_space c then fromhex rest
      else
        match hex_digit_value c, rest with
        | Some top, String d rest' =>
            match hex_digit_value d with
            | Some bot =>
                b ← Byte.of_N (top * 16 + bot)%N;
                bs ← fromhex rest';
                Some (b :: bs)
            | None => None
            end
        | _, _ => None
        end
  end.

(** Lower-case digit of a value below 16. *)
Definition hex_char (n : N) : ascii :=
  if (n <? 10)%N then Ascii.ascii_of_N (48 + n) else Ascii.ascii_of_N (87 + n).

Definition hex_of_byte (b : byte) : string :=
  let n := Byte.to_N b in
  String (hex_char (n / 16)) (String (hex_char (n mod 16)) EmptyString).

(** [bs.hex()]. *)
Fixpoint bytes_hex (bs : list byte) : string :=
  match bs with
  | [] => EmptyString
  | b :: bs' => hex_of_byte b +:+ bytes_hex bs'
  end.

(** [f"{n:02x}"] for [0 <= n < 256], the only values it is applied to (the
    argument is always masked with [0xFF]): exactly two lower-case digits. *)
Definition format_02x (n : Z) : string :=
  let m := Z.to_N n in
  String (hex_char (m / 16)) (String (hex_char (m mod 16)) EmptyString).

(** [s.replace(old, new)] for a non-empty [old]: occurrences are found from
    the left and do not overlap; [skip] counts the characters of a matched
    occurrence still to be dropped. *)
Fixpoint replace_from (old new : string) (skip : nat) (s : string) : string :=
  match s with
  | EmptyString => EmptyString
  | String c rest =>
      match skip with
      | S k => replace_from old new k rest
      | O =>
          if String.prefix old s
          then new +:+ replace_from old new (String.length old - 1)%nat rest
          else String c (replace_from old new 0 rest)
      end
  end.

Definition str_replace (old new s : string) : string := replace_from old new 0 s.

(** ** The controller, the console and the HID bus *)

(** What [print] writes, one constructor per [print] statement of the
    modelled methods (the text itself is not interpreted anywhere). *)
Inductive message :=
  | MsgSearching | MsgFoundKnown | MsgFoundPotential
  | MsgProductName (s : string) | MsgSeparator
  | MsgNoDeviceFound | MsgHintManualIds | MsgHintExample
  | MsgTrying (name : string) (vid pid : Z)
  | MsgAllFailed
  | MsgConnectError
  | MsgConnected
  | MsgManufacturer (s : string) | MsgProduct (s : string)
  | MsgVendorId (vid : Z) | MsgProductId (pid : Z)
  | MsgConnectFailed (vid pid : Z)
  | MsgNotConnected
  | MsgFeatureSent (report_id result : Z) | MsgFeatureFailed
  | MsgOutputSent (result : Z) | MsgOutputFailed
  | MsgTooLong (payload_len max_len : Z)
  | MsgSending (hex : string) (total : Z)
  | MsgHexFormatError
  | MsgSendFailed
  | MsgEnterRealtime
  | MsgRpmOutOfRange (rpm : Z)
  | MsgSetSpeed (rpm : Z) | MsgCommand (command : string)
  | MsgInvalidGear (gear position : Z) | MsgGearRange
  | MsgSetGear (gear position : Z)
  | MsgGearLight (enabled : bool)
  | MsgPowerOnStart (enabled : bool)
  | MsgInvalidMode (mode : string) | MsgValidModes
  | MsgSmartStartStop (mode : string)
  | MsgBrightness (percentage : Z) | MsgBrightnessUnsupported
  | MsgDisconnected
  | MsgBatchCommand (number total : Z) (command : string)
  | MsgBatchDone (success_count total : Z).

(** Everything observable: console lines, and the calls of the HID library
    that enumerate, open, close or transfer (reading the two strings of an
    opened device leaves no event). *)
Inductive event :=
  | Print (m : message)
  | HidEnumerate
  | HidOpen (vid pid : Z)
  | HidClose
  | HidWrite (report : list byte)
  | HidSendFeature (report : list byte).

(** A [hid.device()] object: fresh, or opened on a vendor/product pair. *)
Record hid_device := { opened_as : option (Z * Z) }.

(** The attributes of a [BS2PROHIDController], and the events so far, the
    latest first. *)
Record state := {
  device : option hid_device;
  vendor_id : option Z;
  product_id : option Z;
  trace : list event
}.

(** [BS2PROHIDController.__init__]. *)
Definition init : state :=
  {| device := None; vendor_id := None; product_id := None; trace := [] |}.

Inductive exn := ValueError | OverflowError | MemoryError | IndexError | OSError.

Inductive outcome (A : Type) :=
  | Return (a : A)
  | Raise (e : exn).
Arguments Return {A} a.
Arguments Raise {A} e.

(** A method body: it runs from a state to a value or an exception, and the
    state reached either way. *)
Definition py (A : Type) : Type := state -> outcome A * state.

Definition ret {A} (a : A) : py A := fun st => (Return a, st).

Definition bind {A B} (m : py A) (k : A -> py B) : py B :=
  fun st =>
    match m st with
    | (Return a, st') => k a st'
    | (Raise e, st') => (Raise e, st')
    end.

Declare Scope py_scope.
Delimit Scope py_scope with py.
Bind Scope py_scope with py.
Notation "x <- m ;; k" := (bind m (fun x => k))
  (at level 20, m at level 99, k at level 200, only parsing) : py_scope.
Notation "m ;; k" := (bind m (fun _ => k))
  (at level 100, k at level 200, only parsing, right associativity) : py_scope.
Local Open Scope py_scope.

Definition raise {A} (e : exn) : py A := fun st => (Raise e, st).

(** [try: body except Exception as e: handler]. *)
Definition try_except {A} (body : py A) (handler : exn -> py A) : py A :=
  fun st =>
    match body st with
    | (Return a, st') => (Return a, st')
    | (Raise e, st') => handler e st'
    end.

(** A library call that raises [e] where the model has [None]. *)
Definition or_raise {A} (e : exn) (o : option A) : py A :=
  match o with
  | Some a => ret a
  | None => raise e
  end.

Definition emit (e : event) : py unit :=
  fun st =>
    (Return tt,
     {| device := device st; vendor_id := vendor_id st;
        product_id := product_id st; trace := e :: trace st |}).

Definition print (m : message) : py unit := emit (Print m).

Definition get_device : py (option hid_device) := fun st => (Return (device st), st).

Definition set_device (d : option hid_device) : py unit :=
  fun st =>
    (Return tt,
     {| device := d; vendor_id := vendor_id st;
        product_id := product_id st; trace := trace st |}).

Definition set_ids (vid pid : Z) : py unit :=
  fun st =>
    (Return tt,
     {| device := device st; vendor_id := Some vid;
        product_id := Some pid; trace := trace st |}).

(** Reports handed to the bus, the latest first. *)
Definition written (t : list event) : list (list byte) :=
  omap (fun e => match e with
                 | HidWrite r => Some r
                 | HidSendFeature r => Some r
                 | _ => None
                 end) t.

(** Calls into the HID library of any kind. *)
Definition is_hid_call (e : event) : bool :=
  match e with
  | Print _ => false
  | _ => true
  end.

Definition hid_calls (t : list event) : list event := List.filter is_hid_call t.

(** ** Device discovery: the list [find_bs2pro_devices] computes

    The candidates as a function of what [hid.enumerate()] returned. The
    method itself, with its console lines and its call of the library, is
    [find_bs2pro_devices_io] below. Texts are strings of code points below
    256. *)

(** [needle in haystack] on strings. *)
Fixpoint contains (needle haystack : string) : bool :=
  String.prefix needle haystack
  || match haystack with
     | EmptyString => false
     | String _ rest => contains needle rest
     end.

(** The four entries it reads of a [hid.enumerate()] dictionary; the two
    strings may be [None]. *)
Record device_info := {
  info_vendor_id : Z;
  info_product_id : Z;
  info_manufacturer_string : option string;
  info_product_string : option string
}.

Definition known_bs2pro_devices : list (Z * Z * string) :=
  [ (0x137D7, 0x1002, "FlyDigi BS2PRO") ].

Definition search_terms : list string :=
  [ "BS2PRO"; "FLYDIGI"; "FLY"; "CONTROLLER"; "GAMEPAD" ].

Definition common_gamepad_vendors : list Z :=
  [ 0x2DC8; 0x045E; 0x054C; 0x057E; 0x0F0D; 0x28DE; 0x137D7 ].

(** [str(x)] of a string or [None]. *)
Definition str_of (x : option string) : string :=
  match x with
  | Some s => s
  | None => "None"
  end.

(** [(vendor_id, product_id) in [(v, p) for v, p, _ in devices]]. *)
Definition listed (vid pid : Z) (devices : list (Z * Z * string)) : bool :=
  existsb (fun d => (d.1.1 =? vid) && (d.1.2 =? pid)) devices.

Section Enumeration.

(** [str.upper] and the text [f"Unknown-{vid:04X}:{pid:04X}"] are taken
    as given. *)
Variable upper : string -> string.
Variable unknown_name : Z -> Z -> string.

(** [product_name or f"Unknown-..."]. *)
Definition display_name (vid pid : Z) (product_name : option string) : string :=
  match product_name with
  | Some (String c rest) => String c rest
  | _ => unknown_name vid pid
  end.

Definition is_match (info : device_info) : bool :=
  existsb
    (fun term =>
       contains term (upper (str_of (info_manufacturer_string info)))
       || contains term (upper (str_of (info_product_string info))))
    search_terms
  || existsb (Z.eqb (info_vendor_id info)) common_gamepad_vendors.

(** One turn of the loop over [hid.enumerate()]. *)
Definition find_step (devices : list (Z * Z * string)) (info : device_info)
  : list (Z * Z * string) :=
  let vendor_id := info_vendor_id info in
  let product_id := info_product_id info in
  let devices :=
    fold_left
      (fun devices known =>
         if (vendor_id =? known.1.1) && (product_id =? known.1.2)
         then (devices ++ [(vendor_id, product_id, known.2)])%list
         else devices)
      known_bs2pro_devices devices in
  if is_match info && negb (listed vendor_id product_id devices)
  then (devices
        ++ [(vendor_id, product_id,
             display_name vendor_id product_id (info_product_string info))])%list
  else devices.

Definition find_bs2pro_devices (enumeration : list device_info)
  : list (Z * Z * string) :=
  fold_left find_step enumeration [].

End Enumeration.

(** ** The [hid] package and the host

    The answers of the library, of the devices behind it, of the
    allocator and of the two text functions left uninterpreted. [None]
    stands for a raised exception. *)
Record hid_backend := {
  (** What [hid.enumerate()] returns. *)
  hid_enumerate : option (list device_info);
  (** [device.open(vid, pid)] succeeds. *)
  hid_open : Z -> Z -> bool;
  (** [get_manufacturer_string()] and [get_product_string()] of the device
      opened on a vendor/product pair. *)
  hid_manufacturer_string : Z -> Z -> option string;
  hid_product_string : Z -> Z -> option string;
  (** [device.write(data)]: the count returned. *)
  hid_write : list byte -> option Z;
  (** [device.send_feature_report(data)]: the count returned. *)
  hid_send_feature_report : list byte -> option Z;
  (** [device.close()] returns normally, for a handle opened on a pair or
      never opened. *)
  hid_close : option (Z * Z) -> bool;
  (** The largest [n] for which [bytes(n)] can be allocated; above it
      [bytes(n)] raises [OverflowError] or [MemoryError]. *)
  bytes_max : N;
  (** The largest padding with which [bytes([report_id]) + payload + padding]
      can still be allocated; without padding it always can. *)
  frame_max : N;
  (** [str.upper] and the text [f"Unknown-{vid:04X}:{pid:04X}"], taken as
      given. *)
  text_upper : string -> string;
  text_unknown : Z -> Z -> string
}.

Section Controller.

Variable hw : hid_backend.

(** *** Calls on a [hid.device()] object *)

Definition device_open (vid pid : Z) : py unit :=
  emit (HidOpen vid pid) ;;
  if hid_open hw vid pid
  then set_device (Some {| opened_as := Some (vid, pid) |})
  else raise OSError.

(** The library refuses every transfer on a handle that is not open. *)
Definition device_write (d : hid_device) (data : list byte) : py Z :=
  match opened_as d with
  | None => raise ValueError
  | Some _ => emit (HidWrite data) ;; or_raise OSError (hid_write hw data)
  end.

Definition device_send_feature_report (d : hid_device) (data : list byte) : py Z :=
  match opened_as d with
  | None => raise ValueError
  | Some _ =>
      emit (HidSendFeature data) ;;
      or_raise OSError (hid_send_feature_report hw data)
  end.

Definition device_close (d : hid_device) : py unit :=
  emit HidClose ;;
  if hid_close hw (opened_as d) then ret tt else raise OSError.

(** [s or "Unknown"]. *)
Definition or_unknown (s : string) : string :=
  match s with
  | EmptyString => "Unknown"
  | _ => s
  end.

(** *** Connection *)

(** The [try: self.device.close() except: pass; self.device = None] idiom. *)
Definition close_quietly (d : hid_device) : py unit :=
  try_except (device_close d) (fun _ => ret tt) ;;
  set_device None.

Definition _try_connect (vendor_id product_id : Z) : py bool :=
  try_except
    (set_device (Some {| opened_as := None |}) ;;
     device_open vendor_id product_id ;;
     set_ids vendor_id product_id ;;
     manufacturer <-
       or_raise OSError (hid_manufacturer_string hw vendor_id product_id) ;;
     product <- or_raise OSError (hid_product_string hw vendor_id product_id) ;;
     print MsgConnected ;;
     print (MsgManufacturer (or_unknown manufacturer)) ;;
     print (MsgProduct (or_unknown product)) ;;
     print (MsgVendorId vendor_id) ;;
     print (MsgProductId product_id) ;;
     ret true)
    (fun _ =>
       print (MsgConnectFailed vendor_id product_id) ;;
       dev <- get_device ;;
       match dev with
       | Some d => close_quietly d
       | None => ret tt
       end ;;
       ret false).

(** A [for] loop that threads a value through its body. *)
Fixpoint for_each {A S} (body : S -> A -> py S) (items : list A) (s : S) : py S :=
  match items with
  | [] => ret s
  | item :: rest => s <- body s item ;; for_each body rest s
  end.

(** One turn of the loop of [find_bs2pro_devices] over [hid.enumerate()],
    console lines included. *)
Definition find_step_io (devices : list (Z * Z * string)) (info : device_info)
  : py (list (Z * Z * string)) :=
  let vendor_id := info_vendor_id info in
  let product_id := info_product_id info in
  let manufacturer := info_manufacturer_string info in
  let product_name := info_product_string info in
  devices <-
    for_each
      (fun devices known =>
         if (vendor_id =? known.1.1) && (product_id =? known.1.2)
         then
           print MsgFoundKnown ;;
           print (MsgVendorId vendor_id) ;;
           print (MsgProductId product_id) ;;
           print (MsgManufacturer (str_of manufacturer)) ;;
           print (MsgProductName (str_of product_name)) ;;
           print MsgSeparator ;;
           ret (devices ++ [(vendor_id, product_id, known.2)])%list
         else ret devices)
      known_bs2pro_devices devices ;;
  if is_match (text_upper hw) info && negb (listed vendor_id product_id devices)
  then
    print MsgFoundPotential ;;
    print (MsgVendorId vendor_id) ;;
    print (MsgProductId product_id) ;;
    print (MsgManufacturer (str_of manufacturer)) ;;
    print (MsgProductName (str_of product_name)) ;;
    print MsgSeparator ;;
    ret (devices
         ++ [(vendor_id, product_id,
              display_name (text_unknown hw) vendor_id product_id product_name)])%list
  else ret devices.

(** The method [find_bs2pro_devices]. *)
Definition find_bs2pro_devices_io : py (list (Z * Z * string)) :=
  print MsgSearching ;;
  emit HidEnumerate ;;
  enumeration <- or_raise OSError (hid_enumerate hw) ;;
  for_each find_step_io enumeration [].

(** The loop of [connect] over the candidates: the first that connects. *)
Fixpoint try_each (devices : list (Z * Z * string)) : py bool :=
  match devices with
  | [] => print MsgAllFailed ;; ret false
  | (vid, pid, name) :: rest =>
      print (MsgTrying name vid pid) ;;
      ok <- _try_connect vid pid ;;
      if ok then ret true else try_each rest
  end.

Definition connect (vendor_id product_id : option Z) : py bool :=
  try_except
    (match vendor_id, product_id with
     | Some vid, Some pid => _try_connect vid pid
     | _, _ =>
         devices <- find_bs2pro_devices_io ;;
         match devices with
         | [] =>
             print MsgNoDeviceFound ;;
             print MsgHintManualIds ;;
             print MsgHintExample ;;
             ret false
         | _ => try_each devices
         end
     end)
    (fun _ => print MsgConnectError ;; ret false).

Definition disconnect : py unit :=
  dev <- get_device ;;
  match dev with
  | Some d => close_quietly d ;; print MsgDisconnected
  | None => ret tt
  end.

(** *** Reports *)

Definition send_feature_report (report_id : Z) (data : list byte) : py bool :=
  try_except
    (dev <- get_device ;;
     match dev with
     | None => print MsgNotConnected ;; ret false
     | Some d =>
         rid <- or_raise ValueError (byte_of_Z report_id) ;;
         let report := ([rid] ++ data)%list in
         result <- device_send_feature_report d report ;;
         print (MsgFeatureSent report_id result) ;;
         ret true
     end)
    (fun _ => print MsgFeatureFailed ;; ret false).

Definition send_output_report (data : list byte) : py bool :=
  try_except
    (dev <- get_device ;;
     match dev with
     | None => print MsgNotConnected ;; ret false
     | Some d =>
         result <- device_write d data ;;
         print (MsgOutputSent result) ;;
         ret true
     end)
    (fun _ => print MsgOutputFailed ;; ret false).

Definition len {A} (l : list A) : Z := Z.of_nat (length l).

(** [n] zero bytes. *)
Definition zero_bytes (n : Z) : list byte := replicate (Z.to_nat n) x00.

(** [bytes(n)] for [n >= 0]: [n] zero bytes, if they can be allocated.
    Python raises [OverflowError] or [MemoryError] otherwise; both reach
    the same handler, and the model raises [MemoryError] for either. *)
Definition bytes_of_size (n : Z) : option (list byte) :=
  if n <=? Z.of_N (bytes_max hw) then Some (zero_bytes n) else None.

(** [head + padding], if the sum can be allocated. *)
Definition bytes_add (head padding : list byte) : option (list byte) :=
  if len padding <=? Z.of_N (frame_max hw) then Some (head ++ padding)%list else None.

Definition send_hex_command (hex_string : string) (report_id padding_length : Z)
  : py bool :=
  try_except
    (let hex_string := str_replace "0x" "" (str_replace " " "" hex_string) in
     payload <- or_raise ValueError (fromhex hex_string) ;;
     let padding_needed := padding_length - 1 - len payload in
     padding_needed <-
       (if padding_needed <? 0
        then print (MsgTooLong (len payload) (padding_length - 1)) ;; ret 0
        else ret padding_needed) ;;
     padding <- or_raise MemoryError (bytes_of_size padding_needed) ;;
     rid <- or_raise ValueError (byte_of_Z report_id) ;;
     command <- or_raise MemoryError (bytes_add ([rid] ++ payload) padding) ;;
     print (MsgSending hex_string (len command)) ;;
     send_output_report command)
    (fun e =>
       match e with
       | ValueError => print MsgHexFormatError ;; ret false
       | _ => print MsgSendFailed ;; ret false
       end).

(** The defaults [report_id=0x02, padding_length=23]. *)
Definition default_report_id : Z := 0x02.
Definition default_padding_length : Z := 23.

Definition send_hex (hex_string : string) : py bool :=
  send_hex_command hex_string default_report_id default_padding_length.

(** *** Commands *)

Definition calculate_checksum (rpm : Z) : py Z :=
  speed_bytes <- or_raise OverflowError (to_bytes_2_little rpm) ;;
  let byte0 := 0x5A in
  let byte1 := 0xA5 in
  let byte2 := 0x21 in
  let byte3 := 0x04 in
  byte4 <- or_raise IndexError (byte_to_Z <$> speed_bytes !! 0%nat) ;;
  byte5 <- or_raise IndexError (byte_to_Z <$> speed_bytes !! 1%nat) ;;
  ret (Z.land (byte0 + byte1 + byte2 + byte3 + byte4 + byte5 + 1) 0xFF).

Definition enter_realtime_speed_mode : py bool :=
  print MsgEnterRealtime ;;
  send_hex "5aa523022500000000000000000000000000000000000000".

Definition set_fan_speed (rpm : Z) : py bool :=
  if negb ((0 <=? rpm) && (rpm <=? 65535)) then
    print (MsgRpmOutOfRange rpm) ;; ret false
  else
    speed_bytes <- or_raise OverflowError (to_bytes_2_little rpm) ;;
    checksum <- calculate_checksum rpm ;;
    let command :=
      "5aa52104" +:+ bytes_hex speed_bytes +:+ format_02x checksum
      +:+ "00000000000000000000000000000000" in
    print (MsgSetSpeed rpm) ;;
    print (MsgCommand command) ;;
    send_hex command.

(** The literal of [set_gear_position], in source order. *)
Definition gear_table : list (Z * Z * string) :=
  [ ((1, 1), "5aa526050014054400000000000000000000000000000000");
    ((1, 2), "5aa5260500a406d500000000000000000000000000000000");
    ((1, 3), "5aa52605006c079e00000000000000000000000000000000");
    ((2, 1), "5aa526050134086800000000000000000000000000000000");
    ((2, 2), "5aa526050160099500000000000000000000000000000000");
    ((2, 3), "5aa52605018c0ac200000000000000000000000000000000");
    ((3, 1), "5aa5260502f00a2700000000000000000000000000000000");
    ((3, 2), "5aa5260502b80bf000000000000000000000000000000000");
    ((3, 3), "5aa5260502e40c1d00000000000000000000000000000000");
    ((4, 1), "5aa5260503ac0de700000000000000000000000000000000");
    ((4, 2), "5aa5260503740eb000000000000000000000000000000000");
    ((4, 3), "5aa5260503a00fdd00000000000000000000000000000000") ].

Definition gear_positions : gmap (Z * Z) string := list_to_map gear_table.

Definition set_gear_position (gear position : Z) : py bool :=
  match gear_positions !! (gear, position) with
  | None =>
      print (MsgInvalidGear gear position) ;;
      print MsgGearRange ;;
      ret false
  | Some command =>
      print (MsgSetGear gear position) ;;
      send_hex command
  end.

Definition set_gear_light (enabled : bool) : py bool :=
  let command :=
    if enabled
    then "5aa54803014c000000000000000000000000000000000000"
    else "5aa54803004b000000000000000000000000000000000000" in
  print (MsgGearLight enabled) ;;
  send_hex command.

Definition set_power_on_start (enabled : bool) : py bool :=
  let command :=
    if enabled
    then "5aa50c030211000000000000000000000000000000000000"
    else "5aa50c030110000000000000000000000000000000000000" in
  print (MsgPowerOnStart enabled) ;;
  send_hex command.

Definition smart_start_stop_commands : gmap string string :=
  list_to_map [
    ("off", "5aa50d030010000000000000000000000000000000000000");
    ("immediate", "5aa50d030111000000000000000000000000000000000000");
    ("delayed", "5aa50d030212000000000000000000000000000000000000")
  ].

Definition set_smart_start_stop (mode : string) : py bool :=
  match smart_start_stop_commands !! mode with
  | None =>
      print (MsgInvalidMode mode) ;;
      print MsgValidModes ;;
      ret false
  | Some command =>
      print (MsgSmartStartStop mode) ;;
      send_hex command
  end.

Definition set_brightness (percentage : Z) : py bool :=
  if percentage =? 0 then
    print (MsgBrightness 0) ;;
    send_hex "5aa5470d1c00ff00000000000000006f0000000000000000"
  else if percentage =? 100 then
    print (MsgBrightness 100) ;;
    send_hex "5aa543024500000000000000000000000000000000000000"
  else
    print MsgBrightnessUnsupported ;; ret false.

End Controller.

(** ** Telemetry ([BS2PROMonitor.parse_speed_data])

    The pair returned is [(None, None)] on failure. The lines the method
    prints do not influence the result and are left out. *)
Definition parse_speed_data (data : list byte) : option Z * option Z :=
  if (length data <? 12)%nat then (None, None)
  else
    let target_speed_bytes := slice 8 10 data in
    match unpack_H_be target_speed_bytes with
    | None => (None, None)
    | Some target_speed =>
        let actual_speed_bytes := slice 10 12 data in
        match unpack_H_be actual_speed_bytes with
        | None => (None, None)
        | Some actual_speed => (Some target_speed, Some actual_speed)
        end
    end.

(** ** Fixtures and vocabulary of the statements *)

(** A link is up: the controller holds an opened handle. *)
Definition is_connected (st : state) : bool :=
  match device st with
  | Some d => match opened_as d with Some _ => true | None => false end
  | None => false
  end.

(** [st] after the events [es] (latest first) and nothing else. *)
Definition logged (es : list event) (st : state) : state :=
  {| device := device st; vendor_id := vendor_id st;
     product_id := product_id st; trace := (es ++ trace st)%list |}.

(** [device.write(report)] returns rather than raises. *)
Definition write_ok (hw : hid_backend) (report : list byte) : bool :=
  match hid_write hw report with
  | Some _ => true
  | None => false
  end.

(** The method hands exactly [report] to the bus, touches the library in no
    other way, and returns whether the write went through. *)
Definition sends (hw : hid_backend) (m : py bool) (st : state) (report : list byte)
  : Prop :=
  exists es,
    m st = (Return (write_ok hw report), logged es st)
    /\ hid_calls es = [HidWrite report].

(** The method returns [False] after printing [why], without any call into
    the HID library. *)
Definition refuses (m : py bool) (st : state) (why : message) : Prop :=
  exists es,
    m st = (Return false, logged es st)
    /\ In (Print why) es
    /\ hid_calls es = [].

(** The padding of a frame of declared length [padding_length] can be
    allocated: [bytes(padding_needed)] returns. *)
Definition padding_allocates (hw : hid_backend) (padding_length : Z)
    (payload : list byte) : bool :=
  (if padding_length - 1 - len payload <? 0 then 0
   else padding_length - 1 - len payload) <=? Z.of_N (bytes_max hw).

(** The padding can be allocated, and so can the frame that ends with it. *)
Definition padding_fits (hw : hid_backend) (padding_length : Z) (payload : list byte)
  : bool :=
  padding_allocates hw padding_length payload
  && ((if padding_length - 1 - len payload <? 0 then 0
       else padding_length - 1 - len payload) <=? Z.of_N (frame_max hw)).

(** The warning of [send_hex_command] and the padding it settles on. *)
Definition too_long_warning (padding_length : Z) (payload : list byte) : list event :=
  if padding_length - 1 - len payload <? 0
  then [Print (MsgTooLong (len payload) (padding_length - 1))]
  else [].

Definition padding_for (padding_length : Z) (payload : list byte) : list byte :=
  zero_bytes (if padding_length - 1 - len payload <? 0 then 0
              else padding_length - 1 - len payload).

(** The method returns [False] without any call into the HID library. *)
Definition fails_unsent (m : py bool) (st : state) : Prop :=
  exists es, m st = (Return false, logged es st) /\ hid_calls es = [].

(** The first gear frame, as an example of a 24-byte catalog body. *)
Definition gear_1_1 : string := "5aa526050014054400000000000000000000000000000000".

(** The bodies of the two brightness commands. *)
Definition brightness_0_frame : list byte :=
  [x5a; xa5; x47; x0d; x1c; x00; xff; x00; x00; x00; x00; x00;
   x00; x00; x00; x6f; x00; x00; x00; x00; x00; x00; x00; x00].

Definition brightness_100_frame : list byte :=
  [x5a; xa5; x43; x02; x45; x00; x00; x00; x00; x00; x00; x00;
   x00; x00; x00; x00; x00; x00; x00; x00; x00; x00; x00; x00].

(** Every command text written out in full in the source, other than the
    gear table: realtime mode, gear light on/off, power-on start on/off,
    smart start/stop off/immediate/delayed, brightness 0 and 100. *)
Definition literal_commands : list string :=
  [ "5aa523022500000000000000000000000000000000000000";
    "5aa54803014c000000000000000000000000000000000000";
    "5aa54803004b000000000000000000000000000000000000";
    "5aa50c030211000000000000000000000000000000000000";
    "5aa50c030110000000000000000000000000000000000000";
    "5aa50d030010000000000000000000000000000000000000";
    "5aa50d030111000000000000000000000000000000000000";
    "5aa50d030212000000000000000000000000000000000000";
    "5aa5470d1c00ff00000000000000006f0000000000000000";
    "5aa543024500000000000000000000000000000000000000" ].

(** The text [send_hex_command] hands to [bytes.fromhex]. *)
Definition residue (hex_string : string) : string :=
  str_replace "0x" "" (str_replace " " "" hex_string).

(** Digits as [bytes.hex] and the [x] format print them. *)
Definition is_lower_hex (c : ascii) : bool :=
  let n := code c in
  (((48 <=? n) && (n <=? 57)) || ((97 <=? n) && (n <=? 102)))%N.

Fixpoint lower_hex (s : string) : bool :=
  match s with
  | EmptyString => true
  | String c rest => is_lower_hex c && lower_hex rest
  end.

(** Some character is neither a hex digit nor white space. *)
Fixpoint has_stray (s : string) : bool :=
  match s with
  | EmptyString => false
  | String c rest =>
      match hex_digit_value c with
      | Some _ => has_stray rest
      | None => negb (is_space c) || has_stray rest
      end
  end.

(** Stripping as the specification words it, for comparison only: all white
    space goes, then one leading [0x] if there is one. *)
Fixpoint remove_whitespace (s : string) : string :=
  match s with
  | EmptyString => EmptyString
  | String c rest =>
      if is_space c then remove_whitespace rest
      else String c (remove_whitespace rest)
  end.

Definition spec_strip (s : string) : string :=
  let t := remove_whitespace s in
  if String.prefix "0x" t then String.substring 2 (String.length t - 2) t else t.

(** A backend on which every library call succeeds. *)
Definition responsive : hid_backend :=
  {| hid_enumerate := Some [];
     hid_open := fun _ _ => true;
     hid_manufacturer_string := fun _ _ => Some "FlyDigi";
     hid_product_string := fun _ _ => Some "BS2PRO";
     hid_write := fun data => Some (len data);
     hid_send_feature_report := fun data => Some (len data);
     hid_close := fun _ => true;
     bytes_max := 65535;
     frame_max := 65535;
     text_upper := fun s => s;
     text_unknown := fun _ _ => "Unknown" |}.

(** The controller right after [connect(0x137D7, 0x1002)] succeeded, console
    cleared. *)
Definition bound : state :=
  {| device := Some {| opened_as := Some (0x137D7, 0x1002) |};
     vendor_id := Some 0x137D7;
     product_id := Some 0x1002;
     trace := [] |}.

(** A fresh controller after [connect(0x137D7, 0x1002)] on that backend. *)
Definition fresh_link : state :=
  Eval vm_compute in (connect responsive (Some 0x137D7) (Some 0x1002) init).2.

(** The packet quoted in the docstring of [parse_speed_data]. *)
Definition telemetry_sample : list byte :=
  default [] (fromhex "5aa5ef0b4a0705e40ce40cfb002b00000000000000000000").

(** Its first thirteen bytes, [5aa5ef0b4a0705e40ce40cfb00]. *)
Definition telemetry_head : list byte :=
  [x5a; xa5; xef; x0b; x4a; x07; x05; xe4; x0c; xe4; x0c; xfb; x00].

(** The header shared by the gear frames. *)
Definition gear_header : list byte := [x5a; xa5; x26; x05].

(** ** Further methods

    The rest of the controller that can be stated over the same state, and
    the pure parts of the two BLE scripts. A pause leaves no event, but a
    pause that cannot be slept raises. Texts are strings of code points
    below 256. *)

(** [str.isspace] (the characters [str.strip()] removes). *)
Definition is_unicode_space (c : ascii) : bool :=
  let n := code c in
  (((9 <=? n) && (n <=? 13)) || ((28 <=? n) && (n <=? 32))
   || (n =? 133) || (n =? 160))%N.

Fixpoint lstrip (s : string) : string :=
  match s with
  | EmptyString => EmptyString
  | String c rest => if is_unicode_space c then lstrip rest else s
  end.

Fixpoint rstrip (s : string) : string :=
  match s with
  | EmptyString => EmptyString
  | String c rest =>
      match rstrip rest with
      | EmptyString => if is_unicode_space c then EmptyString else String c EmptyString
      | kept => String c kept
      end
  end.

(** [s.strip()]. *)
Definition strip (s : string) : string := rstrip (lstrip s).

(** [c.lower()] for one character. *)
Definition lower_char (c : ascii) : ascii :=
  let n := code c in
  if (((65 <=? n) && (n <=? 90))
      || ((192 <=? n) && (n <=? 222) && negb (n =? 215)))%N
  then Ascii.ascii_of_N (n + 32)
  else c.

(** [s.lower()]. *)
Fixpoint lower (s : string) : string :=
  match s with
  | EmptyString => EmptyString
  | String c rest => String (lower_char c) (lower rest)
  end.

(** [s[:n]]. *)
Fixpoint str_take (n : nat) (s : string) : string :=
  match n, s with
  | S k, String c rest => String c (str_take k rest)
  | _, _ => EmptyString
  end.

(** *** [BS2PROMonitor.get_vendor_from_mac] and [scan_devices] *)

Definition VENDOR_PREFIXES : gmap string string :=
  list_to_map [ ("e5:66:e5", "NanjingQinhe"); ("00:00:00", "Unknown") ].

Definition get_vendor_from_mac (mac_address : string) : string :=
  let mac_prefix := str_take 8 (lower mac_address) in
  default "Unknown" (VENDOR_PREFIXES !! mac_prefix).

Definition TARGET_DEVICE_NAME : string := "FlyDigi BS2PRO".

(** What [scan_devices] reads of a discovered device; [name] may be [None]. *)
Record ble_device := { ble_name : option string; ble_address : string }.

(** The loop of [scan_devices] over the devices that
    [BleakScanner.discover] returned: its [target_device]. *)
Definition scan_devices (devices : list ble_device) : option ble_device :=
  fold_left
    (fun target_device device =>
       if decide (ble_name device = Some TARGET_DEVICE_NAME)
       then Some device
       else target_device)
    devices None.

(** *** [send_multiple_commands] and the [speed] line of the console *)

(** What the code observes of the float [delay]: whether [delay > 0]
    holds, and whether [time.sleep(delay)] returns. A delay too large for
    the clock, such as [inf] or [1e300], makes [time.sleep] raise
    [OverflowError]. *)
Inductive delay_kind :=
  | NotPositive   (** [delay > 0] is false: zero, negative, NaN *)
  | Sleepable     (** [delay > 0] and [time.sleep(delay)] returns *)
  | TooLarge.     (** [delay > 0] and [time.sleep(delay)] raises *)

Definition delay_positive (delay : delay_kind) : bool :=
  match delay with
  | NotPositive => false
  | _ => true
  end.

(** [time.sleep(delay)] for a positive delay; the time that passes leaves
    no trace. *)
Definition time_sleep (delay : delay_kind) : py unit :=
  match delay with
  | TooLarge => raise OverflowError
  | _ => ret tt
  end.

Section Batches.

Variable hw : hid_backend.

(** The loop of [send_multiple_commands] from entry [i] on, with
    [total = len(commands)] and [success_count] so far. Nothing here
    catches an exception. *)
Fixpoint send_commands_from (commands : list string) (delay : delay_kind)
    (i total success_count : Z) : py Z :=
  match commands with
  | [] => ret success_count
  | cmd :: rest =>
      match strip cmd with
      | EmptyString => send_commands_from rest delay (i + 1) total success_count
      | cmd =>
          print (MsgBatchCommand (i + 1) total cmd) ;;
          ok <- send_hex hw cmd ;;
          let success_count := if ok then success_count + 1 else success_count in
          (if delay_positive delay && (i <? total - 1)
           then time_sleep delay
           else ret tt) ;;
          send_commands_from rest delay (i + 1) total success_count
      end
  end.

(** An entry that is not blank: [c.strip()] is not empty. *)
Definition is_command (c : string) : bool :=
  match strip c with
  | EmptyString => false
  | _ => true
  end.

Definition send_multiple_commands (commands : list string) (delay : delay_kind)
  : py Z :=
  success_count <- send_commands_from commands delay 0 (len commands) 0 ;;
  print (MsgBatchDone success_count (len (List.filter is_command commands))) ;;
  ret success_count.

(** What [interactive_command_mode] does with a line [speed <rpm>] once the
    number is read: both results are dropped. *)
Definition speed_line (rpm : Z) : py unit :=
  enter_realtime_speed_mode hw ;;
  set_fan_speed hw rpm ;;
  ret tt.

End Batches.

(** *** Vocabulary for the further statements *)

(** Sum of the byte values. *)
Definition sum_bytes (bs : list byte) : Z :=
  foldr (fun b acc => byte_to_Z b + acc) 0 bs.

Definition is_zero_byte (b : byte) : bool := Byte.eqb b x00.

(** The layout every command frame of the file follows: [5a a5], a family
    byte, a length byte [n], and at offset [2 + n] the check byte, which is
    the sum of all bytes before it plus one, modulo 256; zeros after it. *)
Definition frame_checked (f : list byte) : bool :=
  match f with
  | b0 :: b1 :: _ :: n :: _ =>
      let at_ck := (2 + Z.to_nat (byte_to_Z n))%nat in
      Byte.eqb b0 x5a && Byte.eqb b1 xa5
      && match f !! at_ck with
         | Some ck => byte_to_Z ck =? (sum_bytes (take at_ck f) + 1) mod 256
         | None => false
         end
      && forallb is_zero_byte (drop (S at_ck) f)
  | _ => false
  end.

(** The speed a gear frame carries: bytes 5 and 6, little-endian. *)
Definition gear_frame_speed (c : string) : option Z :=
  f ← fromhex c;
  lo ← f !! 5%nat;
  hi ← f !! 6%nat;
  Some (byte_to_Z lo + 256 * byte_to_Z hi).

(** The gear index a gear frame carries: byte 4. *)
Definition gear_frame_index (c : string) : option Z :=
  f ← fromhex c;
  byte_to_Z <$> f !! 4%nat.

Definition is_hex_digit (c : ascii) : bool :=
  match hex_digit_value c with
  | Some _ => true
  | None => false
  end.

(** Hex digits only. *)
Fixpoint all_hex (s : string) : bool :=
  match s with
  | EmptyString => true
  | String c rest => is_hex_digit c && all_hex rest
  end.



(** The pause of [send_multiple_commands] raises: the delay cannot be
    slept and some entry that is not blank is followed by another entry. *)
Definition sleep_raises (delay : delay_kind) (commands : list string) : bool :=
  match delay with
  | TooLarge => existsb is_command (removelast commands)
  | _ => false
  end.

(** A candidate that [_try_connect] can open on [hw]. *)
Definition opens (hw : hid_backend) (candidate : Z * Z * string) : bool :=
  hid_open hw candidate.1.1 candidate.1.2
  && bool_decide (is_Some (hid_manufacturer_string hw candidate.1.1 candidate.1.2))
  && bool_decide (is_Some (hid_product_string hw candidate.1.1 candidate.1.2)).

(** A backend whose device cannot be opened. *)
Definition unplugged : hid_backend :=
  {| hid_enumerate :=
       Some [ {| info_vendor_id := 0x37D7; info_product_id := 0x1002;
                 info_manufacturer_string := Some "FlyDigi";
                 info_product_string := Some "BS2PRO" |} ];
     hid_open := fun _ _ => false;
     hid_manufacturer_string := fun _ _ => None;
     hid_product_string := fun _ _ => None;
     hid_write := fun _ => None;
     hid_send_feature_report := fun _ => None;
     hid_close := fun _ => false;
     bytes_max := 0;
     frame_max := 0;
     text_upper := fun s => s;
     text_unknown := fun _ _ => "Unknown" |}.

(** A backend enumerating two 8BitDo pads: both open, the first keeps its
    strings to itself. *)
Definition two_pads : hid_backend :=
  {| hid_enumerate :=
       Some [ {| info_vendor_id := 0x2DC8; info_product_id := 0x6001;
                 info_manufacturer_string := Some "8BitDo";
                 info_product_string := Some "Pad A" |};
              {| info_vendor_id := 0x2DC8; info_product_id := 0x6002;
                 info_manufacturer_string := Some "8BitDo";
                 info_product_string := Some "Pad B" |} ];
     hid_open := fun _ _ => true;
     hid_manufacturer_string :=
       fun _ pid => if pid =? 0x6001 then None else Some "8BitDo";
     hid_product_string := fun _ _ => Some "Pad";
     hid_write := fun data => Some (len data);
     hid_send_feature_report := fun data => Some (len data);
     hid_close := fun _ => true;
     bytes_max := 65535;
     frame_max := 65535;
     text_upper := fun s => s;
     text_unknown := fun _ _ => "Unknown" |}.

(** A backend whose [hid.enumerate()] raises. *)
Definition no_bus : hid_backend :=
  {| hid_enumerate := None;
     hid_open := fun _ _ => false;
     hid_manufacturer_string := fun _ _ => None;
     hid_product_string := fun _ _ => None;
     hid_write := fun _ => None;
     hid_send_feature_report := fun _ => None;
     hid_close := fun _ => false;
     bytes_max := 0;
     frame_max := 0;
     text_upper := fun s => s;
     text_unknown := fun _ _ => "Unknown" |}.

(** An enumeration of three interfaces: an 8BitDo pad listed twice and a
    keyboard. *)
Definition sample_enumeration : list device_info :=
  [ {| info_vendor_id := 0x2DC8; info_product_id := 0x6001;
       info_manufacturer_string := Some "8BitDo"; info_product_string := None |};
    {| info_vendor_id := 0x046D; info_product_id := 0xC31C;
       info_manufacturer_string := Some "Logitech";
       info_product_string := Some "USB Keyboard" |};
    {| info_vendor_id := 0x2DC8; info_product_id := 0x6001;
       info_manufacturer_string := Some "8BitDo"; info_product_string := None |} ].

(** As [sends], with the line [note] printed on the way. *)
Definition sends_with (hw : hid_backend) (m : py bool) (st : state)
    (report : list byte) (note : message) : Prop :=
  exists es,
    m st = (Return (write_ok hw report), logged es st)
    /\ hid_calls es = [HidWrite report]
    /\ In (Print note) es.

(** The body of the realtime-mode command. *)
Definition realtime_frame : list byte :=
  [x5a; xa5; x23; x02; x25; x00; x00; x00; x00; x00; x00; x00;
   x00; x00; x00; x00; x00; x00; x00; x00; x00; x00; x00; x00].

(** Keys of the gear table in dictionary order. *)
Definition gear_before (k1 k2 : Z * Z) : Prop :=
  k1.1 < k2.1 \/ (k1.1 = k2.1 /\ k1.2 < k2.2).

(** The library calls of the attempts on [devices], oldest first, when none
    opens. *)
Definition failed_attempts (devices : list (Z * Z * string)) : list event :=
  flat_map (fun d => [HidOpen d.1.1 d.1.2; HidClose]) devices.

(** ** Bytes *)

Lemma byte_of_Z_Some (n : Z) :
  0 <= n < 256 -> exists b, byte_of_Z n = Some b /\ byte_to_Z b = n.
Proof.
  intros Hn. unfold byte_of_Z, byte_to_Z.
  replace ((0 <=? n) && (n <? 256)) with true
    by (symmetry; apply andb_true_iff; split; [apply Z.leb_le | apply Z.ltb_lt]; lia).
  destruct (Byte.of_N (Z.to_N n)) as [b|] eqn:Hb.
  - exists b. split; [reflexivity|]. apply Byte.to_of_N in Hb. rewrite Hb. lia.
  - apply Byte.of_N_None_iff in Hb. lia.
Qed.

Lemma byte_of_Z_inv (n : Z) (b : byte) :
  byte_of_Z n = Some b -> byte_to_Z b = n /\ 0 <= n < 256.
Proof.
  unfold byte_of_Z, byte_to_Z. intros H.
  destruct ((0 <=? n) && (n <? 256)) eqn:Hr; [|discriminate].
  apply andb_true_iff in Hr as [H0 H1].
  apply Z.leb_le in H0. apply Z.ltb_lt in H1.
  apply Byte.to_of_N in H. rewrite H. lia.
Qed.

Lemma byte_to_Z_range (b : byte) : 0 <= byte_to_Z b < 256.
Proof.
  unfold byte_to_Z. pose proof (Byte.to_N_bounded b). lia.
Qed.

Lemma byte_of_to_Z (b : byte) : byte_of_Z (byte_to_Z b) = Some b.
Proof.
  destruct (byte_of_Z_Some (byte_to_Z b) (byte_to_Z_range b)) as (b' & Hb & Heq).
  rewrite Hb. f_equal. unfold byte_to_Z in Heq.
  apply N2Z.inj in Heq.
  pose proof (Byte.of_to_N b) as H1. pose proof (Byte.of_to_N b') as H2.
  rewrite Heq in H2. congruence.
Qed.

Lemma to_bytes_2_little_Some (n : Z) :
  0 <= n <= 65535 ->
  exists b0 b1, to_bytes_2_little n = Some [b0; b1]
                /\ byte_to_Z b0 = n mod 256 /\ byte_to_Z b1 = n / 256.
Proof.
  intros Hn. unfold to_bytes_2_little.
  replace ((0 <=? n) && (n <=? 65535)) with true
    by (symmetry; apply andb_true_iff; split; apply Z.leb_le; lia).
  destruct (byte_of_Z_Some (n mod 256)) as (b0 & H0 & E0);
    [apply Z.mod_pos_bound; lia|].
  destruct (byte_of_Z_Some (n / 256)) as (b1 & H1 & E1).
  { split; [apply Z.div_pos; lia | apply Z.div_lt_upper_bound; lia]. }
  exists b0, b1. rewrite H0, H1. simpl. auto.
Qed.

Lemma pack_H_be_Some (n : Z) :
  0 <= n <= 65535 ->
  exists hi lo, pack_H_be n = Some [hi; lo]
                /\ byte_to_Z hi * 256 + byte_to_Z lo = n.
Proof.
  intros Hn. unfold pack_H_be.
  replace ((0 <=? n) && (n <=? 65535)) with true
    by (symmetry; apply andb_true_iff; split; apply Z.leb_le; lia).
  destruct (byte_of_Z_Some (n mod 256)) as (lo & H0 & E0);
    [apply Z.mod_pos_bound; lia|].
  destruct (byte_of_Z_Some (n / 256)) as (hi & H1 & E1).
  { split; [apply Z.div_pos; lia | apply Z.div_lt_upper_bound; lia]. }
  exists hi, lo. rewrite H0, H1. simpl. split; [reflexivity|].
  rewrite E0, E1. pose proof (Z.div_mod n 256). lia.
Qed.

(** ** Telemetry *)

Lemma parse_speed_data_short (data : list byte) :
  (length data < 12)%nat -> parse_speed_data data = (None, None).
Proof.
  intros H. unfold parse_speed_data.
  apply Nat.ltb_lt in H. rewrite H. reflexivity.
Qed.

Lemma parse_speed_data_layout (pre : list byte) (b8 b9 b10 b11 : byte) (post : list byte) :
  length pre = 8%nat ->
  parse_speed_data (pre ++ [b8; b9; b10; b11] ++ post)%list
  = (Some (byte_to_Z b8 * 256 + byte_to_Z b9),
     Some (byte_to_Z b10 * 256 + byte_to_Z b11)).
Proof.
  intros Hpre.
  do 8 (destruct pre as [|? pre]; [discriminate Hpre|]).
  destruct pre; [|discriminate Hpre].
  reflexivity.
Qed.

Lemma split_at_12 (data : list byte) :
  (12 <= length data)%nat ->
  exists pre b8 b9 b10 b11 post,
    data = (pre ++ [b8; b9; b10; b11] ++ post)%list /\ length pre = 8%nat.
Proof.
  intros H.
  do 12 (destruct data as [|? data]; [simpl in H; lia|]).
  eexists [_; _; _; _; _; _; _; _], _, _, _, _, data.
  split; reflexivity.
Qed.

(** C3, as the code has it: whatever follows the thirteen bytes
    [5aa5ef0b4a0705e40ce40cfb00], decoding reads bytes 8-9 ([0c e4]) as the
    target speed 3300 and bytes 10-11 ([0c fb]) as the actual speed 3323. *)
Theorem parse_speed_data_sample (rest : list byte) :
  parse_speed_data (telemetry_head ++ rest)%list = (Some 3300, Some 3323).
Proof.
  change (telemetry_head ++ rest)%list
    with (take 8 telemetry_head ++ [x0c; xe4; x0c; xfb] ++ x00 :: rest)%list.
  rewrite parse_speed_data_layout by reflexivity.
  reflexivity.
Qed.

(** C3, as stated, fails: the docstring packet does not decode to
    (1508, 3300); [05 e4] sits at offsets 6-7, which the decoder never
    reads. *)
Lemma parse_speed_data_sample_not_1508 :
  telemetry_sample = (telemetry_head ++ [x2b; x00; x00; x00; x00; x00; x00; x00; x00; x00; x00])%list
  /\ parse_speed_data telemetry_sample = (Some 3300, Some 3323)
  /\ parse_speed_data telemetry_sample <> (Some 1508, Some 3300)
  /\ parse_speed_data telemetry_head <> (Some 1508, Some 3300)
  /\ unpack_H_be (slice 6 8 telemetry_sample) = Some 1508.
Proof.
  repeat split; try reflexivity; vm_compute; discriminate.
Qed.

(** C4: decoding fails on every input shorter than 12 bytes; on every
    longer input it succeeds and returns the big-endian values of bytes
    [8:10] and [10:12]; hence a frame laid out with [target] and [actual]
    packed big-endian at offsets 8 and 10 decodes to exactly
    [(target, actual)]. *)
Theorem parse_speed_data_correct :
  (forall data : list byte,
      (length data < 12)%nat -> parse_speed_data data = (None, None))
  /\ (forall data : list byte,
         (12 <= length data)%nat ->
         exists b8 b9 b10 b11,
           slice 8 10 data = [b8; b9] /\ slice 10 12 data = [b10; b11]
           /\ parse_speed_data data
              = (Some (byte_to_Z b8 * 256 + byte_to_Z b9),
                 Some (byte_to_Z b10 * 256 + byte_to_Z b11)))
  /\ (forall (pre post : list byte) (target actual : Z),
         length pre = 8%nat ->
         0 <= target <= 65535 -> 0 <= actual <= 65535 ->
         exists tb ab,
           pack_H_be target = Some tb /\ pack_H_be actual = Some ab
           /\ parse_speed_data (pre ++ tb ++ ab ++ post)%list
              = (Some target, Some actual)).
Proof.
  split; [exact parse_speed_data_short|]. split.
  - intros data Hlen.
    destruct (split_at_12 data Hlen) as (pre & b8 & b9 & b10 & b11 & post & -> & Hpre).
    exists b8, b9, b10, b11.
    rewrite parse_speed_data_layout by exact Hpre.
    do 8 (destruct pre as [|? pre]; [discriminate Hpre|]).
    destruct pre; [|discriminate Hpre].
    repeat split; reflexivity.
  - intros pre post target actual Hpre Ht Ha.
    destruct (pack_H_be_Some target Ht) as (t1 & t0 & Htb & Et).
    destruct (pack_H_be_Some actual Ha) as (a1 & a0 & Hab & Ea).
    exists [t1; t0], [a1; a0]. split; [exact Htb|]. split; [exact Hab|].
    change (pre ++ [t1; t0] ++ [a1; a0] ++ post)%list
      with (pre ++ [t1; t0; a1; a0] ++ post)%list.
    rewrite parse_speed_data_layout by exact Hpre.
    rewrite Et, Ea. reflexivity.
Qed.

(** C4 at concrete inputs: an 11-byte input, the docstring packet, and a
    frame built around target 1508 and actual 65535. *)
Lemma parse_speed_data_correct_witness :
  parse_speed_data (take 11 telemetry_sample) = (None, None)
  /\ (exists b8 b9 b10 b11,
         slice 8 10 telemetry_sample = [b8; b9]
         /\ slice 10 12 telemetry_sample = [b10; b11]
         /\ parse_speed_data telemetry_sample
            = (Some (byte_to_Z b8 * 256 + byte_to_Z b9),
               Some (byte_to_Z b10 * 256 + byte_to_Z b11)))
  /\ (exists tb ab,
         pack_H_be 1508 = Some tb /\ pack_H_be 65535 = Some ab
         /\ parse_speed_data (take 8 telemetry_sample ++ tb ++ ab ++ [x2b])%list
            = (Some 1508, Some 65535)).
Proof.
  destruct parse_speed_data_correct as (Hshort & Hlong & Hround).
  split; [apply Hshort; vm_compute; lia|].
  split; [apply Hlong; vm_compute; lia|].
  apply Hround; [reflexivity | lia | lia].
Defined.

(** ** The gear table *)

Lemma gear_positions_elem (k : Z * Z) (c : string) :
  gear_positions !! k = Some c <-> (k, c) ∈ gear_table.
Proof.
  unfold gear_positions. symmetry. apply elem_of_list_to_map.
  apply (bool_decide_unpack _). vm_compute. reflexivity.
Qed.

Lemma gear_table_cases (k : Z * Z) (c : string) (P : Z * Z -> string -> Prop) :
  Forall (fun e => P e.1 e.2) gear_table -> (k, c) ∈ gear_table -> P k c.
Proof.
  intros HP Hin. rewrite Forall_forall in HP. exact (HP (k, c) Hin).
Qed.

Lemma gear_positions_domain (gear position : Z) :
  is_Some (gear_positions !! (gear, position))
  <-> (1 <= gear <= 4 /\ 1 <= position <= 3).
Proof.
  split.
  - intros [c Hc]. apply gear_positions_elem in Hc.
    revert Hc.
    apply (gear_table_cases (gear, position) c
             (fun k _ => 1 <= k.1 <= 4 /\ 1 <= k.2 <= 3)).
    unfold gear_table. repeat constructor; simpl; lia.
  - intros [Hg Hp].
    assert (gear = 1 \/ gear = 2 \/ gear = 3 \/ gear = 4) as Hgc by lia.
    assert (position = 1 \/ position = 2 \/ position = 3) as Hpc by lia.
    destruct Hgc as [-> | [-> | [-> | ->]]]; destruct Hpc as [-> | [-> | ->]];
      vm_compute; eauto.
Qed.

Lemma gear_frames_header (k : Z * Z) (c : string) :
  gear_positions !! k = Some c ->
  String.length c = 48%nat
  /\ exists rest, fromhex c = Some (gear_header ++ rest)%list /\ length rest = 20%nat.
Proof.
  intros Hc. apply gear_positions_elem in Hc. revert Hc.
  apply (gear_table_cases k c
           (fun _ c => String.length c = 48%nat
                       /\ exists rest, fromhex c = Some (gear_header ++ rest)%list
                                       /\ length rest = 20%nat)).
  unfold gear_table.
  repeat constructor; simpl; eexists; split; reflexivity.
Qed.

Lemma gear_frames_distinct (k1 k2 : Z * Z) (c1 c2 : string) :
  gear_positions !! k1 = Some c1 -> gear_positions !! k2 = Some c2 ->
  k1 <> k2 -> c1 <> c2 /\ fromhex c1 <> fromhex c2.
Proof.
  intros H1 H2 Hne.
  apply gear_positions_elem in H1. apply gear_positions_elem in H2.
  unfold gear_table in H1, H2.
  rewrite !elem_of_cons, elem_of_nil in H1.
  rewrite !elem_of_cons, elem_of_nil in H2.
  destruct_or!; try contradiction; simplify_eq;
    (split; [discriminate | vm_compute; discriminate]).
Qed.

(** ** Hexadecimal text *)

Lemma is_lower_hex_facts (c : ascii) :
  is_lower_hex c = true ->
  c <> " "%char /\ c <> "x"%char /\ is_space c = false
  /\ hex_digit_value c <> None.
Proof.
  destruct c as [[] [] [] [] [] [] [] []]; vm_compute; intros H;
    try discriminate H; repeat split; discriminate.
Qed.

Lemma hex_of_byte_lower (b : byte) (s : string) :
  lower_hex (hex_of_byte b +:+ s) = lower_hex s.
Proof. destruct b; reflexivity. Qed.

Lemma fromhex_hex_of_byte (b : byte) (s : string) :
  fromhex (hex_of_byte b +:+ s) = (bs ← fromhex s; Some (b :: bs)).
Proof. destruct b; reflexivity. Qed.

Lemma bytes_hex_lower (bs : list byte) : lower_hex (bytes_hex bs) = true.
Proof.
  induction bs as [|b bs IH]; [reflexivity|].
  cbn [bytes_hex]. rewrite hex_of_byte_lower. exact IH.
Qed.

(** [bytes.fromhex(bs.hex()) == bs]. *)
Lemma fromhex_bytes_hex (bs : list byte) : fromhex (bytes_hex bs) = Some bs.
Proof.
  induction bs as [|b bs IH]; [reflexivity|].
  cbn [bytes_hex]. rewrite fromhex_hex_of_byte, IH. reflexivity.
Qed.

Lemma bytes_hex_app (xs ys : list byte) :
  bytes_hex (xs ++ ys) = bytes_hex xs +:+ bytes_hex ys.
Proof.
  induction xs as [|x xs IH]; [reflexivity|].
  cbn [bytes_hex app]. rewrite IH. destruct x; reflexivity.
Qed.

Lemma format_02x_hex (n : Z) (b : byte) :
  byte_of_Z n = Some b -> format_02x n = hex_of_byte b.
Proof.
  unfold byte_of_Z, format_02x, hex_of_byte. intros H.
  destruct ((0 <=? n) && (n <? 256)); [|discriminate].
  apply Byte.to_of_N in H. rewrite H. reflexivity.
Qed.

Lemma replace_space_lower (s : string) :
  lower_hex s = true -> str_replace " " "" s = s.
Proof.
  unfold str_replace. induction s as [|c s IH]; [reflexivity|].
  intros H. cbn [lower_hex] in H. apply andb_true_iff in H as [Hc Hs].
  destruct (is_lower_hex_facts c Hc) as (Hsp & _).
  cbn [replace_from]. rewrite (IH Hs).
  replace (String.prefix " " (String c s)) with false; [reflexivity|].
  cbn [String.prefix].
  destruct (ascii_dec " " c) as [E|_]; [congruence | reflexivity].
Qed.

Lemma replace_0x_lower (s : string) :
  lower_hex s = true -> str_replace "0x" "" s = s.
Proof.
  unfold str_replace. induction s as [|c s IH]; [reflexivity|].
  intros H. cbn [lower_hex] in H. apply andb_true_iff in H as [Hc Hs].
  cbn [replace_from]. rewrite (IH Hs).
  replace (String.prefix "0x" (String c s)) with false; [reflexivity|].
  cbn [String.prefix].
  destruct (ascii_dec "0" c) as [_|_]; [|reflexivity].
  destruct s as [|d s]; [reflexivity|].
  cbn [lower_hex] in Hs. apply andb_true_iff in Hs as [Hd _].
  destruct (is_lower_hex_facts d Hd) as (_ & Hx & _).
  cbn [String.prefix].
  destruct (ascii_dec "x" d) as [E|_]; [congruence | reflexivity].
Qed.

Lemma residue_lower (s : string) : lower_hex s = true -> residue s = s.
Proof.
  intros H. unfold residue.
  rewrite (replace_space_lower s H). apply replace_0x_lower, H.
Qed.

(** A stray character makes [bytes.fromhex] raise. *)
Lemma fromhex_stray (s : string) : has_stray s = true -> fromhex s = None.
Proof.
  enough (forall s,
             (has_stray s = true -> fromhex s = None)
             /\ (forall c, has_stray (String c s) = true ->
                           fromhex (String c s) = None)) as Hboth
      by (apply Hboth).
  clear s. induction s as [|d s [IH1 IH2]].
  - split; [discriminate|].
    intros c. simpl.
    destruct (hex_digit_value c) eqn:Hc.
    + discriminate.
    + rewrite orb_false_r. intros H.
      apply negb_true_iff in H. rewrite H. reflexivity.
  - split; [apply IH2|].
    intros c H.
    cbn [fromhex]. cbn [has_stray] in H.
    destruct (is_space c) eqn:Hsp.
    + apply IH2.
      destruct (hex_digit_value c); [exact H|].
      simpl in H. exact H.
    + destruct (hex_digit_value c) as [top|] eqn:Hc; [|reflexivity].
      destruct (hex_digit_value d) as [bot|] eqn:Hd; [|reflexivity].
      rewrite (IH1 H).
      destruct (Byte.of_N (top * 16 + bot)); reflexivity.
Qed.

(** ** Running the report methods *)

Section Runs.

Variable hw : hid_backend.

Lemma logged_logged (es1 es2 : list event) (st : state) :
  logged es2 (logged es1 st) = logged (es2 ++ es1) st.
Proof. unfold logged. simpl. rewrite app_assoc. reflexivity. Qed.

Lemma logged_nil (st : state) : logged [] st = st.
Proof. destruct st; reflexivity. Qed.

Lemma hid_calls_app (es1 es2 : list event) :
  hid_calls (es1 ++ es2) = (hid_calls es1 ++ hid_calls es2)%list.
Proof. apply List.filter_app. Qed.

Lemma send_output_report_run (data : list byte) (st : state) :
  send_output_report hw data st =
  match device st with
  | None => (Return false, logged [Print MsgNotConnected] st)
  | Some d =>
      match opened_as d with
      | None => (Return false, logged [Print MsgOutputFailed] st)
      | Some _ =>
          match hid_write hw data with
          | Some n => (Return true, logged [Print (MsgOutputSent n); HidWrite data] st)
          | None => (Return false, logged [Print MsgOutputFailed; HidWrite data] st)
          end
      end
  end.
Proof.
  destruct st as [[[[ids|]]|] vid pid tr]; try reflexivity.
  unfold send_output_report, try_except, bind, get_device, device_write. simpl.
  unfold bind, emit, or_raise. simpl.
  destruct (hid_write hw data); reflexivity.
Qed.

Lemma send_feature_report_run (report_id : Z) (data : list byte) (st : state) :
  send_feature_report hw report_id data st =
  match device st with
  | None => (Return false, logged [Print MsgNotConnected] st)
  | Some d =>
      match byte_of_Z report_id with
      | None => (Return false, logged [Print MsgFeatureFailed] st)
      | Some rid =>
          match opened_as d with
          | None => (Return false, logged [Print MsgFeatureFailed] st)
          | Some _ =>
              match hid_send_feature_report hw (rid :: data) with
              | Some n =>
                  (Return true,
                   logged [Print (MsgFeatureSent report_id n); HidSendFeature (rid :: data)] st)
              | None =>
                  (Return false,
                   logged [Print MsgFeatureFailed; HidSendFeature (rid :: data)] st)
              end
          end
      end
  end.
Proof.
  destruct st as [[[[ids|]]|] vid pid tr]; try reflexivity;
    unfold send_feature_report, try_except, bind, get_device, or_raise; simpl;
    destruct (byte_of_Z report_id) as [rid|]; try reflexivity.
  unfold device_send_feature_report, bind, emit, or_raise. simpl.
  destruct (hid_send_feature_report hw (rid :: data)); reflexivity.
Qed.

Lemma len_zero_bytes (n : Z) : 0 <= n -> len (zero_bytes n) = n.
Proof.
  intros Hn. unfold len, zero_bytes. rewrite length_replicate. lia.
Qed.

Lemma send_hex_command_run (s : string) (report_id padding_length : Z) (st : state) :
  send_hex_command hw s report_id padding_length st =
  match fromhex (residue s) with
  | None => (Return false, logged [Print MsgHexFormatError] st)
  | Some payload =>
      let warning := too_long_warning padding_length payload in
      if padding_allocates hw padding_length payload then
        match byte_of_Z report_id with
        | None => (Return false, logged (Print MsgHexFormatError :: warning) st)
        | Some rid =>
            if padding_fits hw padding_length payload then
              let command :=
                (rid :: payload ++ padding_for padding_length payload)%list in
              send_output_report hw command
                (logged (Print (MsgSending (residue s) (len command)) :: warning) st)
            else (Return false, logged (Print MsgSendFailed :: warning) st)
        end
      else (Return false, logged (Print MsgSendFailed :: warning) st)
  end.
Proof.
  unfold send_hex_command, try_except, bind, or_raise, residue.
  destruct (fromhex _) as [payload|]; [|reflexivity].
  unfold too_long_warning, padding_for, padding_fits, padding_allocates,
    bytes_of_size, bytes_add.
  simpl.
  destruct (padding_length - 1 - len payload <? 0) eqn:Hneg; simpl.
  - destruct (0 <=? Z.of_N (bytes_max hw)); simpl; [|reflexivity].
    destruct (byte_of_Z report_id) as [rid|]; simpl; [|reflexivity].
    change (len (zero_bytes 0)) with 0.
    destruct (0 <=? Z.of_N (frame_max hw)); simpl; [|reflexivity].
    destruct (send_output_report hw _ _) as [[b|e] st'] eqn:Hrun;
      [reflexivity|].
    rewrite send_output_report_run in Hrun; simpl in Hrun;
      repeat match type of Hrun with
             | context [match ?x with _ => _ end] => destruct x
             end; discriminate Hrun.
  - apply Z.ltb_ge in Hneg.
    destruct (_ <=? Z.of_N (bytes_max hw)); simpl; [|reflexivity].
    destruct (byte_of_Z report_id) as [rid|]; simpl; [|reflexivity].
    rewrite (len_zero_bytes _ Hneg).
    destruct (_ <=? Z.of_N (frame_max hw)); simpl; [|reflexivity].
    destruct (send_output_report hw _ _) as [[b|e] st'] eqn:Hrun;
      [reflexivity|].
    rewrite send_output_report_run in Hrun; simpl in Hrun;
      repeat match type of Hrun with
             | context [match ?x with _ => _ end] => destruct x
             end; discriminate Hrun.
Qed.

End Runs.

(** ** Frames built by [send_hex_command] *)

Section Frames.

Variable hw : hid_backend.

Lemma is_connected_inv (st : state) :
  is_connected st = true ->
  exists d ids, device st = Some d /\ opened_as d = Some ids.
Proof.
  unfold is_connected. destruct (device st) as [d|]; [|discriminate].
  destruct (opened_as d) as [ids|] eqn:Hd; [|discriminate].
  eauto.
Qed.

Lemma hid_calls_warning (padding_length : Z) (payload : list byte) :
  hid_calls (too_long_warning padding_length payload) = [].
Proof.
  unfold too_long_warning. destruct (_ <? 0); reflexivity.
Qed.

Lemma padding_fits_allocates (padding_length : Z) (payload : list byte) :
  padding_fits hw padding_length payload = true ->
  padding_allocates hw padding_length payload = true.
Proof.
  unfold padding_fits. intros H. apply andb_true_iff in H as [H _]. exact H.
Qed.

Lemma padding_fits_unpadded (padding_length : Z) (payload : list byte) :
  padding_length - 1 <= len payload -> padding_fits hw padding_length payload = true.
Proof.
  intros H. unfold padding_fits, padding_allocates.
  destruct (Z.ltb_spec (padding_length - 1 - len payload) 0);
    apply andb_true_iff; split; apply Z.leb_le; lia.
Qed.

Lemma padding_fits_overlong (padding_length : Z) (payload : list byte) :
  padding_length - 1 < len payload -> padding_fits hw padding_length payload = true.
Proof. intros H. apply padding_fits_unpadded. lia. Qed.

Lemma send_hex_command_connected
    (s : string) (report_id padding_length : Z) (st : state)
    (payload : list byte) (rid : byte) :
  is_connected st = true ->
  fromhex (residue s) = Some payload ->
  padding_fits hw padding_length payload = true ->
  byte_of_Z report_id = Some rid ->
  let report := (rid :: payload ++ padding_for padding_length payload)%list in
  exists last,
    send_hex_command hw s report_id padding_length st
    = (Return (write_ok hw report),
       logged (Print last :: HidWrite report
               :: Print (MsgSending (residue s) (len report))
               :: too_long_warning padding_length payload) st).
Proof.
  intros Hc Hp Hf Hr report.
  destruct (is_connected_inv st Hc) as (d & ids & Hd & Ho).
  rewrite send_hex_command_run, Hp. cbv zeta.
  rewrite (padding_fits_allocates _ _ Hf), Hr, Hf.
  rewrite send_output_report_run. cbn [logged device]. rewrite Hd, Ho.
  fold report. unfold write_ok.
  destruct (hid_write hw report) as [n|];
    eexists; rewrite logged_logged; reflexivity.
Qed.

Lemma send_hex_command_sends
    (s : string) (report_id padding_length : Z) (st : state)
    (payload : list byte) (rid : byte) :
  is_connected st = true ->
  fromhex (residue s) = Some payload ->
  padding_fits hw padding_length payload = true ->
  byte_of_Z report_id = Some rid ->
  sends hw (send_hex_command hw s report_id padding_length) st
        (rid :: payload ++ padding_for padding_length payload).
Proof.
  intros Hc Hp Hf Hr.
  destruct (send_hex_command_connected s report_id padding_length st payload rid
              Hc Hp Hf Hr) as [last Hrun].
  eexists. split; [exact Hrun|].
  cbn [hid_calls List.filter is_hid_call]. fold (hid_calls (too_long_warning padding_length payload)).
  rewrite hid_calls_warning. reflexivity.
Qed.

(** When the padding or the frame cannot be allocated nothing reaches the
    bus, whatever the link. *)
Lemma send_hex_command_unallocated
    (s : string) (report_id padding_length : Z) (st : state)
    (payload : list byte) (rid : byte) :
  fromhex (residue s) = Some payload ->
  byte_of_Z report_id = Some rid ->
  padding_fits hw padding_length payload = false ->
  refuses (send_hex_command hw s report_id padding_length) st MsgSendFailed.
Proof.
  intros Hp Hr Hf. unfold refuses. rewrite send_hex_command_run, Hp.
  cbv zeta. rewrite Hr, Hf.
  destruct (padding_allocates hw padding_length payload);
    (eexists; split; [reflexivity|]; split;
     [left; reflexivity
     |cbn [hid_calls List.filter is_hid_call]; apply hid_calls_warning]).
Qed.

Lemma send_hex_command_closed
    (s : string) (report_id padding_length : Z) (st : state) :
  device st = None ->
  fails_unsent (send_hex_command hw s report_id padding_length) st.
Proof.
  intros Hd. unfold fails_unsent. rewrite send_hex_command_run.
  destruct (fromhex (residue s)) as [payload|]; [|eexists; split; reflexivity].
  cbv zeta.
  assert (forall m, exists es,
             (Return false,
              logged (Print m :: too_long_warning padding_length payload) st)
             = (Return false, logged es st) /\ hid_calls es = []) as Hline.
  { intros m. eexists. split; [reflexivity|].
    cbn [hid_calls List.filter is_hid_call]. apply hid_calls_warning. }
  destruct (padding_allocates hw padding_length payload); [|apply Hline].
  destruct (byte_of_Z report_id) as [rid|]; [|apply Hline].
  destruct (padding_fits hw padding_length payload); [|apply Hline].
  rewrite send_output_report_run. cbn [logged device]. rewrite Hd.
  eexists. rewrite logged_logged. split; [reflexivity|].
  cbn [app hid_calls List.filter is_hid_call]. apply hid_calls_warning.
Qed.

Lemma send_hex_command_closed_valid
    (s : string) (report_id padding_length : Z) (st : state)
    (payload : list byte) (rid : byte) :
  device st = None ->
  fromhex (residue s) = Some payload ->
  padding_fits hw padding_length payload = true ->
  byte_of_Z report_id = Some rid ->
  refuses (send_hex_command hw s report_id padding_length) st MsgNotConnected.
Proof.
  intros Hd Hp Hf Hr. unfold refuses. rewrite send_hex_command_run, Hp.
  cbv zeta. rewrite (padding_fits_allocates _ _ Hf), Hr, Hf.
  rewrite send_output_report_run. cbn [logged device]. rewrite Hd.
  eexists. rewrite logged_logged. split; [reflexivity|]. split.
  - left. reflexivity.
  - cbn [app hid_calls List.filter is_hid_call]. apply hid_calls_warning.
Qed.

Lemma len_padding_for (padding_length : Z) (payload : list byte) :
  len (padding_for padding_length payload)
  = Z.max 0 (padding_length - 1 - len payload).
Proof.
  unfold padding_for, zero_bytes, len. rewrite length_replicate.
  destruct (Z.ltb_spec (padding_length - 1 - Z.of_nat (length payload)) 0); lia.
Qed.

Lemma len_report (padding_length : Z) (rid : byte) (payload : list byte) :
  len (rid :: payload ++ padding_for padding_length payload)
  = Z.max padding_length (1 + len payload).
Proof.
  pose proof (len_padding_for padding_length payload) as Hp.
  unfold len in *. cbn [length]. rewrite length_app. lia.
Qed.

End Frames.

(** C5, as the code has it: an over-long payload is not rejected. On a
    connected controller, whenever the text decodes and the padding can be
    allocated, [send_hex_command] writes the report id, the payload and
    the padding; the report is [max(padding_length, 1 + len(payload))]
    bytes long. A payload of at most [padding_length - 1] bytes is
    zero-padded to exactly [padding_length]; a longer one is announced by
    a warning and sent unpadded, longer than declared (it needs no padding,
    so the allocation cannot fail). When the padding, or the frame that
    ends with it, cannot be allocated, the command fails with the
    send-failed line and nothing is written. *)
Theorem send_hex_command_length
    (hw : hid_backend) (st : state) (s : string) (report_id padding_length : Z)
    (payload : list byte) (rid : byte) :
  is_connected st = true ->
  fromhex (residue s) = Some payload ->
  byte_of_Z report_id = Some rid ->
  (padding_fits hw padding_length payload = true ->
   exists es report,
     send_hex_command hw s report_id padding_length st
     = (Return (write_ok hw report), logged es st)
     /\ hid_calls es = [HidWrite report]
     /\ len report = Z.max padding_length (1 + len payload)
     /\ (len payload <= padding_length - 1 ->
         report = (rid :: payload
                   ++ replicate (Z.to_nat (padding_length - 1 - len payload)) x00)%list
         /\ len report = padding_length)
     /\ (padding_length - 1 < len payload ->
         report = rid :: payload
         /\ padding_length < len report
         /\ In (Print (MsgTooLong (len payload) (padding_length - 1))) es))
  /\ (padding_length - 1 < len payload ->
      padding_fits hw padding_length payload = true)
  /\ (padding_fits hw padding_length payload = false ->
      refuses (send_hex_command hw s report_id padding_length) st MsgSendFailed).
Proof.
  intros Hc Hp Hr. split; [|split].
  2: { apply padding_fits_overlong. }
  2: { apply send_hex_command_unallocated with (payload := payload) (rid := rid); assumption. }
  intros Hf.
  destruct (send_hex_command_connected hw s report_id padding_length st payload rid
              Hc Hp Hf Hr) as [last Hrun].
  eexists. exists (rid :: payload ++ padding_for padding_length payload)%list.
  split; [exact Hrun|].
  split.
  { cbn [hid_calls List.filter is_hid_call].
    fold (hid_calls (too_long_warning padding_length payload)).
    rewrite hid_calls_warning. reflexivity. }
  split; [apply len_report|].
  split.
  - intros Hle. split.
    + unfold padding_for, zero_bytes.
      destruct (Z.ltb_spec (padding_length - 1 - len payload) 0); [lia|reflexivity].
    + rewrite len_report. lia.
  - intros Hgt. split; [|split].
    + unfold padding_for, zero_bytes.
      destruct (Z.ltb_spec (padding_length - 1 - len payload) 0); [|lia].
      simpl. rewrite app_nil_r. reflexivity.
    + rewrite len_report. lia.
    + right. right. right. unfold too_long_warning.
      destruct (Z.ltb_spec (padding_length - 1 - len payload) 0); [|lia].
      left. reflexivity.
Qed.

(** C5 at concrete inputs: the two-byte text [5aa5] with the default
    report id and length, and with a length whose padding is beyond what
    the machine allocates. *)
Lemma send_hex_command_length_witness :
  (exists es report,
    send_hex_command responsive "5aa5" 2 23 bound
    = (Return (write_ok responsive report), logged es bound)
    /\ hid_calls es = [HidWrite report]
    /\ len report = Z.max 23 (1 + len [x5a; xa5])
    /\ (len [x5a; xa5] <= 23 - 1 ->
        report = (x02 :: [x5a; xa5]
                  ++ replicate (Z.to_nat (23 - 1 - len [x5a; xa5])) x00)%list
        /\ len report = 23)
    /\ (23 - 1 < len [x5a; xa5] ->
        report = x02 :: [x5a; xa5]
        /\ 23 < len report
        /\ In (Print (MsgTooLong (len [x5a; xa5]) (23 - 1))) es))
  /\ refuses (send_hex_command responsive "5aa5" 2 (2 ^ 63)) bound MsgSendFailed.
Proof.
  split.
  - apply (send_hex_command_length responsive bound "5aa5" 2 23 [x5a; xa5] x02);
      reflexivity.
  - apply (send_hex_command_length responsive bound "5aa5" 2 (2 ^ 63) [x5a; xa5] x02);
      reflexivity.
Defined.

(** C5, as stated, fails: the 24-byte gear frame exceeds the 22 bytes that
    the declared length 23 leaves for a payload, yet the command is not
    rejected; a 25-byte report is written. *)
Lemma send_hex_command_overlong_sent :
  exists payload report st',
    fromhex (residue gear_1_1) = Some payload
    /\ default_padding_length - 1 < len payload
    /\ send_hex_command responsive gear_1_1 default_report_id
         default_padding_length bound = (Return true, st')
    /\ written (trace st') = [report]
    /\ report = x02 :: payload
    /\ len report = 25
    /\ len report <> default_padding_length.
Proof.
  do 3 eexists. repeat split; try (vm_compute; reflexivity).
  vm_compute. discriminate.
Qed.

(** C8, as the code has it: every space and every occurrence of [0x] is
    removed from the text (other white space stays and is skipped by the
    decoder between bytes). If what remains contains a character that is
    neither a hex digit nor white space, or fails to decode for any other
    reason, the command fails with the hex-format error and nothing is
    sent. If it decodes and the padding and the frame can be allocated,
    the bytes follow the report id unchanged, then the zero padding; if
    they cannot, the command fails with the send-failed line and nothing
    is sent. *)
Theorem send_hex_command_hex_text
    (hw : hid_backend) (st : state) (s : string) (report_id padding_length : Z) :
  (has_stray (residue s) = true -> fromhex (residue s) = None)
  /\ (fromhex (residue s) = None ->
      send_hex_command hw s report_id padding_length st
      = (Return false, logged [Print MsgHexFormatError] st))
  /\ (forall payload rid,
         fromhex (residue s) = Some payload ->
         padding_fits hw padding_length payload = true ->
         byte_of_Z report_id = Some rid ->
         is_connected st = true ->
         sends hw (send_hex_command hw s report_id padding_length) st
               (rid :: payload ++ padding_for padding_length payload))
  /\ (forall payload rid,
         fromhex (residue s) = Some payload ->
         byte_of_Z report_id = Some rid ->
         padding_fits hw padding_length payload = false ->
         refuses (send_hex_command hw s report_id padding_length) st
                 MsgSendFailed).
Proof.
  split; [apply fromhex_stray|]. split; [|split].
  - intros Hnone. rewrite send_hex_command_run, Hnone. reflexivity.
  - intros payload rid Hp Hf Hr Hc. apply send_hex_command_sends; assumption.
  - intros payload rid Hp Hr Hf.
    apply send_hex_command_unallocated with (payload := payload) (rid := rid); assumption.
Qed.

(** C8 at concrete inputs: [5a zz] is rejected, [0x5a 0xa5] is sent, and
    with a padding beyond what the machine allocates it is not. *)
Lemma send_hex_command_hex_text_witness :
  send_hex_command responsive "5a zz" 2 23 bound
  = (Return false, logged [Print MsgHexFormatError] bound)
  /\ sends responsive (send_hex_command responsive "0x5a 0xa5" 2 23) bound
           (x02 :: [x5a; xa5] ++ padding_for 23 [x5a; xa5])
  /\ refuses (send_hex_command responsive "0x5a 0xa5" 2 (2 ^ 63)) bound
             MsgSendFailed.
Proof.
  destruct (send_hex_command_hex_text responsive bound "5a zz" 2 23)
    as (Hstray & Hfail & _).
  destruct (send_hex_command_hex_text responsive bound "0x5a 0xa5" 2 23)
    as (_ & _ & Hsend & _).
  destruct (send_hex_command_hex_text responsive bound "0x5a 0xa5" 2 (2 ^ 63))
    as (_ & _ & _ & Hmem).
  split; [|split].
  - apply Hfail, Hstray. reflexivity.
  - apply Hsend; reflexivity.
  - apply (Hmem [x5a; xa5] x02); reflexivity.
Defined.

(** C8, as stated, fails: in [5a0xa5] no white space and no leading [0x]
    can be stripped, so an [x] remains under the stated rule; the code
    removes the inner [0x] and sends the bytes [5a a5]. *)
Lemma send_hex_command_inner_0x_sent :
  spec_strip "5a0xa5" = "5a0xa5"
  /\ has_stray (spec_strip "5a0xa5") = true
  /\ residue "5a0xa5" = "5aa5"
  /\ exists st',
      send_hex_command responsive "5a0xa5" 2 23 bound = (Return true, st')
      /\ written (trace st')
         = [x02 :: [x5a; xa5] ++ replicate 20 x00].
Proof.
  repeat split. eexists. split; vm_compute; reflexivity.
Qed.

(** ** The speed command *)

Section Speed.

Variable hw : hid_backend.

Lemma print_then {A} (m : message) (k : py A) (st : state) :
  (print m ;; k) st = k (logged [Print m] st).
Proof. reflexivity. Qed.

Lemma sends_logged (k : py bool) (es0 : list event) (st : state) (report : list byte) :
  hid_calls es0 = [] ->
  sends hw k (logged es0 st) report ->
  exists es, k (logged es0 st) = (Return (write_ok hw report), logged es st)
             /\ hid_calls es = [HidWrite report].
Proof.
  intros H0 (es & Hrun & Hes).
  exists (es ++ es0)%list. rewrite Hrun, logged_logged. split; [reflexivity|].
  rewrite hid_calls_app, Hes, H0. reflexivity.
Qed.

Lemma fails_unsent_logged (k : py bool) (es0 : list event) (st : state) :
  hid_calls es0 = [] ->
  fails_unsent k (logged es0 st) ->
  exists es, k (logged es0 st) = (Return false, logged es st)
             /\ hid_calls es = [].
Proof.
  intros H0 (es & Hrun & Hes).
  exists (es ++ es0)%list. rewrite Hrun, logged_logged. split; [reflexivity|].
  rewrite hid_calls_app, Hes, H0. reflexivity.
Qed.

(** A catalog text of lower-case digits goes out as the report id [02]
    followed by its bytes, cut or padded as [send_hex_command] does. *)
Lemma send_hex_bytes (frame : list byte) (st : state) :
  default_padding_length - 1 <= len frame ->
  is_connected st = true ->
  sends hw (send_hex hw (bytes_hex frame)) st
        (x02 :: frame ++ padding_for default_padding_length frame).
Proof.
  intros Hlen Hc. unfold send_hex.
  apply send_hex_command_sends; [exact Hc| | |reflexivity].
  - rewrite residue_lower by apply bytes_hex_lower.
    apply fromhex_bytes_hex.
  - apply padding_fits_unpadded. exact Hlen.
Qed.

Lemma send_hex_closed (s : string) (st : state) :
  device st = None -> fails_unsent (send_hex hw s) st.
Proof. apply send_hex_command_closed. Qed.

Lemma checksum_mod (b4 b5 : Z) :
  Z.land (0x5A + 0xA5 + 0x21 + 0x04 + b4 + b5 + 1) 0xFF
  = (0x5A + 0xA5 + 0x21 + 0x04 + b4 + b5 + 1) mod 256.
Proof.
  change 0xFF with (Z.ones 8). rewrite Z.land_ones by lia. reflexivity.
Qed.

Lemma calculate_checksum_run (rpm : Z) (st : state) :
  0 <= rpm <= 65535 ->
  calculate_checksum rpm st
  = (Return ((0x5A + 0xA5 + 0x21 + 0x04 + rpm mod 256 + rpm / 256 + 1) mod 256), st).
Proof.
  intros Hr.
  destruct (to_bytes_2_little_Some rpm Hr) as (b0 & b1 & Hb & E0 & E1).
  unfold calculate_checksum, bind, or_raise. rewrite Hb. cbn.
  rewrite checksum_mod, E0, E1. reflexivity.
Qed.

(** Outside the 16-bit range [to_bytes] raises. *)
Lemma calculate_checksum_overflow (rpm : Z) (st : state) :
  rpm < 0 \/ 65535 < rpm ->
  calculate_checksum rpm st = (Raise OverflowError, st).
Proof.
  intros Hout. unfold calculate_checksum, bind, or_raise, to_bytes_2_little.
  replace ((0 <=? rpm) && (rpm <=? 65535)) with false; [reflexivity|].
  symmetry. apply andb_false_iff.
  destruct Hout; [left | right]; apply Z.leb_gt; lia.
Qed.

Lemma set_fan_speed_run (rpm : Z) (st : state) :
  0 <= rpm <= 65535 ->
  exists b0 b1 ck : byte,
    byte_to_Z b0 = rpm mod 256
    /\ byte_to_Z b1 = rpm / 256
    /\ byte_to_Z ck
       = (0x5A + 0xA5 + 0x21 + 0x04 + byte_to_Z b0 + byte_to_Z b1 + 1) mod 256
    /\ set_fan_speed hw rpm st
       = send_hex hw
           (bytes_hex ([x5a; xa5; x21; x04; b0; b1; ck] ++ replicate 16 x00))
           (logged [Print (MsgCommand
                             (bytes_hex ([x5a; xa5; x21; x04; b0; b1; ck]
                                         ++ replicate 16 x00)));
                    Print (MsgSetSpeed rpm)] st).
Proof.
  intros Hr.
  destruct (to_bytes_2_little_Some rpm Hr) as (b0 & b1 & Hb & E0 & E1).
  set (sum := (0x5A + 0xA5 + 0x21 + 0x04 + rpm mod 256 + rpm / 256 + 1) mod 256).
  destruct (byte_of_Z_Some sum) as (ck & Hck & Eck).
  { apply Z.mod_pos_bound. lia. }
  exists b0, b1, ck. rewrite E0, E1. repeat split; try assumption.
  unfold set_fan_speed.
  replace ((0 <=? rpm) && (rpm <=? 65535)) with true
    by (symmetry; apply andb_true_iff; split; apply Z.leb_le; lia).
  cbn [negb]. unfold bind at 1. unfold or_raise at 1. rewrite Hb.
  unfold ret at 1. unfold bind at 1. rewrite (calculate_checksum_run rpm st Hr).
  fold sum. rewrite (format_02x_hex sum ck Hck).
  reflexivity.
Qed.

Lemma set_fan_speed_rejects (rpm : Z) (st : state) :
  rpm < 0 \/ 65535 < rpm ->
  set_fan_speed hw rpm st = (Return false, logged [Print (MsgRpmOutOfRange rpm)] st).
Proof.
  intros Hout. unfold set_fan_speed.
  replace ((0 <=? rpm) && (rpm <=? 65535)) with false; [reflexivity|].
  symmetry. apply andb_false_iff.
  destruct Hout; [left; apply Z.leb_gt | right; apply Z.leb_gt]; lia.
Qed.

Lemma set_fan_speed_report (rpm : Z) (st : state) :
  0 <= rpm <= 65535 ->
  is_connected st = true ->
  exists (b0 b1 ck : byte),
    byte_to_Z b0 = rpm mod 256
    /\ byte_to_Z b1 = rpm / 256
    /\ byte_to_Z ck
       = (0x5A + 0xA5 + 0x21 + 0x04 + byte_to_Z b0 + byte_to_Z b1 + 1) mod 256
    /\ sends hw (set_fan_speed hw rpm) st
             ([x02; x5a; xa5; x21; x04; b0; b1; ck] ++ replicate 16 x00).
Proof.
  intros Hr Hc.
  destruct (set_fan_speed_run rpm st Hr) as (b0 & b1 & ck & E0 & E1 & Eck & Hrun).
  exists b0, b1, ck. repeat split; try assumption.
  unfold sends. rewrite Hrun.
  apply (sends_logged (send_hex hw _)); [reflexivity|].
  apply (send_hex_bytes ([x5a; xa5; x21; x04; b0; b1; ck] ++ replicate 16 x00));
    [vm_compute; discriminate | exact Hc].
Qed.

End Speed.

(** C7: an rpm outside [0, 65535] is refused at once: the method prints
    the range message and returns [False]; nothing else happens, so no
    report for any value, clamped or not, reaches the bus. *)
Theorem set_fan_speed_out_of_range (hw : hid_backend) (rpm : Z) (st : state) :
  rpm < 0 \/ 65535 < rpm ->
  set_fan_speed hw rpm st = (Return false, logged [Print (MsgRpmOutOfRange rpm)] st)
  /\ refuses (set_fan_speed hw rpm) st (MsgRpmOutOfRange rpm)
  /\ written (trace (set_fan_speed hw rpm st).2) = written (trace st).
Proof.
  intros Hout.
  pose proof (set_fan_speed_rejects hw rpm st Hout) as Hrun.
  split; [exact Hrun|]. split.
  - exists [Print (MsgRpmOutOfRange rpm)].
    split; [exact Hrun|]. split; [left|]; reflexivity.
  - rewrite Hrun. reflexivity.
Qed.

(** C7 at 65536 and at -1, on a connected controller. *)
Lemma set_fan_speed_out_of_range_witness :
  (set_fan_speed responsive 65536 bound
   = (Return false, logged [Print (MsgRpmOutOfRange 65536)] bound)
   /\ refuses (set_fan_speed responsive 65536) bound (MsgRpmOutOfRange 65536)
   /\ written (trace (set_fan_speed responsive 65536 bound).2) = written (trace bound))
  /\ (set_fan_speed responsive (-1) bound).1 = Return false.
Proof.
  split.
  - apply (set_fan_speed_out_of_range responsive 65536 bound). right. lia.
  - destruct (set_fan_speed_out_of_range responsive (-1) bound) as [H _];
      [left; lia|].
    rewrite H. reflexivity.
Defined.

(** C1, what the code does: for every rpm in [0, 65535] a connected
    controller writes one report, the report id [02] followed by
    [5a a5 21 04 lo hi ck] and sixteen zero bytes, where [lo] and [hi] are
    the little-endian bytes of rpm and
    [ck = (5A+A5+21+04+lo+hi+1) mod 256]. The checksum is as claimed; the
    report is 24 bytes long (23 after the report id), one byte short of the
    25 of every other catalog command. *)
Theorem set_fan_speed_frame (hw : hid_backend) (rpm : Z) (st : state) :
  0 <= rpm <= 65535 ->
  is_connected st = true ->
  exists (b0 b1 ck : byte) (report : list byte),
    byte_to_Z b0 = rpm mod 256
    /\ byte_to_Z b1 = rpm / 256
    /\ byte_to_Z ck
       = (0x5A + 0xA5 + 0x21 + 0x04 + byte_to_Z b0 + byte_to_Z b1 + 1) mod 256
    /\ report = ([x02; x5a; xa5; x21; x04; b0; b1; ck] ++ replicate 16 x00)%list
    /\ sends hw (set_fan_speed hw rpm) st report
    /\ length report = 24%nat.
Proof.
  intros Hr Hc.
  destruct (set_fan_speed_report hw rpm st Hr Hc) as (b0 & b1 & ck & E0 & E1 & Eck & Hs).
  exists b0, b1, ck. eexists. repeat split; try eassumption; reflexivity.
Qed.

(** C1 at rpm 2000 on a connected controller. *)
Lemma set_fan_speed_frame_witness :
  exists (b0 b1 ck : byte) (report : list byte),
    byte_to_Z b0 = 2000 mod 256
    /\ byte_to_Z b1 = 2000 / 256
    /\ byte_to_Z ck
       = (0x5A + 0xA5 + 0x21 + 0x04 + byte_to_Z b0 + byte_to_Z b1 + 1) mod 256
    /\ report = ([x02; x5a; xa5; x21; x04; b0; b1; ck] ++ replicate 16 x00)%list
    /\ sends responsive (set_fan_speed responsive 2000) bound report
    /\ length report = 24%nat.
Proof.
  apply (set_fan_speed_frame responsive 2000 bound); [lia | reflexivity].
Defined.

(** C2, as the code has it: for rpm 2000 a connected controller writes the
    report id followed by [5a a5 21 04 d0 07 fc] and zero bytes only; the
    checksum [(5A+A5+21+04+D0+07+1) mod 256] is [0xFC]. *)
Theorem set_fan_speed_2000 (hw : hid_backend) (st : state) :
  is_connected st = true ->
  (0x5A + 0xA5 + 0x21 + 0x04 + 0xD0 + 0x07 + 1) mod 256 = 0xFC
  /\ exists (k : nat) (report : list byte),
      report = (x02 :: [x5a; xa5; x21; x04; xd0; x07; xfc] ++ replicate k x00)%list
      /\ String.prefix "5aa52104d007fc" (bytes_hex (tail report)) = true
      /\ sends hw (set_fan_speed hw 2000) st report.
Proof.
  intros Hc. split; [reflexivity|].
  destruct (set_fan_speed_report hw 2000 st ltac:(lia) Hc)
    as (b0 & b1 & ck & E0 & E1 & Eck & Hsend).
  assert (b0 = xd0) as ->.
  { pose proof (byte_of_to_Z b0) as H. rewrite E0 in H.
    vm_compute in H. congruence. }
  assert (b1 = x07) as ->.
  { pose proof (byte_of_to_Z b1) as H. rewrite E1 in H.
    vm_compute in H. congruence. }
  assert (ck = xfc) as ->.
  { pose proof (byte_of_to_Z ck) as H. rewrite Eck in H.
    vm_compute in H. congruence. }
  exists 16%nat. eexists. split; [reflexivity|]. split; [reflexivity|].
  exact Hsend.
Qed.

(** C2 on the controller right after connecting. *)
Lemma set_fan_speed_2000_witness :
  (0x5A + 0xA5 + 0x21 + 0x04 + 0xD0 + 0x07 + 1) mod 256 = 0xFC
  /\ exists (k : nat) (report : list byte),
      report = (x02 :: [x5a; xa5; x21; x04; xd0; x07; xfc] ++ replicate k x00)%list
      /\ String.prefix "5aa52104d007fc" (bytes_hex (tail report)) = true
      /\ sends responsive (set_fan_speed responsive 2000) bound report.
Proof.
  apply (set_fan_speed_2000 responsive bound). reflexivity.
Defined.

(** C2, as stated, fails: the checksum of the rpm-2000 frame is [fc], not
    [33], so the frame does not begin [5aa52104d00733]. *)
Lemma set_fan_speed_2000_not_33 :
  (0x5A + 0xA5 + 0x21 + 0x04 + 0xD0 + 0x07 + 1) mod 256 <> 0x33
  /\ exists report st',
      set_fan_speed responsive 2000 bound = (Return true, st')
      /\ written (trace st') = [report]
      /\ report !! 7%nat = Some xfc
      /\ String.prefix "5aa52104d00733" (bytes_hex (tail report)) = false
      /\ String.prefix "5aa52104d00733" (bytes_hex report) = false
      /\ length report = 24%nat.
Proof.
  split; [vm_compute; discriminate|].
  do 2 eexists. repeat split; vm_compute; reflexivity.
Qed.

(** ** The catalog commands *)

Section Catalog.

Variable hw : hid_backend.

Lemma sends_via (m k : py bool) (es0 : list event) (st : state) (report : list byte) :
  m st = k (logged es0 st) ->
  hid_calls es0 = [] ->
  sends hw k (logged es0 st) report ->
  sends hw m st report.
Proof.
  intros Hm H0 Hk. unfold sends. rewrite Hm. apply sends_logged; assumption.
Qed.

Lemma fails_unsent_via (m k : py bool) (es0 : list event) (st : state) :
  m st = k (logged es0 st) ->
  hid_calls es0 = [] ->
  fails_unsent k (logged es0 st) ->
  fails_unsent m st.
Proof.
  intros Hm H0 Hk. unfold fails_unsent. rewrite Hm.
  apply fails_unsent_logged; assumption.
Qed.

Lemma refuses_via (m k : py bool) (es0 : list event) (st : state) (why : message) :
  m st = k (logged es0 st) ->
  hid_calls es0 = [] ->
  refuses k (logged es0 st) why ->
  refuses m st why.
Proof.
  intros Hm H0 (es & Hrun & Hin & Hes). unfold refuses. rewrite Hm.
  exists (es ++ es0)%list. rewrite Hrun, logged_logged.
  split; [reflexivity|]. split.
  - apply in_or_app. left. exact Hin.
  - rewrite hid_calls_app, Hes, H0. reflexivity.
Qed.

Lemma refuses_fails_unsent (m : py bool) (st : state) (why : message) :
  refuses m st why -> fails_unsent m st.
Proof. intros (es & Hrun & _ & Hes). exists es. auto. Qed.

Lemma padding_for_overlong (padding_length : Z) (payload : list byte) :
  padding_length - 1 < len payload -> padding_for padding_length payload = [].
Proof.
  intros H. unfold padding_for.
  destruct (Z.ltb_spec (padding_length - 1 - len payload) 0); [reflexivity | lia].
Qed.

(** A lower-case text of 24 bytes goes out as 25: the report id and the
    bytes, unpadded. *)
Lemma send_hex_24 (c : string) (payload : list byte) (st : state) :
  lower_hex c = true ->
  fromhex c = Some payload ->
  length payload = 24%nat ->
  is_connected st = true ->
  sends hw (send_hex hw c) st (x02 :: payload).
Proof.
  intros Hl Hp Hn Hc.
  pose proof (send_hex_command_sends hw c default_report_id default_padding_length
                st payload x02 Hc) as H.
  assert (Hlen : default_padding_length - 1 < len payload)
    by (unfold len; rewrite Hn; reflexivity).
  rewrite (residue_lower c Hl) in H.
  specialize (H Hp (padding_fits_overlong hw _ _ Hlen) eq_refl).
  rewrite padding_for_overlong, app_nil_r in H; [exact H|exact Hlen].
Qed.

Lemma send_hex_closed_valid (c : string) (payload : list byte) (st : state) :
  lower_hex c = true ->
  fromhex c = Some payload ->
  default_padding_length - 1 <= len payload ->
  device st = None ->
  refuses (send_hex hw c) st MsgNotConnected.
Proof.
  intros Hl Hp Hn Hd.
  apply (send_hex_command_closed_valid hw c _ _ st payload x02 Hd);
    [rewrite (residue_lower c Hl); exact Hp | | reflexivity].
  apply padding_fits_unpadded. exact Hn.
Qed.

Lemma literal_commands_shape :
  Forall (fun c => String.length c = 48%nat /\ lower_hex c = true
                   /\ exists payload, fromhex c = Some payload
                                      /\ length payload = 24%nat)
         literal_commands.
Proof.
  unfold literal_commands.
  repeat constructor; eexists; split; reflexivity.
Qed.

Lemma gear_texts_shape (k : Z * Z) (c : string) :
  gear_positions !! k = Some c ->
  lower_hex c = true
  /\ exists payload, fromhex c = Some payload /\ length payload = 24%nat.
Proof.
  intros Hc. apply gear_positions_elem in Hc. revert Hc.
  apply (gear_table_cases k c
           (fun _ c => lower_hex c = true
                       /\ exists payload, fromhex c = Some payload
                                          /\ length payload = 24%nat)).
  unfold gear_table.
  repeat constructor; eexists; split; reflexivity.
Qed.

Lemma set_gear_position_unfold (gear position : Z) (st : state) :
  set_gear_position hw gear position st =
  match gear_positions !! (gear, position) with
  | None =>
      (Return false, logged [Print MsgGearRange; Print (MsgInvalidGear gear position)] st)
  | Some command => send_hex hw command (logged [Print (MsgSetGear gear position)] st)
  end.
Proof.
  unfold set_gear_position. destruct (gear_positions !! (gear, position)); reflexivity.
Qed.

Lemma set_gear_position_invalid (gear position : Z) (st : state) :
  ~ (1 <= gear <= 4 /\ 1 <= position <= 3) ->
  refuses (set_gear_position hw gear position) st (MsgInvalidGear gear position).
Proof.
  intros Hout. unfold refuses. rewrite set_gear_position_unfold.
  destruct (gear_positions !! (gear, position)) as [c|] eqn:Hc.
  - exfalso. apply Hout, gear_positions_domain. eauto.
  - eexists. split; [reflexivity|]. split; [right; left|]; reflexivity.
Qed.

Lemma set_gear_position_valid (gear position : Z) (st : state) :
  1 <= gear <= 4 -> 1 <= position <= 3 ->
  is_connected st = true ->
  exists c payload,
    gear_positions !! (gear, position) = Some c
    /\ fromhex c = Some payload
    /\ length payload = 24%nat
    /\ sends hw (set_gear_position hw gear position) st (x02 :: payload).
Proof.
  intros Hg Hp Hconn.
  destruct (proj2 (gear_positions_domain gear position) (conj Hg Hp)) as [c Hc].
  destruct (gear_texts_shape _ _ Hc) as (Hl & payload & Hpay & Hn).
  exists c, payload. repeat split; try assumption.
  apply (sends_via _ (send_hex hw c) [Print (MsgSetGear gear position)]).
  - rewrite set_gear_position_unfold, Hc. reflexivity.
  - reflexivity.
  - apply send_hex_24; assumption.
Qed.

Lemma set_gear_position_closed (gear position : Z) (st : state) :
  device st = None -> fails_unsent (set_gear_position hw gear position) st.
Proof.
  intros Hd.
  destruct (gear_positions !! (gear, position)) as [c|] eqn:Hc.
  - apply (fails_unsent_via _ (send_hex hw c) [Print (MsgSetGear gear position)]).
    + rewrite set_gear_position_unfold, Hc. reflexivity.
    + reflexivity.
    + apply send_hex_closed. exact Hd.
  - unfold fails_unsent. rewrite set_gear_position_unfold, Hc.
    eexists. split; reflexivity.
Qed.

Lemma set_brightness_0 (st : state) :
  is_connected st = true ->
  sends hw (set_brightness hw 0) st (x02 :: brightness_0_frame).
Proof.
  intros Hc.
  apply (sends_via _ (send_hex hw "5aa5470d1c00ff00000000000000006f0000000000000000") [Print (MsgBrightness 0)]);
    [reflexivity | reflexivity |].
  apply send_hex_24; [reflexivity | reflexivity | reflexivity | exact Hc].
Qed.

Lemma set_brightness_100 (st : state) :
  is_connected st = true ->
  sends hw (set_brightness hw 100) st (x02 :: brightness_100_frame).
Proof.
  intros Hc.
  apply (sends_via _ (send_hex hw "5aa543024500000000000000000000000000000000000000") [Print (MsgBrightness 100)]);
    [reflexivity | reflexivity |].
  apply send_hex_24; [reflexivity | reflexivity | reflexivity | exact Hc].
Qed.

Lemma set_brightness_other (percentage : Z) (st : state) :
  percentage <> 0 -> percentage <> 100 ->
  refuses (set_brightness hw percentage) st MsgBrightnessUnsupported.
Proof.
  intros H0 H100. unfold refuses, set_brightness.
  destruct (Z.eqb_spec percentage 0); [contradiction|].
  destruct (Z.eqb_spec percentage 100); [contradiction|].
  exists [Print MsgBrightnessUnsupported].
  split; [reflexivity|]. split; [left|]; reflexivity.
Qed.

Lemma set_brightness_closed (percentage : Z) (st : state) :
  device st = None -> fails_unsent (set_brightness hw percentage) st.
Proof.
  intros Hd. unfold set_brightness.
  destruct (Z.eqb_spec percentage 0).
  - apply (fails_unsent_via _ (send_hex hw "5aa5470d1c00ff00000000000000006f0000000000000000")
             [Print (MsgBrightness 0)]);
      [reflexivity | reflexivity | apply send_hex_closed; exact Hd].
  - destruct (Z.eqb_spec percentage 100).
    + apply (fails_unsent_via _ (send_hex hw "5aa543024500000000000000000000000000000000000000")
               [Print (MsgBrightness 100)]);
        [reflexivity | reflexivity | apply send_hex_closed; exact Hd].
    + exists [Print MsgBrightnessUnsupported]. split; reflexivity.
Qed.

End Catalog.

(** C6: [set_gear_position] is defined on exactly the twelve pairs of
    {1,2,3,4} x {1,2,3}: outside them it prints the invalid-gear message
    and sends nothing, inside them a connected controller sends the frame
    of the table; [set_brightness] sends its fixed frame for 0 and for 100
    and prints the unsupported message, sending nothing, for every other
    percentage. *)
Theorem catalog_domains (hw : hid_backend) (st : state) :
  size gear_positions = 12%nat
  /\ (forall gear position,
         is_Some (gear_positions !! (gear, position))
         <-> 1 <= gear <= 4 /\ 1 <= position <= 3)
  /\ (forall gear position,
         ~ (1 <= gear <= 4 /\ 1 <= position <= 3) ->
         refuses (set_gear_position hw gear position) st
                 (MsgInvalidGear gear position))
  /\ (forall gear position,
         1 <= gear <= 4 -> 1 <= position <= 3 ->
         is_connected st = true ->
         exists c payload,
           gear_positions !! (gear, position) = Some c
           /\ fromhex c = Some payload
           /\ sends hw (set_gear_position hw gear position) st (x02 :: payload))
  /\ (is_connected st = true ->
      sends hw (set_brightness hw 0) st (x02 :: brightness_0_frame)
      /\ sends hw (set_brightness hw 100) st (x02 :: brightness_100_frame))
  /\ (forall percentage,
         percentage <> 0 -> percentage <> 100 ->
         refuses (set_brightness hw percentage) st MsgBrightnessUnsupported).
Proof.
  split; [vm_compute; reflexivity|].
  split; [apply gear_positions_domain|].
  split; [intros; apply set_gear_position_invalid; assumption|].
  split.
  { intros gear position Hg Hp Hc.
    destruct (set_gear_position_valid hw gear position st Hg Hp Hc)
      as (c & payload & H1 & H2 & _ & H3).
    eauto. }
  split.
  { intros Hc. split; [apply set_brightness_0 | apply set_brightness_100]; exact Hc. }
  intros; apply set_brightness_other; assumption.
Qed.

(** C6 at gear(5,1), gear(1,4), gear(2,3), brightness 0, 100 and 50 on a
    connected controller. *)
Lemma catalog_domains_witness :
  refuses (set_gear_position responsive 5 1) bound (MsgInvalidGear 5 1)
  /\ refuses (set_gear_position responsive 1 4) bound (MsgInvalidGear 1 4)
  /\ (exists c payload,
         gear_positions !! (2, 3) = Some c
         /\ fromhex c = Some payload
         /\ sends responsive (set_gear_position responsive 2 3) bound (x02 :: payload))
  /\ sends responsive (set_brightness responsive 0) bound (x02 :: brightness_0_frame)
  /\ sends responsive (set_brightness responsive 100) bound (x02 :: brightness_100_frame)
  /\ refuses (set_brightness responsive 50) bound MsgBrightnessUnsupported.
Proof.
  destruct (catalog_domains responsive bound)
    as (_ & _ & Hbad & Hgood & Hbright & Hother).
  split; [apply Hbad; lia|].
  split; [apply Hbad; lia|].
  split; [apply Hgood; [lia | lia | reflexivity]|].
  split; [apply Hbright; reflexivity|].
  split; [apply Hbright; reflexivity|].
  apply Hother; lia.
Defined.

(** C10: distinct keys of the gear table carry distinct frames, and every
    frame of the table begins with [5A A5 26 05]. *)
Theorem gear_table_injective (k1 k2 : Z * Z) (c1 c2 : string) :
  gear_positions !! k1 = Some c1 ->
  gear_positions !! k2 = Some c2 ->
  (c1 = c2 -> k1 = k2)
  /\ (fromhex c1 = fromhex c2 -> k1 = k2)
  /\ String.prefix "5aa52605" c1 = true
  /\ exists rest, fromhex c1 = Some (gear_header ++ rest)%list.
Proof.
  intros H1 H2.
  assert (k1 <> k2 -> c1 <> c2 /\ fromhex c1 <> fromhex c2) as Hd
      by (apply gear_frames_distinct; assumption).
  split; [|split; [|split]].
  - intros E. destruct (decide (k1 = k2)) as [|Hne]; [assumption|].
    destruct (Hd Hne) as [Hc _]. contradiction.
  - intros E. destruct (decide (k1 = k2)) as [|Hne]; [assumption|].
    destruct (Hd Hne) as [_ Hf]. contradiction.
  - apply gear_positions_elem in H1. revert H1.
    apply (gear_table_cases k1 c1 (fun _ c => String.prefix "5aa52605" c = true)).
    unfold gear_table. repeat constructor.
  - destruct (gear_frames_header k1 c1 H1) as (_ & rest & Hrest & _). eauto.
Qed.

(** C10 at the keys (3,3) and (4,1). *)
Lemma gear_table_injective_witness :
  ("5aa5260502e40c1d00000000000000000000000000000000"
   = "5aa5260503ac0de700000000000000000000000000000000" -> (3, 3) = (4, 1))
  /\ (fromhex "5aa5260502e40c1d00000000000000000000000000000000"
      = fromhex "5aa5260503ac0de700000000000000000000000000000000"
      -> (3, 3) = (4, 1))
  /\ String.prefix "5aa52605" "5aa5260502e40c1d00000000000000000000000000000000" = true
  /\ exists rest,
      fromhex "5aa5260502e40c1d00000000000000000000000000000000"
      = Some (gear_header ++ rest)%list.
Proof.
  apply (gear_table_injective (3, 3) (4, 1)); vm_compute; reflexivity.
Defined.

(** ** Connection life cycle *)

Section Lifecycle.

Variable hw : hid_backend.

(** [_try_connect] never raises; it leaves an opened handle when it
    returns [True] and no handle when it returns [False]. *)
Lemma try_connect_outcome (vid pid : Z) (st : state) :
  exists b st',
    _try_connect hw vid pid st = (Return b, st')
    /\ (b = true -> is_connected st' = true)
    /\ (b = false -> device st' = None).
Proof.
  unfold _try_connect, try_except, bind, device_open, close_quietly, device_close,
    try_except, bind, or_raise, get_device, set_device, set_ids, print, emit, ret, raise.
  cbn.
  destruct (hid_open hw vid pid); cbn.
  - destruct (hid_manufacturer_string hw); cbn.
    + destruct (hid_product_string hw); cbn.
      * do 2 eexists. split; [reflexivity|]. split; [reflexivity | discriminate].
      * destruct (hid_close hw); cbn;
          do 2 eexists; (split; [reflexivity|]); (split; [discriminate | reflexivity]).
    + destruct (hid_close hw); cbn;
        do 2 eexists; (split; [reflexivity|]); (split; [discriminate | reflexivity]).
  - destruct (hid_close hw); cbn;
      do 2 eexists; (split; [reflexivity|]); (split; [discriminate | reflexivity]).
Qed.

Lemma try_each_outcome (devices : list (Z * Z * string)) (st : state) :
  exists b st',
    try_each hw devices st = (Return b, st')
    /\ (b = true -> is_connected st' = true).
Proof.
  revert st. induction devices as [|[[vid pid] name] rest IH]; intros st.
  - do 2 eexists. split; [reflexivity | discriminate].
  - cbn [try_each]. rewrite print_then. unfold bind at 1.
    destruct (try_connect_outcome vid pid (logged [Print (MsgTrying name vid pid)] st))
      as (b & st1 & Hrun & Htrue & _).
    rewrite Hrun. destruct b.
    + do 2 eexists. split; [reflexivity|]. exact Htrue.
    + apply IH.
Qed.

(** One turn of the discovery loop computes [find_step] and only prints. *)
Lemma find_step_io_run (devices : list (Z * Z * string)) (info : device_info)
    (st : state) :
  exists es,
    find_step_io hw devices info st
    = (Return (find_step (text_upper hw) (text_unknown hw) devices info),
       logged es st)
    /\ hid_calls es = [].
Proof.
  pose (lines := fun first =>
    [Print MsgSeparator;
     Print (MsgProductName (str_of (info_product_string info)));
     Print (MsgManufacturer (str_of (info_manufacturer_string info)));
     Print (MsgProductId (info_product_id info));
     Print (MsgVendorId (info_vendor_id info));
     Print first]).
  unfold find_step_io, find_step.
  cbn [known_bs2pro_devices for_each fold_left fst snd].
  unfold bind at 1.
  destruct ((info_vendor_id info =? 79831) && (info_product_id info =? 4098)).
  - unfold bind, print, emit, ret. cbn.
    destruct (is_match (text_upper hw) info && _).
    + exists (lines MsgFoundPotential ++ lines MsgFoundKnown)%list.
      split; reflexivity.
    + exists (lines MsgFoundKnown). split; reflexivity.
  - unfold ret at 1 2. unfold bind, print, emit, ret.
    destruct (is_match (text_upper hw) info && _).
    + exists (lines MsgFoundPotential). split; reflexivity.
    + exists []. split; [rewrite logged_nil|]; reflexivity.
Qed.

Lemma for_each_find_run (enumeration : list device_info)
    (devices : list (Z * Z * string)) (st : state) :
  exists es,
    for_each (find_step_io hw) enumeration devices st
    = (Return (fold_left (find_step (text_upper hw) (text_unknown hw))
                 enumeration devices),
       logged es st)
    /\ hid_calls es = [].
Proof.
  revert devices st. induction enumeration as [|info rest IH]; intros devices st.
  - exists []. split; [rewrite logged_nil|]; reflexivity.
  - cbn [for_each fold_left]. unfold bind.
    destruct (find_step_io_run devices info st) as (es1 & Hrun1 & Hes1).
    rewrite Hrun1.
    destruct (IH (find_step (text_upper hw) (text_unknown hw) devices info)
                 (logged es1 st)) as (es2 & Hrun2 & Hes2).
    exists (es2 ++ es1)%list. rewrite Hrun2, logged_logged.
    split; [reflexivity|]. rewrite hid_calls_app, Hes1, Hes2. reflexivity.
Qed.

(** The method [find_bs2pro_devices] calls [hid.enumerate()] once and
    returns the list [find_bs2pro_devices] of what it got. *)
Lemma find_bs2pro_devices_io_found (enumeration : list device_info) (st : state) :
  hid_enumerate hw = Some enumeration ->
  exists es,
    find_bs2pro_devices_io hw st
    = (Return (find_bs2pro_devices (text_upper hw) (text_unknown hw) enumeration),
       logged (es ++ [HidEnumerate; Print MsgSearching]) st)
    /\ hid_calls es = [].
Proof.
  intros He. unfold find_bs2pro_devices_io, find_bs2pro_devices.
  change ((print MsgSearching ;; emit HidEnumerate ;;
           found <- or_raise OSError (hid_enumerate hw) ;;
           for_each (find_step_io hw) found []) st)
    with ((found <- or_raise OSError (hid_enumerate hw) ;;
           for_each (find_step_io hw) found [])
            (logged [HidEnumerate; Print MsgSearching] st)).
  unfold bind. rewrite He. cbn [or_raise]. unfold ret at 1.
  destruct (for_each_find_run enumeration []
              (logged [HidEnumerate; Print MsgSearching] st)) as (es & Hrun & Hes).
  rewrite Hrun, logged_logged.
  exists es. split; [reflexivity | exact Hes].
Qed.

Lemma find_bs2pro_devices_io_raises (st : state) :
  hid_enumerate hw = None ->
  find_bs2pro_devices_io hw st
  = (Raise OSError, logged [HidEnumerate; Print MsgSearching] st).
Proof.
  intros He. unfold find_bs2pro_devices_io.
  change ((print MsgSearching ;; emit HidEnumerate ;;
           found <- or_raise OSError (hid_enumerate hw) ;;
           for_each (find_step_io hw) found []) st)
    with ((found <- or_raise OSError (hid_enumerate hw) ;;
           for_each (find_step_io hw) found [])
            (logged [HidEnumerate; Print MsgSearching] st)).
  unfold bind. rewrite He. reflexivity.
Qed.

(** [connect] with an id missing, step by step. *)
Lemma connect_search_run (vendor_id product_id : option Z) (st : state) :
  vendor_id = None \/ product_id = None ->
  connect hw vendor_id product_id st =
  match hid_enumerate hw with
  | None =>
      (Return false,
       logged [Print MsgConnectError; HidEnumerate; Print MsgSearching] st)
  | Some enumeration =>
      match find_bs2pro_devices_io hw st with
      | (Return [], st1) =>
          (Return false,
           logged [Print MsgHintExample; Print MsgHintManualIds;
                   Print MsgNoDeviceFound] st1)
      | (Return devices, st1) => try_each hw devices st1
      | (Raise e, st1) => (Raise e, st1)
      end
  end.
Proof.
  intros Hnone.
  assert (connect hw vendor_id product_id st
          = try_except
              (devices <- find_bs2pro_devices_io hw ;;
               match devices with
               | [] =>
                   print MsgNoDeviceFound ;; print MsgHintManualIds ;;
                   print MsgHintExample ;; ret false
               | _ => try_each hw devices
               end)
              (fun _ => print MsgConnectError ;; ret false) st) as ->.
  { unfold connect. destruct Hnone as [-> | ->]; [reflexivity|].
    destruct vendor_id; reflexivity. }
  unfold try_except, bind at 1.
  destruct (hid_enumerate hw) as [enumeration|] eqn:He.
  - destruct (find_bs2pro_devices_io_found enumeration st He) as (es & Hrun & _).
    rewrite Hrun.
    destruct (find_bs2pro_devices _ _ enumeration) as [|d devices]; [reflexivity|].
    destruct (try_each_outcome (d :: devices) (logged (es ++ [HidEnumerate; Print MsgSearching]) st))
      as (b & st' & Hrun' & _).
    rewrite Hrun'. reflexivity.
  - rewrite (find_bs2pro_devices_io_raises st He). reflexivity.
Qed.

Lemma connect_search_cases (vendor_id product_id : option Z) (st : state) :
  vendor_id = None \/ product_id = None ->
  exists b st',
    connect hw vendor_id product_id st = (Return b, st')
    /\ (b = true -> is_connected st' = true).
Proof.
  intros Hnone. rewrite connect_search_run by exact Hnone.
  destruct (hid_enumerate hw) as [enumeration|] eqn:He.
  - destruct (find_bs2pro_devices_io_found enumeration st He) as (es & Hrun & _).
    rewrite Hrun.
    destruct (find_bs2pro_devices _ _ enumeration) as [|d devices].
    + do 2 eexists. split; [reflexivity | discriminate].
    + apply try_each_outcome.
  - do 2 eexists. split; [reflexivity | discriminate].
Qed.

(** [connect] never raises, and a [True] result means an opened handle. *)
Lemma connect_outcome (vendor_id product_id : option Z) (st : state) :
  exists b st',
    connect hw vendor_id product_id st = (Return b, st')
    /\ (b = true -> is_connected st' = true).
Proof.
  destruct vendor_id as [vid|]; [destruct product_id as [pid|]|].
  - unfold connect, try_except.
    destruct (try_connect_outcome vid pid st) as (b & st' & Hrun & Htrue & _).
    rewrite Hrun. eauto.
  - apply connect_search_cases. right. reflexivity.
  - apply connect_search_cases. left. reflexivity.
Qed.

(** [disconnect] never raises and always leaves the controller without a
    handle; it writes nothing. *)
Lemma disconnect_outcome (st : state) :
  exists es,
    disconnect hw st = (Return tt, {| device := None; vendor_id := vendor_id st;
                                      product_id := product_id st;
                                      trace := (es ++ trace st)%list |})
    /\ written es = []
    /\ (device st = None -> es = []).
Proof.
  destruct st as [[d|] vid pid tr].
  - unfold disconnect, close_quietly, device_close, try_except, bind, get_device,
      set_device, print, emit, ret, raise. cbn.
    destruct (hid_close hw); cbn;
      exists [Print MsgDisconnected; HidClose];
      (split; [reflexivity|]); (split; [reflexivity | discriminate]).
  - exists []. split; [reflexivity|]. split; reflexivity.
Qed.

Lemma disconnect_closed (st : state) :
  device st = None -> disconnect hw st = (Return tt, st).
Proof.
  destruct st as [[d|] vid pid tr]; [discriminate | reflexivity].
Qed.

Lemma send_output_report_closed (data : list byte) (st : state) :
  device st = None -> refuses (send_output_report hw data) st MsgNotConnected.
Proof.
  intros Hd. unfold refuses. rewrite send_output_report_run, Hd.
  eexists. split; [reflexivity|]. split; [left|]; reflexivity.
Qed.

Lemma send_feature_report_closed (report_id : Z) (data : list byte) (st : state) :
  device st = None ->
  refuses (send_feature_report hw report_id data) st MsgNotConnected.
Proof.
  intros Hd. unfold refuses. rewrite send_feature_report_run, Hd.
  eexists. split; [reflexivity|]. split; [left|]; reflexivity.
Qed.

Lemma send_output_report_connected (data : list byte) (st : state) :
  is_connected st = true -> sends hw (send_output_report hw data) st data.
Proof.
  intros Hc. destruct (is_connected_inv st Hc) as (d & ids & Hd & Ho).
  unfold sends, write_ok. rewrite send_output_report_run, Hd, Ho.
  destruct (hid_write hw data); eexists; split; reflexivity.
Qed.

Lemma set_fan_speed_closed (rpm : Z) (st : state) :
  device st = None -> fails_unsent (set_fan_speed hw rpm) st.
Proof.
  intros Hd.
  destruct (Z_lt_le_dec rpm 0) as [Hneg|Hpos];
    [|destruct (Z_lt_le_dec 65535 rpm) as [Hbig|Hsmall]].
  - exists [Print (MsgRpmOutOfRange rpm)].
    rewrite set_fan_speed_rejects by (left; exact Hneg). split; reflexivity.
  - exists [Print (MsgRpmOutOfRange rpm)].
    rewrite set_fan_speed_rejects by (right; exact Hbig). split; reflexivity.
  - destruct (set_fan_speed_run hw rpm st (conj Hpos Hsmall))
      as (b0 & b1 & ck & _ & _ & _ & Hrun).
    unfold fails_unsent. rewrite Hrun.
    apply fails_unsent_logged; [reflexivity|].
    apply send_hex_closed. exact Hd.
Qed.

Lemma set_fan_speed_closed_valid (rpm : Z) (st : state) :
  0 <= rpm <= 65535 ->
  device st = None -> refuses (set_fan_speed hw rpm) st MsgNotConnected.
Proof.
  intros Hr Hd.
  destruct (set_fan_speed_run hw rpm st Hr) as (b0 & b1 & ck & _ & _ & _ & Hrun).
  eapply refuses_via; [exact Hrun | reflexivity |].
  eapply send_hex_closed_valid;
    [apply bytes_hex_lower | apply fromhex_bytes_hex
     | vm_compute; discriminate | exact Hd].
Qed.

Lemma enter_realtime_speed_mode_closed (st : state) :
  device st = None -> fails_unsent (enter_realtime_speed_mode hw) st.
Proof.
  intros Hd.
  apply (fails_unsent_via _
           (send_hex hw "5aa523022500000000000000000000000000000000000000")
           [Print MsgEnterRealtime]);
    [reflexivity | reflexivity | apply send_hex_closed; exact Hd].
Qed.

Lemma set_gear_light_closed (enabled : bool) (st : state) :
  device st = None -> fails_unsent (set_gear_light hw enabled) st.
Proof.
  intros Hd. destruct enabled.
  - apply (fails_unsent_via _
             (send_hex hw "5aa54803014c000000000000000000000000000000000000")
             [Print (MsgGearLight true)]);
      [reflexivity | reflexivity | apply send_hex_closed; exact Hd].
  - apply (fails_unsent_via _
             (send_hex hw "5aa54803004b000000000000000000000000000000000000")
             [Print (MsgGearLight false)]);
      [reflexivity | reflexivity | apply send_hex_closed; exact Hd].
Qed.

Lemma set_power_on_start_closed (enabled : bool) (st : state) :
  device st = None -> fails_unsent (set_power_on_start hw enabled) st.
Proof.
  intros Hd. destruct enabled.
  - apply (fails_unsent_via _
             (send_hex hw "5aa50c030211000000000000000000000000000000000000")
             [Print (MsgPowerOnStart true)]);
      [reflexivity | reflexivity | apply send_hex_closed; exact Hd].
  - apply (fails_unsent_via _
             (send_hex hw "5aa50c030110000000000000000000000000000000000000")
             [Print (MsgPowerOnStart false)]);
      [reflexivity | reflexivity | apply send_hex_closed; exact Hd].
Qed.

Lemma set_smart_start_stop_closed (mode : string) (st : state) :
  device st = None -> fails_unsent (set_smart_start_stop hw mode) st.
Proof.
  intros Hd. unfold set_smart_start_stop.
  destruct (smart_start_stop_commands !! mode) as [c|].
  - apply (fails_unsent_via _ (send_hex hw c) [Print (MsgSmartStartStop mode)]);
      [reflexivity | reflexivity | apply send_hex_closed; exact Hd].
  - exists [Print MsgValidModes; Print (MsgInvalidMode mode)].
    split; reflexivity.
Qed.

End Lifecycle.

(** C9: once [connect] has returned [True] the controller holds an opened
    handle and a send goes straight to the bus (there is no streaming state
    to enter first; the result is [True] unless the write itself raises);
    [disconnect] never raises and drops the handle; from then on every
    send method returns [False] without touching the bus, the report
    methods and a valid speed command printing the not-connected message;
    a second [disconnect] returns normally and changes nothing. *)
Theorem session_lifecycle
    (hw : hid_backend) (vendor_id product_id : option Z) (st0 st1 : state) :
  connect hw vendor_id product_id st0 = (Return true, st1) ->
  (is_connected st1 = true
   /\ (forall data, sends hw (send_output_report hw data) st1 data)
   /\ (exists report, sends hw (set_fan_speed hw 1500) st1 report))
  /\ exists st2,
      disconnect hw st1 = (Return tt, st2)
      /\ device st2 = None
      /\ written (trace st2) = written (trace st1)
      /\ (forall data, refuses (send_output_report hw data) st2 MsgNotConnected)
      /\ (forall report_id data,
             refuses (send_feature_report hw report_id data) st2 MsgNotConnected)
      /\ refuses (set_fan_speed hw 1500) st2 MsgNotConnected
      /\ (forall s report_id padding_length,
             fails_unsent (send_hex_command hw s report_id padding_length) st2)
      /\ (forall rpm, fails_unsent (set_fan_speed hw rpm) st2)
      /\ (forall gear position, fails_unsent (set_gear_position hw gear position) st2)
      /\ (forall enabled, fails_unsent (set_gear_light hw enabled) st2)
      /\ (forall enabled, fails_unsent (set_power_on_start hw enabled) st2)
      /\ (forall mode, fails_unsent (set_smart_start_stop hw mode) st2)
      /\ (forall percentage, fails_unsent (set_brightness hw percentage) st2)
      /\ fails_unsent (enter_realtime_speed_mode hw) st2
      /\ disconnect hw st2 = (Return tt, st2).
Proof.
  intros Hconn.
  assert (is_connected st1 = true) as Hc.
  { destruct (connect_outcome hw vendor_id product_id st0) as (b & st' & Hrun & Htrue).
    rewrite Hrun in Hconn. injection Hconn as -> ->. apply Htrue. reflexivity. }
  split.
  { split; [exact Hc|]. split.
    - intros data. apply send_output_report_connected, Hc.
    - destruct (set_fan_speed_report hw 1500 st1 ltac:(lia) Hc)
        as (b0 & b1 & ck & _ & _ & _ & Hs).
      eauto. }
  destruct (disconnect_outcome hw st1) as (es & Hdis & Hw & _).
  eexists. split; [exact Hdis|].
  split; [reflexivity|].
  split.
  { cbn [trace]. unfold written in *. rewrite omap_app, Hw. reflexivity. }
  split; [intros; apply send_output_report_closed; reflexivity|].
  split; [intros; apply send_feature_report_closed; reflexivity|].
  split; [apply set_fan_speed_closed_valid; [lia | reflexivity]|].
  split; [intros; apply send_hex_command_closed; reflexivity|].
  split; [intros; apply set_fan_speed_closed; reflexivity|].
  split; [intros; apply set_gear_position_closed; reflexivity|].
  split; [intros; apply set_gear_light_closed; reflexivity|].
  split; [intros; apply set_power_on_start_closed; reflexivity|].
  split; [intros; apply set_smart_start_stop_closed; reflexivity|].
  split; [intros; apply set_brightness_closed; reflexivity|].
  split; [apply enter_realtime_speed_mode_closed; reflexivity|].
  apply disconnect_closed. reflexivity.
Qed.

(** C9 on a fresh controller connecting to 0x137D7:0x1002. *)
Lemma session_lifecycle_witness :
  connect responsive (Some 0x137D7) (Some 0x1002) init = (Return true, fresh_link)
  /\ (exists report, sends responsive (set_fan_speed responsive 1500) fresh_link report)
  /\ exists st2,
      disconnect responsive fresh_link = (Return tt, st2)
      /\ refuses (set_fan_speed responsive 1500) st2 MsgNotConnected
      /\ disconnect responsive st2 = (Return tt, st2).
Proof.
  assert (connect responsive (Some 0x137D7) (Some 0x1002) init
          = (Return true, fresh_link)) as Hconn by reflexivity.
  split; [exact Hconn|].
  destruct (session_lifecycle responsive (Some 0x137D7) (Some 0x1002) init
              fresh_link Hconn)
    as ((_ & _ & Hsend) & st2 & Hdis & _ & _ & _ & _ & Hspeed & _ & _ & _ & _ & _ & _ & _ & _ & Hagain).
  split; [exact Hsend|].
  exists st2. split; [exact Hdis|]. split; [exact Hspeed | exact Hagain].
Defined.

(** ** Worked examples *)

(** The speed report next to its siblings: the realtime-mode and gear
    commands put 25 bytes on the bus, the speed command 24. *)
Lemma speed_report_one_short :
  (length <$> written (trace (enter_realtime_speed_mode responsive bound).2)) = [25%nat]
  /\ (length <$> written (trace (set_gear_position responsive 1 1 bound).2)) = [25%nat]
  /\ (length <$> written (trace (set_brightness responsive 100 bound).2)) = [25%nat]
  /\ (length <$> written (trace (set_fan_speed responsive 2000 bound).2)) = [24%nat]
  /\ Forall (fun c => String.length c = 48%nat) (literal_commands ++ gear_table.*2)
  /\ String.length
       ("5aa52104" +:+ bytes_hex [xd0; x07] +:+ format_02x 0xFC
        +:+ "00000000000000000000000000000000") = 46%nat.
Proof.
  repeat split; try (vm_compute; reflexivity).
  vm_compute. repeat constructor.
Qed.

Example str_replace_example :
  str_replace "0x" "" "0x5a 0xa5 00xx" = "5a a5 0x"
  /\ str_replace " " "" "5a a5  01" = "5aa501".
Proof. split; reflexivity. Qed.

Example fromhex_example :
  fromhex "5aA5 01" = Some [x5a; xa5; x01]
  /\ fromhex "5a a" = None
  /\ fromhex "5 a" = None
  /\ fromhex "5a  " = Some [x5a]
  /\ fromhex "5aa54803014b0" = None.
Proof. repeat split; reflexivity. Qed.

Example hex_example :
  bytes_hex [xd0; x07] = "d007" /\ format_02x 0xFC = "fc" /\ format_02x 7 = "07".
Proof. repeat split; reflexivity. Qed.

Example calculate_checksum_example :
  calculate_checksum 2000 init = (Return 0xFC, init)
  /\ calculate_checksum 65536 init = (Raise OverflowError, init).
Proof. split; reflexivity. Qed.

(** ** Further properties: telemetry and checksum *)

(** X1. A decoded pair is never half-filled, both speeds lie in
    [0, 65535], and the result depends on bytes 8 to 11 only: frames that
    differ in their first eight bytes or after the twelfth decode alike. *)
Theorem parse_speed_data_window :
  (forall data target actual,
      parse_speed_data data = (target, actual) ->
      (target = None /\ actual = None)
      \/ exists t a, target = Some t /\ actual = Some a
                     /\ 0 <= t <= 65535 /\ 0 <= a <= 65535)
  /\ (forall pre pre' mid post post' : list byte,
         length pre = 8%nat -> length pre' = 8%nat -> length mid = 4%nat ->
         parse_speed_data (pre ++ mid ++ post)%list
         = parse_speed_data (pre' ++ mid ++ post')%list).
Proof.
  split.
  - intros data target actual Hrun.
    destruct (Nat.lt_ge_cases (length data) 12) as [Hshort|Hlong].
    + rewrite parse_speed_data_short in Hrun by exact Hshort.
      injection Hrun as <- <-. left. split; reflexivity.
    + destruct (split_at_12 data Hlong)
        as (pre & b8 & b9 & b10 & b11 & post & -> & Hpre).
      rewrite parse_speed_data_layout in Hrun by exact Hpre.
      injection Hrun as <- <-. right.
      pose proof (byte_to_Z_range b8). pose proof (byte_to_Z_range b9).
      pose proof (byte_to_Z_range b10). pose proof (byte_to_Z_range b11).
      do 2 eexists. split; [reflexivity|]. split; [reflexivity|]. lia.
  - intros pre pre' mid post post' Hpre Hpre' Hmid.
    do 4 (destruct mid as [|? mid]; [discriminate Hmid|]).
    destruct mid; [|discriminate Hmid].
    rewrite !parse_speed_data_layout by assumption. reflexivity.
Qed.

(** X1 on the docstring packet and a variant with other opaque bytes. *)
Lemma parse_speed_data_window_witness :
  ((Some 3300 = None /\ Some 3323 = None)
   \/ exists t a, Some 3300 = Some t /\ Some 3323 = Some a
                  /\ 0 <= t <= 65535 /\ 0 <= a <= 65535)
  /\ parse_speed_data (take 8 telemetry_sample ++ [x0c; xe4; x0c; xfb]
                       ++ drop 12 telemetry_sample)%list
     = parse_speed_data (replicate 8 xff ++ [x0c; xe4; x0c; xfb] ++ [])%list.
Proof.
  destruct parse_speed_data_window as [Hpair Hwin].
  split.
  - apply (Hpair telemetry_sample). reflexivity.
  - apply Hwin; reflexivity.
Defined.

Lemma mod_256_cancel (a x y : Z) :
  0 <= x < 256 -> 0 <= y < 256 ->
  (a + x) mod 256 = (a + y) mod 256 -> x = y.
Proof.
  intros Hx Hy H.
  pose proof (Z.div_mod (a + x) 256 ltac:(lia)).
  pose proof (Z.div_mod (a + y) 256 ltac:(lia)).
  lia.
Qed.

(** X2. [calculate_checksum] returns a byte value, equal to
    [(0x25 + lo + hi) mod 256], for every rpm in [0, 65535] and raises
    [OverflowError] for every other rpm; two different speeds that share
    their low byte or their high byte never share a checksum. *)
Theorem calculate_checksum_properties (st : state) :
  (forall rpm, 0 <= rpm <= 65535 ->
      exists ck, calculate_checksum rpm st = (Return ck, st)
                 /\ 0 <= ck <= 255
                 /\ ck = (0x25 + rpm mod 256 + rpm / 256) mod 256)
  /\ (forall rpm, rpm < 0 \/ 65535 < rpm ->
         calculate_checksum rpm st = (Raise OverflowError, st))
  /\ (forall rpm1 rpm2,
         0 <= rpm1 <= 65535 -> 0 <= rpm2 <= 65535 -> rpm1 <> rpm2 ->
         rpm1 mod 256 = rpm2 mod 256 \/ rpm1 / 256 = rpm2 / 256 ->
         (calculate_checksum rpm1 st).1 <> (calculate_checksum rpm2 st).1).
Proof.
  split; [|split].
  - intros rpm Hr. eexists. split; [apply calculate_checksum_run; exact Hr|].
    pose proof (Z.mod_pos_bound
                  (0x5A + 0xA5 + 0x21 + 0x04 + rpm mod 256 + rpm / 256 + 1) 256
                  ltac:(lia)).
    split; [lia|].
    replace (0x5A + 0xA5 + 0x21 + 0x04 + rpm mod 256 + rpm / 256 + 1)
      with (0x25 + rpm mod 256 + rpm / 256 + 1 * 256) by lia.
    apply Z.mod_add. lia.
  - intros rpm Hout. apply calculate_checksum_overflow. exact Hout.
  - intros rpm1 rpm2 H1 H2 Hne Hshare.
    rewrite !calculate_checksum_run by assumption. cbn [fst].
    intros Heq. injection Heq as Heq. apply Hne.
    pose proof (Z.div_mod rpm1 256 ltac:(lia)).
    pose proof (Z.div_mod rpm2 256 ltac:(lia)).
    pose proof (Z.mod_pos_bound rpm1 256 ltac:(lia)).
    pose proof (Z.mod_pos_bound rpm2 256 ltac:(lia)).
    assert (0 <= rpm1 / 256 < 256)
      by (split; [apply Z.div_pos | apply Z.div_lt_upper_bound]; lia).
    assert (0 <= rpm2 / 256 < 256)
      by (split; [apply Z.div_pos | apply Z.div_lt_upper_bound]; lia).
    destruct Hshare as [Hlo|Hhi].
    + rewrite Hlo in Heq.
      assert (rpm1 / 256 = rpm2 / 256); [|lia].
      apply (mod_256_cancel (0x5A + 0xA5 + 0x21 + 0x04 + rpm2 mod 256 + 1));
        [assumption | assumption |].
      etransitivity; [|etransitivity; [exact Heq|]]; f_equal; lia.
    + rewrite Hhi in Heq.
      assert (rpm1 mod 256 = rpm2 mod 256); [|lia].
      apply (mod_256_cancel (0x5A + 0xA5 + 0x21 + 0x04 + rpm2 / 256 + 1));
        [assumption | assumption |].
      etransitivity; [|etransitivity; [exact Heq|]]; f_equal; lia.
Qed.

(** X2 at rpm 2000 and 2001 (same high byte), and at 70000. *)
Lemma calculate_checksum_properties_witness :
  (exists ck, calculate_checksum 2000 init = (Return ck, init)
              /\ 0 <= ck <= 255
              /\ ck = (0x25 + 2000 mod 256 + 2000 / 256) mod 256)
  /\ calculate_checksum 70000 init = (Raise OverflowError, init)
  /\ (calculate_checksum 2000 init).1 <> (calculate_checksum 2001 init).1.
Proof.
  destruct (calculate_checksum_properties init) as (Hin & Hout & Hdiff).
  split; [apply Hin; lia|].
  split; [apply Hout; right; lia|].
  apply Hdiff; [lia | lia | lia | right; reflexivity].
Defined.

(** ** Further properties: the command catalog *)

Section CatalogFrames.

Variable hw : hid_backend.

Lemma sends_with_sends (m : py bool) (st : state) (report : list byte) (note : message) :
  sends_with hw m st report note -> sends hw m st report.
Proof. intros (es & Hrun & Hes & _). exists es. auto. Qed.

Lemma sends_with_via (m k : py bool) (es0 : list event) (st : state)
    (report : list byte) (note : message) :
  m st = k (logged es0 st) ->
  hid_calls es0 = [] ->
  sends_with hw k (logged es0 st) report note ->
  sends_with hw m st report note.
Proof.
  intros Hm H0 (es & Hrun & Hes & Hin). unfold sends_with. rewrite Hm.
  exists (es ++ es0)%list. rewrite Hrun, logged_logged.
  split; [reflexivity|]. split.
  - rewrite hid_calls_app, Hes, H0. reflexivity.
  - apply in_or_app. left. exact Hin.
Qed.

(** A lower-case text longer than 22 bytes: sent unpadded, with the
    warning. *)
Lemma send_hex_overlong (c : string) (payload : list byte) (st : state) :
  lower_hex c = true ->
  fromhex c = Some payload ->
  22 < len payload ->
  is_connected st = true ->
  sends_with hw (send_hex hw c) st (x02 :: payload) (MsgTooLong (len payload) 22).
Proof.
  intros Hl Hp Hn Hc.
  assert (fromhex (residue c) = Some payload) as Hp'
      by (rewrite (residue_lower c Hl); exact Hp).
  assert (padding_fits hw default_padding_length payload = true) as Hf
      by (apply padding_fits_overlong; unfold default_padding_length; lia).
  destruct (send_hex_command_connected hw c default_report_id default_padding_length
              st payload x02 Hc Hp' Hf eq_refl) as [last Hrun].
  rewrite padding_for_overlong, app_nil_r in Hrun
    by (unfold default_padding_length; lia).
  eexists. split; [exact Hrun|]. split.
  - cbn [hid_calls List.filter is_hid_call].
    fold (hid_calls (too_long_warning default_padding_length payload)).
    rewrite hid_calls_warning. reflexivity.
  - right. right. right. unfold too_long_warning, default_padding_length.
    destruct (Z.ltb_spec (23 - 1 - len payload) 0); [|lia].
    left. reflexivity.
Qed.

(** What every fixed command text of the file does on a connected
    controller. *)
Lemma send_hex_fixed (c : string) (payload : list byte) (st : state) :
  lower_hex c = true ->
  fromhex c = Some payload ->
  length payload = 24%nat ->
  frame_checked payload = true ->
  is_connected st = true ->
  exists f,
    sends_with hw (send_hex hw c) st (x02 :: f) (MsgTooLong 24 22)
    /\ length f = 24%nat
    /\ frame_checked f = true.
Proof.
  intros Hl Hp Hn Hck Hc. exists payload.
  split; [|split; assumption].
  replace 24 with (len payload) by (unfold len; rewrite Hn; reflexivity).
  apply send_hex_overlong; try assumption.
  unfold len. rewrite Hn. reflexivity.
Qed.

Lemma fixed_via (m : py bool) (c : string) (es0 : list event) (st : state) :
  m st = send_hex hw c (logged es0 st) ->
  hid_calls es0 = [] ->
  (exists f,
      sends_with hw (send_hex hw c) (logged es0 st) (x02 :: f) (MsgTooLong 24 22)
      /\ length f = 24%nat /\ frame_checked f = true) ->
  exists f,
    sends_with hw m st (x02 :: f) (MsgTooLong 24 22)
    /\ length f = 24%nat /\ frame_checked f = true.
Proof.
  intros Hm H0 (f & Hs & Hn & Hck). exists f.
  split; [|split; assumption].
  eapply sends_with_via; eassumption.
Qed.

Lemma enter_realtime_speed_mode_fixed (st : state) :
  is_connected st = true ->
  exists f,
    sends_with hw (enter_realtime_speed_mode hw) st (x02 :: f) (MsgTooLong 24 22)
    /\ length f = 24%nat /\ frame_checked f = true.
Proof.
  intros Hc.
  apply (fixed_via _ "5aa523022500000000000000000000000000000000000000"
           [Print MsgEnterRealtime]); [reflexivity | reflexivity |].
  eapply send_hex_fixed; try reflexivity. exact Hc.
Qed.

Lemma set_gear_light_fixed (enabled : bool) (st : state) :
  is_connected st = true ->
  exists f,
    sends_with hw (set_gear_light hw enabled) st (x02 :: f) (MsgTooLong 24 22)
    /\ length f = 24%nat /\ frame_checked f = true.
Proof.
  intros Hc. destruct enabled.
  - apply (fixed_via _ "5aa54803014c000000000000000000000000000000000000"
             [Print (MsgGearLight true)]); [reflexivity | reflexivity |].
    eapply send_hex_fixed; try reflexivity. exact Hc.
  - apply (fixed_via _ "5aa54803004b000000000000000000000000000000000000"
             [Print (MsgGearLight false)]); [reflexivity | reflexivity |].
    eapply send_hex_fixed; try reflexivity. exact Hc.
Qed.

Lemma set_power_on_start_fixed (enabled : bool) (st : state) :
  is_connected st = true ->
  exists f,
    sends_with hw (set_power_on_start hw enabled) st (x02 :: f) (MsgTooLong 24 22)
    /\ length f = 24%nat /\ frame_checked f = true.
Proof.
  intros Hc. destruct enabled.
  - apply (fixed_via _ "5aa50c030211000000000000000000000000000000000000"
             [Print (MsgPowerOnStart true)]); [reflexivity | reflexivity |].
    eapply send_hex_fixed; try reflexivity. exact Hc.
  - apply (fixed_via _ "5aa50c030110000000000000000000000000000000000000"
             [Print (MsgPowerOnStart false)]); [reflexivity | reflexivity |].
    eapply send_hex_fixed; try reflexivity. exact Hc.
Qed.

Lemma set_brightness_fixed (percentage : Z) (st : state) :
  percentage = 0 \/ percentage = 100 ->
  is_connected st = true ->
  exists f,
    sends_with hw (set_brightness hw percentage) st (x02 :: f) (MsgTooLong 24 22)
    /\ length f = 24%nat /\ frame_checked f = true.
Proof.
  intros [-> | ->] Hc.
  - apply (fixed_via _ "5aa5470d1c00ff00000000000000006f0000000000000000"
             [Print (MsgBrightness 0)]); [reflexivity | reflexivity |].
    eapply send_hex_fixed; try reflexivity. exact Hc.
  - apply (fixed_via _ "5aa543024500000000000000000000000000000000000000"
             [Print (MsgBrightness 100)]); [reflexivity | reflexivity |].
    eapply send_hex_fixed; try reflexivity. exact Hc.
Qed.

Lemma gear_texts_checked (k : Z * Z) (c : string) :
  gear_positions !! k = Some c ->
  lower_hex c = true
  /\ exists payload, fromhex c = Some payload /\ length payload = 24%nat
                     /\ frame_checked payload = true.
Proof.
  intros Hc. apply gear_positions_elem in Hc. revert Hc.
  apply (gear_table_cases k c
           (fun _ c => lower_hex c = true
                       /\ exists payload, fromhex c = Some payload
                                          /\ length payload = 24%nat
                                          /\ frame_checked payload = true)).
  unfold gear_table.
  repeat constructor; eexists; repeat split; reflexivity.
Qed.

Lemma set_gear_position_fixed (gear position : Z) (st : state) :
  1 <= gear <= 4 -> 1 <= position <= 3 ->
  is_connected st = true ->
  exists f,
    sends_with hw (set_gear_position hw gear position) st (x02 :: f) (MsgTooLong 24 22)
    /\ length f = 24%nat /\ frame_checked f = true.
Proof.
  intros Hg Hp Hc.
  destruct (proj2 (gear_positions_domain gear position) (conj Hg Hp)) as [c Hlk].
  destruct (gear_texts_checked _ _ Hlk) as (Hl & payload & Hpay & Hn & Hck).
  apply (fixed_via _ c [Print (MsgSetGear gear position)]).
  - rewrite set_gear_position_unfold, Hlk. reflexivity.
  - reflexivity.
  - eapply send_hex_fixed; eassumption.
Qed.

Lemma smart_start_stop_elem (mode c : string) :
  smart_start_stop_commands !! mode = Some c <->
  (mode, c) ∈ [ ("off", "5aa50d030010000000000000000000000000000000000000");
                ("immediate", "5aa50d030111000000000000000000000000000000000000");
                ("delayed", "5aa50d030212000000000000000000000000000000000000") ].
Proof.
  unfold smart_start_stop_commands. symmetry. apply elem_of_list_to_map.
  apply (bool_decide_unpack _). vm_compute. reflexivity.
Qed.

Lemma smart_start_stop_domain (mode : string) :
  is_Some (smart_start_stop_commands !! mode)
  <-> mode = "off" \/ mode = "immediate" \/ mode = "delayed".
Proof.
  split.
  - intros [c Hc]. apply smart_start_stop_elem in Hc.
    rewrite !elem_of_cons, elem_of_nil in Hc.
    destruct Hc as [Hc|[Hc|[Hc|[]]]]; injection Hc as -> _; auto.
  - intros [-> | [-> | ->]]; vm_compute; eauto.
Qed.

Lemma set_smart_start_stop_fixed (mode : string) (st : state) :
  mode = "off" \/ mode = "immediate" \/ mode = "delayed" ->
  is_connected st = true ->
  exists f,
    sends_with hw (set_smart_start_stop hw mode) st (x02 :: f) (MsgTooLong 24 22)
    /\ length f = 24%nat /\ frame_checked f = true
    /\ f !! 4%nat = (if decide (mode = "off") then Some x00
                     else if decide (mode = "immediate") then Some x01
                     else Some x02).
Proof.
  intros Hmode Hc.
  assert (forall c payload,
             set_smart_start_stop hw mode st
             = send_hex hw c (logged [Print (MsgSmartStartStop mode)] st) ->
             lower_hex c = true -> fromhex c = Some payload ->
             length payload = 24%nat -> frame_checked payload = true ->
             exists f,
               sends_with hw (set_smart_start_stop hw mode) st (x02 :: f)
                          (MsgTooLong 24 22)
               /\ length f = 24%nat /\ frame_checked f = true
               /\ f !! 4%nat = payload !! 4%nat) as Hgen.
  { intros c payload Hrun Hl Hp Hn Hck.
    destruct (send_hex_fixed c payload (logged [Print (MsgSmartStartStop mode)] st)
                Hl Hp Hn Hck Hc) as (f & Hs & Hnf & Hckf).
    exists payload. split; [|repeat split; assumption].
    apply (sends_with_via _ (send_hex hw c) [Print (MsgSmartStartStop mode)]);
      [exact Hrun | reflexivity |].
    replace 24 with (len payload) by (unfold len; rewrite Hn; reflexivity).
    apply send_hex_overlong; try assumption.
    - unfold len. rewrite Hn. reflexivity. }
  destruct Hmode as [-> | [-> | ->]].
  - destruct (Hgen "5aa50d030010000000000000000000000000000000000000" _
                eq_refl eq_refl eq_refl eq_refl eq_refl)
      as (f & Hs & Hn & Hck & H4).
    exists f. rewrite H4. repeat split; try assumption.
  - destruct (Hgen "5aa50d030111000000000000000000000000000000000000" _
                eq_refl eq_refl eq_refl eq_refl eq_refl)
      as (f & Hs & Hn & Hck & H4).
    exists f. rewrite H4. repeat split; try assumption.
  - destruct (Hgen "5aa50d030212000000000000000000000000000000000000" _
                eq_refl eq_refl eq_refl eq_refl eq_refl)
      as (f & Hs & Hn & Hck & H4).
    exists f. rewrite H4. repeat split; try assumption.
Qed.

Lemma set_smart_start_stop_invalid (mode : string) (st : state) :
  ~ (mode = "off" \/ mode = "immediate" \/ mode = "delayed") ->
  refuses (set_smart_start_stop hw mode) st (MsgInvalidMode mode).
Proof.
  intros Hbad. unfold refuses, set_smart_start_stop.
  destruct (smart_start_stop_commands !! mode) as [c|] eqn:Hc.
  - exfalso. apply Hbad, smart_start_stop_domain. eauto.
  - exists [Print MsgValidModes; Print (MsgInvalidMode mode)].
    split; [reflexivity|]. split; [right; left|]; reflexivity.
Qed.

Lemma speed_frame_checked (b0 b1 ck : byte) :
  byte_to_Z ck
  = (0x5A + 0xA5 + 0x21 + 0x04 + byte_to_Z b0 + byte_to_Z b1 + 1) mod 256 ->
  frame_checked ([x5a; xa5; x21; x04; b0; b1; ck] ++ replicate 16 x00)%list = true.
Proof.
  intros Hck.
  change (frame_checked ([x5a; xa5; x21; x04; b0; b1; ck] ++ replicate 16 x00)%list)
    with ((byte_to_Z ck
           =? (0x5A + (0xA5 + (0x21 + (0x04 + (byte_to_Z b0 + (byte_to_Z b1 + 0)))))
               + 1) mod 256) && true).
  rewrite andb_true_r. apply Z.eqb_eq. rewrite Hck. f_equal. lia.
Qed.

Lemma set_fan_speed_checked (rpm : Z) (st : state) :
  0 <= rpm <= 65535 ->
  is_connected st = true ->
  exists f,
    sends_with hw (set_fan_speed hw rpm) st (x02 :: f) (MsgTooLong 23 22)
    /\ length f = 23%nat /\ frame_checked f = true.
Proof.
  intros Hr Hc.
  destruct (set_fan_speed_run hw rpm st Hr) as (b0 & b1 & ck & E0 & E1 & Eck & Hrun).
  exists ([x5a; xa5; x21; x04; b0; b1; ck] ++ replicate 16 x00)%list.
  split; [|split; [reflexivity | apply speed_frame_checked; exact Eck]].
  eapply sends_with_via; [exact Hrun | reflexivity |].
  apply (send_hex_overlong
           (bytes_hex ([x5a; xa5; x21; x04; b0; b1; ck] ++ replicate 16 x00)%list)
           ([x5a; xa5; x21; x04; b0; b1; ck] ++ replicate 16 x00)%list).
  - apply bytes_hex_lower.
  - apply fromhex_bytes_hex.
  - reflexivity.
  - exact Hc.
Qed.

End CatalogFrames.

(** X3. On a connected controller every command of the catalog (realtime
    mode, speed, gear, gear light, power-on start, smart start/stop,
    brightness) writes the report id followed by a frame in one common
    layout: [5a a5], family, length [n], and at offset [2 + n] a check
    byte equal to the sum of the bytes before it plus one, modulo 256, then
    zeros. The tables agree with the rule [calculate_checksum] computes. *)
Theorem command_frames_checked (hw : hid_backend) (st : state) :
  is_connected st = true ->
  (exists f, sends hw (enter_realtime_speed_mode hw) st (x02 :: f)
             /\ frame_checked f = true)
  /\ (forall rpm, 0 <= rpm <= 65535 ->
         exists f, sends hw (set_fan_speed hw rpm) st (x02 :: f)
                   /\ frame_checked f = true)
  /\ (forall gear position, 1 <= gear <= 4 -> 1 <= position <= 3 ->
         exists f, sends hw (set_gear_position hw gear position) st (x02 :: f)
                   /\ frame_checked f = true)
  /\ (forall enabled,
         exists f, sends hw (set_gear_light hw enabled) st (x02 :: f)
                   /\ frame_checked f = true)
  /\ (forall enabled,
         exists f, sends hw (set_power_on_start hw enabled) st (x02 :: f)
                   /\ frame_checked f = true)
  /\ (forall mode, mode = "off" \/ mode = "immediate" \/ mode = "delayed" ->
         exists f, sends hw (set_smart_start_stop hw mode) st (x02 :: f)
                   /\ frame_checked f = true)
  /\ (forall percentage, percentage = 0 \/ percentage = 100 ->
         exists f, sends hw (set_brightness hw percentage) st (x02 :: f)
                   /\ frame_checked f = true).
Proof.
  intros Hc.
  split.
  { destruct (enter_realtime_speed_mode_fixed hw st Hc) as (f & Hs & _ & Hck).
    exists f. split; [eapply sends_with_sends; exact Hs | exact Hck]. }
  split.
  { intros rpm Hr.
    destruct (set_fan_speed_checked hw rpm st Hr Hc) as (f & Hs & _ & Hck).
    exists f. split; [eapply sends_with_sends; exact Hs | exact Hck]. }
  split.
  { intros gear position Hg Hp.
    destruct (set_gear_position_fixed hw gear position st Hg Hp Hc)
      as (f & Hs & _ & Hck).
    exists f. split; [eapply sends_with_sends; exact Hs | exact Hck]. }
  split.
  { intros enabled.
    destruct (set_gear_light_fixed hw enabled st Hc) as (f & Hs & _ & Hck).
    exists f. split; [eapply sends_with_sends; exact Hs | exact Hck]. }
  split.
  { intros enabled.
    destruct (set_power_on_start_fixed hw enabled st Hc) as (f & Hs & _ & Hck).
    exists f. split; [eapply sends_with_sends; exact Hs | exact Hck]. }
  split.
  { intros mode Hm.
    destruct (set_smart_start_stop_fixed hw mode st Hm Hc) as (f & Hs & _ & Hck & _).
    exists f. split; [eapply sends_with_sends; exact Hs | exact Hck]. }
  intros percentage Hp.
  destruct (set_brightness_fixed hw percentage st Hp Hc) as (f & Hs & _ & Hck).
  exists f. split; [eapply sends_with_sends; exact Hs | exact Hck].
Qed.

(** X3 right after connecting: realtime mode, rpm 1500, gear (4, 2). *)
Lemma command_frames_checked_witness :
  (exists f, sends responsive (enter_realtime_speed_mode responsive) bound (x02 :: f)
             /\ frame_checked f = true)
  /\ (exists f, sends responsive (set_fan_speed responsive 1500) bound (x02 :: f)
                /\ frame_checked f = true)
  /\ (exists f, sends responsive (set_gear_position responsive 4 2) bound (x02 :: f)
                /\ frame_checked f = true).
Proof.
  destruct (command_frames_checked responsive bound eq_refl)
    as (Hreal & Hspeed & Hgear & _).
  split; [exact Hreal|].
  split; [apply Hspeed; lia | apply Hgear; lia].
Defined.

(** X4. With the default declared length 23 no command of the catalog
    fits: on a connected controller each one prints the over-length
    warning and goes out unpadded, the fixed commands as 25-byte reports
    (24-byte frame) and the speed command as a 24-byte report (23-byte
    frame). *)
Theorem commands_exceed_declared_length (hw : hid_backend) (st : state) :
  is_connected st = true ->
  (exists f, sends_with hw (enter_realtime_speed_mode hw) st (x02 :: f)
                        (MsgTooLong 24 22)
             /\ length (x02 :: f) = 25%nat)
  /\ (forall rpm, 0 <= rpm <= 65535 ->
         exists f, sends_with hw (set_fan_speed hw rpm) st (x02 :: f)
                              (MsgTooLong 23 22)
                   /\ length (x02 :: f) = 24%nat)
  /\ (forall gear position, 1 <= gear <= 4 -> 1 <= position <= 3 ->
         exists f, sends_with hw (set_gear_position hw gear position) st (x02 :: f)
                              (MsgTooLong 24 22)
                   /\ length (x02 :: f) = 25%nat)
  /\ (forall enabled,
         exists f, sends_with hw (set_gear_light hw enabled) st (x02 :: f)
                              (MsgTooLong 24 22)
                   /\ length (x02 :: f) = 25%nat)
  /\ (forall enabled,
         exists f, sends_with hw (set_power_on_start hw enabled) st (x02 :: f)
                              (MsgTooLong 24 22)
                   /\ length (x02 :: f) = 25%nat)
  /\ (forall mode, mode = "off" \/ mode = "immediate" \/ mode = "delayed" ->
         exists f, sends_with hw (set_smart_start_stop hw mode) st (x02 :: f)
                              (MsgTooLong 24 22)
                   /\ length (x02 :: f) = 25%nat)
  /\ (forall percentage, percentage = 0 \/ percentage = 100 ->
         exists f, sends_with hw (set_brightness hw percentage) st (x02 :: f)
                              (MsgTooLong 24 22)
                   /\ length (x02 :: f) = 25%nat).
Proof.
  intros Hc.
  split.
  { destruct (enter_realtime_speed_mode_fixed hw st Hc) as (f & Hs & Hn & _).
    exists f. split; [exact Hs | cbn [length]; rewrite Hn; reflexivity]. }
  split.
  { intros rpm Hr.
    destruct (set_fan_speed_checked hw rpm st Hr Hc) as (f & Hs & Hn & _).
    exists f. split; [exact Hs | cbn [length]; rewrite Hn; reflexivity]. }
  split.
  { intros gear position Hg Hp.
    destruct (set_gear_position_fixed hw gear position st Hg Hp Hc)
      as (f & Hs & Hn & _).
    exists f. split; [exact Hs | cbn [length]; rewrite Hn; reflexivity]. }
  split.
  { intros enabled.
    destruct (set_gear_light_fixed hw enabled st Hc) as (f & Hs & Hn & _).
    exists f. split; [exact Hs | cbn [length]; rewrite Hn; reflexivity]. }
  split.
  { intros enabled.
    destruct (set_power_on_start_fixed hw enabled st Hc) as (f & Hs & Hn & _).
    exists f. split; [exact Hs | cbn [length]; rewrite Hn; reflexivity]. }
  split.
  { intros mode Hm.
    destruct (set_smart_start_stop_fixed hw mode st Hm Hc) as (f & Hs & Hn & _).
    exists f. split; [exact Hs | cbn [length]; rewrite Hn; reflexivity]. }
  intros percentage Hp.
  destruct (set_brightness_fixed hw percentage st Hp Hc) as (f & Hs & Hn & _).
  exists f. split; [exact Hs | cbn [length]; rewrite Hn; reflexivity].
Qed.

(** X4 right after connecting: gear light on, rpm 3000. *)
Lemma commands_exceed_declared_length_witness :
  (exists f, sends_with responsive (set_gear_light responsive true) bound (x02 :: f)
                        (MsgTooLong 24 22)
             /\ length (x02 :: f) = 25%nat)
  /\ (exists f, sends_with responsive (set_fan_speed responsive 3000) bound (x02 :: f)
                           (MsgTooLong 23 22)
                /\ length (x02 :: f) = 24%nat).
Proof.
  destruct (commands_exceed_declared_length responsive bound eq_refl)
    as (_ & Hspeed & _ & Hlight & _).
  split; [apply Hlight | apply Hspeed; lia].
Defined.

(** X5. [set_smart_start_stop] knows exactly the modes [off],
    [immediate] and [delayed], spelled so: any other text prints the
    invalid-mode message and sends nothing, whether connected or not; on a
    connected controller the three modes send frames that differ in their
    mode byte (0, 1, 2 at offset 4). *)
Theorem set_smart_start_stop_modes (hw : hid_backend) (st : state) (mode : string) :
  (is_Some (smart_start_stop_commands !! mode)
   <-> mode = "off" \/ mode = "immediate" \/ mode = "delayed")
  /\ (~ (mode = "off" \/ mode = "immediate" \/ mode = "delayed") ->
      refuses (set_smart_start_stop hw mode) st (MsgInvalidMode mode))
  /\ (mode = "off" \/ mode = "immediate" \/ mode = "delayed" ->
      is_connected st = true ->
      exists f,
        sends hw (set_smart_start_stop hw mode) st (x02 :: f)
        /\ f !! 4%nat = (if decide (mode = "off") then Some x00
                         else if decide (mode = "immediate") then Some x01
                         else Some x02)).
Proof.
  split; [apply smart_start_stop_domain|].
  split; [apply set_smart_start_stop_invalid|].
  intros Hm Hc.
  destruct (set_smart_start_stop_fixed hw mode st Hm Hc) as (f & Hs & _ & _ & H4).
  exists f. split; [eapply sends_with_sends; exact Hs | exact H4].
Qed.

(** X5 at the modes [Off] (wrong case) and [delayed]. *)
Lemma set_smart_start_stop_modes_witness :
  refuses (set_smart_start_stop responsive "Off") bound (MsgInvalidMode "Off")
  /\ exists f,
      sends responsive (set_smart_start_stop responsive "delayed") bound (x02 :: f)
      /\ f !! 4%nat = Some x02.
Proof.
  split.
  - destruct (set_smart_start_stop_modes responsive bound "Off") as (_ & Hbad & _).
    apply Hbad. intros [H | [H | H]]; discriminate H.
  - destruct (set_smart_start_stop_modes responsive bound "delayed") as (_ & _ & Hok).
    apply Hok; [right; right; reflexivity | reflexivity].
Defined.

(** X6. Every frame of the gear table carries the gear number minus one at
    offset 4 and a speed between 1300 and 4000 rpm, little-endian, at
    offsets 5-6; along the keys in dictionary order the speed strictly
    increases. *)
Theorem gear_table_speeds (k1 k2 : Z * Z) (c1 c2 : string) :
  gear_positions !! k1 = Some c1 ->
  gear_positions !! k2 = Some c2 ->
  exists v1 v2,
    gear_frame_speed c1 = Some v1
    /\ gear_frame_speed c2 = Some v2
    /\ gear_frame_index c1 = Some (k1.1 - 1)
    /\ 1300 <= v1 <= 4000
    /\ (gear_before k1 k2 -> v1 < v2).
Proof.
  intros H1 H2.
  apply gear_positions_elem in H1. apply gear_positions_elem in H2.
  unfold gear_table in H1, H2.
  rewrite !elem_of_cons, elem_of_nil in H1.
  rewrite !elem_of_cons, elem_of_nil in H2.
  unfold gear_before.
  destruct_or!; try contradiction; simplify_eq;
    (do 2 eexists;
     split; [reflexivity|]; split; [reflexivity|]; split; [reflexivity|];
     split; [vm_compute; split; discriminate|];
     cbn [fst snd]; vm_compute; intros [H|[H1 H2]];
     try reflexivity; try discriminate).
Qed.

(** X6 at the keys (2, 3) and (3, 1): 2700 and 2800 rpm. *)
Lemma gear_table_speeds_witness :
  exists v1 v2,
    gear_frame_speed "5aa52605018c0ac200000000000000000000000000000000" = Some v1
    /\ gear_frame_speed "5aa5260502f00a2700000000000000000000000000000000" = Some v2
    /\ gear_frame_index "5aa52605018c0ac200000000000000000000000000000000"
       = Some ((2, 3).1 - 1)
    /\ 1300 <= v1 <= 4000
    /\ (gear_before (2, 3) (3, 1) -> v1 < v2).
Proof.
  apply (gear_table_speeds (2, 3) (3, 1)); vm_compute; reflexivity.
Defined.

(** ** Further properties: command texts *)

Lemma is_hex_digit_facts (c : ascii) :
  is_hex_digit c = true ->
  c <> " "%char /\ c <> "x"%char /\ is_space c = false
  /\ exists n, hex_digit_value c = Some n /\ (n < 16)%N.
Proof.
  destruct c as [[] [] [] [] [] [] [] []]; vm_compute; intros H;
    try discriminate H; repeat split; try discriminate;
    eexists; split; reflexivity.
Qed.

Lemma replace_space_all_hex (s : string) :
  all_hex s = true -> str_replace " " "" s = s.
Proof.
  unfold str_replace. induction s as [|c s IH]; [reflexivity|].
  intros H. cbn [all_hex] in H. apply andb_true_iff in H as [Hc Hs].
  destruct (is_hex_digit_facts c Hc) as (Hsp & _).
  cbn [replace_from]. rewrite (IH Hs).
  replace (String.prefix " " (String c s)) with false; [reflexivity|].
  cbn [String.prefix].
  destruct (ascii_dec " " c) as [E|_]; [congruence | reflexivity].
Qed.

Lemma replace_0x_all_hex (s : string) :
  all_hex s = true -> str_replace "0x" "" s = s.
Proof.
  unfold str_replace. induction s as [|c s IH]; [reflexivity|].
  intros H. cbn [all_hex] in H. apply andb_true_iff in H as [Hc Hs].
  cbn [replace_from]. rewrite (IH Hs).
  replace (String.prefix "0x" (String c s)) with false; [reflexivity|].
  cbn [String.prefix].
  destruct (ascii_dec "0" c) as [_|_]; [|reflexivity].
  destruct s as [|d s]; [reflexivity|].
  cbn [all_hex] in Hs. apply andb_true_iff in Hs as [Hd _].
  destruct (is_hex_digit_facts d Hd) as (_ & Hx & _).
  cbn [String.prefix].
  destruct (ascii_dec "x" d) as [E|_]; [congruence | reflexivity].
Qed.

Lemma residue_all_hex (s : string) : all_hex s = true -> residue s = s.
Proof.
  intros H. unfold residue.
  rewrite (replace_space_all_hex s H). apply replace_0x_all_hex, H.
Qed.

(** Digits only: [bytes.fromhex] accepts the text exactly when the digits
    pair up, and then yields one byte per pair. *)
Lemma fromhex_all_hex (s : string) :
  all_hex s = true ->
  (Nat.even (String.length s) = true ->
   exists bs, fromhex s = Some bs /\ (2 * length bs = String.length s)%nat)
  /\ (Nat.even (String.length s) = false -> fromhex s = None).
Proof.
  enough (forall s,
             (all_hex s = true ->
              (Nat.even (String.length s) = true ->
               exists bs, fromhex s = Some bs
                          /\ (2 * length bs = String.length s)%nat)
              /\ (Nat.even (String.length s) = false -> fromhex s = None))
             /\ (forall c, all_hex (String c s) = true ->
                  (Nat.even (String.length (String c s)) = true ->
                   exists bs, fromhex (String c s) = Some bs
                              /\ (2 * length bs = String.length (String c s))%nat)
                  /\ (Nat.even (String.length (String c s)) = false ->
                      fromhex (String c s) = None))) as Hboth
      by (apply Hboth).
  clear s. induction s as [|d s [IH1 IH2]].
  - split.
    + intros _. split; [|discriminate].
      intros _. exists []. split; reflexivity.
    + intros c Hc. split; [discriminate|].
      intros _. cbn [all_hex] in Hc. apply andb_true_iff in Hc as [Hc _].
      destruct (is_hex_digit_facts c Hc) as (_ & _ & Hsp & n & Hn & _).
      cbn [fromhex]. rewrite Hsp, Hn. reflexivity.
  - split; [apply IH2|].
    intros c Hall.
    cbn [all_hex] in Hall. apply andb_true_iff in Hall as [Hc Hds].
    pose proof Hds as Hds'. cbn [all_hex] in Hds'.
    apply andb_true_iff in Hds' as [Hd Hs].
    destruct (is_hex_digit_facts c Hc) as (_ & _ & Hsp & top & Htop & Htop16).
    destruct (is_hex_digit_facts d Hd) as (_ & _ & _ & bot & Hbot & Hbot16).
    destruct (Byte.of_N (top * 16 + bot)) as [b|] eqn:Hb;
      [|apply Byte.of_N_None_iff in Hb; lia].
    destruct (IH1 Hs) as [Heven Hodd].
    cbn [fromhex String.length]. rewrite Hsp, Htop, Hbot, Hb.
    change (Nat.even (S (S (String.length s)))) with (Nat.even (String.length s)).
    split.
    + intros He. destruct (Heven He) as (bs & Hbs & Hlen).
      exists (b :: bs). rewrite Hbs. split; [reflexivity|].
      cbn [length]. lia.
    + intros Ho. rewrite (Hodd Ho). reflexivity.
Qed.

(** X7. A command text made of hex digits only (either case) is sent
    exactly when its digits pair up: an even number of digits decodes to
    one byte per pair, and on a connected controller these bytes go out in
    the report, provided the padding can be allocated (otherwise the
    command fails with the send-failed line and nothing is sent); an odd
    number is rejected with the hex-format error and nothing is sent,
    connected or not. *)
Theorem send_hex_command_digit_pairs
    (hw : hid_backend) (st : state) (s : string) (padding_length : Z) :
  all_hex s = true ->
  (Nat.even (String.length s) = true ->
   exists payload,
     (2 * length payload = String.length s)%nat
     /\ (padding_fits hw padding_length payload = true ->
         is_connected st = true ->
         sends hw (send_hex_command hw s default_report_id padding_length) st
               (x02 :: payload ++ padding_for padding_length payload))
     /\ (padding_fits hw padding_length payload = false ->
         refuses (send_hex_command hw s default_report_id padding_length) st
                 MsgSendFailed))
  /\ (Nat.even (String.length s) = false ->
      send_hex_command hw s default_report_id padding_length st
      = (Return false, logged [Print MsgHexFormatError] st)).
Proof.
  intros Hall.
  destruct (fromhex_all_hex s Hall) as [Heven Hodd].
  split.
  - intros He. destruct (Heven He) as (payload & Hp & Hlen).
    rewrite <- (residue_all_hex s Hall) in Hp.
    exists payload. split; [exact Hlen|]. split.
    + intros Hf Hc.
      apply send_hex_command_sends; [exact Hc | exact Hp | exact Hf | reflexivity].
    + intros Hf.
      apply send_hex_command_unallocated with (payload := payload) (rid := x02);
        [exact Hp | reflexivity | exact Hf].
  - intros Ho. rewrite send_hex_command_run, (residue_all_hex s Hall), (Hodd Ho).
    reflexivity.
Qed.

(** X7 on the 13-digit command of [test_bs2pro_with_commands] and on its
    first 12 digits. *)
Lemma send_hex_command_digit_pairs_witness :
  send_hex_command responsive "5aa54803014b0" default_report_id 23 bound
  = (Return false, logged [Print MsgHexFormatError] bound)
  /\ exists payload,
      (2 * length payload = String.length "5AA54803014b")%nat
      /\ (padding_fits responsive 23 payload = true ->
          is_connected bound = true ->
          sends responsive
                (send_hex_command responsive "5AA54803014b" default_report_id 23) bound
                (x02 :: payload ++ padding_for 23 payload))
      /\ (padding_fits responsive 23 payload = false ->
          refuses (send_hex_command responsive "5AA54803014b" default_report_id 23)
                  bound MsgSendFailed).
Proof.
  split.
  - destruct (send_hex_command_digit_pairs responsive bound "5aa54803014b0" 23 eq_refl)
      as [_ Hodd].
    apply Hodd. reflexivity.
  - destruct (send_hex_command_digit_pairs responsive bound "5AA54803014b" 23 eq_refl)
      as [Heven _].
    apply Heven; reflexivity.
Defined.

(** X8. The report id is checked only by building the byte, after the
    padding has been allocated: with an id outside [0, 255],
    [send_hex_command] decodes the text, allocates the padding, then fails
    with the hex-format error (with the send-failed line instead, when the
    padding cannot be allocated), and [send_feature_report] fails with its
    own message; neither reaches the HID library, even on a connected
    controller. *)
Theorem report_id_out_of_range
    (hw : hid_backend) (st : state) (report_id : Z) :
  report_id < 0 \/ 255 < report_id ->
  (forall s padding_length payload,
      fromhex (residue s) = Some payload ->
      refuses (send_hex_command hw s report_id padding_length) st
              (if padding_allocates hw padding_length payload
               then MsgHexFormatError else MsgSendFailed))
  /\ (forall data,
         is_connected st = true ->
         refuses (send_feature_report hw report_id data) st MsgFeatureFailed).
Proof.
  intros Hout.
  assert (byte_of_Z report_id = None) as Hnone.
  { unfold byte_of_Z.
    replace ((0 <=? report_id) && (report_id <? 256)) with false; [reflexivity|].
    symmetry. apply andb_false_iff.
    destruct Hout; [left; apply Z.leb_gt | right; apply Z.ltb_ge]; lia. }
  split.
  - intros s padding_length payload Hp. unfold refuses.
    rewrite send_hex_command_run, Hp. cbv zeta. rewrite Hnone.
    destruct (padding_allocates hw padding_length payload);
      (eexists; split; [reflexivity|]; split; [left; reflexivity|];
       cbn [hid_calls List.filter is_hid_call]; apply hid_calls_warning).
  - intros data Hc. destruct (is_connected_inv st Hc) as (d & ids & Hd & Ho).
    unfold refuses. rewrite send_feature_report_run, Hd, Hnone.
    eexists. split; [reflexivity|]. split; [left|]; reflexivity.
Qed.

(** X8 at report id 256 on a connected controller. *)
Lemma report_id_out_of_range_witness :
  refuses (send_hex_command responsive "5aa5" 256 23) bound MsgHexFormatError
  /\ refuses (send_hex_command responsive "5aa5" 256 (2 ^ 63)) bound MsgSendFailed
  /\ refuses (send_feature_report responsive 256 [x5a]) bound MsgFeatureFailed.
Proof.
  destruct (report_id_out_of_range responsive bound 256) as [Hhex Hfeat];
    [right; lia|].
  split; [|split].
  - apply (Hhex "5aa5" 23 [x5a; xa5]). reflexivity.
  - apply (Hhex "5aa5" (2 ^ 63) [x5a; xa5]). reflexivity.
  - apply Hfeat. reflexivity.
Defined.

(** X9. Hex-encoding any byte string and handing the text to
    [send_hex_command] puts exactly those bytes on the bus after the report
    id, followed by the zero padding, whenever the padding can be
    allocated: [bytes.fromhex] undoes [bytes.hex], and the clean-up of the
    text leaves lower-case digits alone. *)
Theorem send_hex_command_roundtrip
    (hw : hid_backend) (st : state) (payload : list byte)
    (report_id padding_length : Z) (rid : byte) :
  is_connected st = true ->
  byte_of_Z report_id = Some rid ->
  padding_fits hw padding_length payload = true ->
  fromhex (residue (bytes_hex payload)) = Some payload
  /\ sends hw (send_hex_command hw (bytes_hex payload) report_id padding_length) st
           (rid :: payload ++ padding_for padding_length payload).
Proof.
  intros Hc Hr Hf.
  assert (fromhex (residue (bytes_hex payload)) = Some payload) as Hp.
  { rewrite residue_lower by apply bytes_hex_lower. apply fromhex_bytes_hex. }
  split; [exact Hp|].
  apply send_hex_command_sends; assumption.
Qed.

(** X9 on three bytes, report id 2, declared length 8. *)
Lemma send_hex_command_roundtrip_witness :
  fromhex (residue (bytes_hex [x00; x0a; xff])) = Some [x00; x0a; xff]
  /\ sends responsive
           (send_hex_command responsive (bytes_hex [x00; x0a; xff]) 2 8) bound
           (x02 :: [x00; x0a; xff] ++ padding_for 8 [x00; x0a; xff]).
Proof.
  apply (send_hex_command_roundtrip responsive bound [x00; x0a; xff] 2 8 x02);
    reflexivity.
Defined.

(** ** Further properties: batches and the console *)

Section BatchRuns.

Variable hw : hid_backend.

(** What a send does depends on the handle alone. It never raises, and
    reaches the library with at most one write, none on a closed
    controller. *)
Lemma send_hex_shape (s : string) (d : option hid_device) :
  exists b es,
    (forall st, device st = d -> send_hex hw s st = (Return b, logged es st))
    /\ ((b = false /\ hid_calls es = [])
        \/ exists r, hid_calls es = [HidWrite r] /\ b = write_ok hw r)
    /\ (d = None -> b = false /\ hid_calls es = []).
Proof.
  unfold send_hex.
  destruct (fromhex (residue s)) as [payload|] eqn:Hp.
  2:{ exists false, [Print MsgHexFormatError]. split.
      - intros st _. rewrite send_hex_command_run, Hp. reflexivity.
      - split; [left|]; split; reflexivity. }
  pose proof (hid_calls_warning default_padding_length payload) as Hw.
  set (w := too_long_warning default_padding_length payload) in *.
  destruct (padding_fits hw default_padding_length payload) eqn:Hf.
  2:{ exists false, (Print MsgSendFailed :: w). split.
      - intros st _. rewrite send_hex_command_run, Hp. cbv zeta. rewrite Hf.
        change (byte_of_Z default_report_id) with (Some x02). cbv iota beta.
        destruct (padding_allocates hw default_padding_length payload);
          reflexivity.
      - split; [left|]; (split; [reflexivity | exact Hw]). }
  set (report := (x02 :: payload ++ padding_for default_padding_length payload)%list).
  set (sending := Print (MsgSending (residue s) (len report))).
  assert (forall st,
             send_hex_command hw s default_report_id default_padding_length st
             = send_output_report hw report (logged (sending :: w) st)) as Hrun.
  { intros st. rewrite send_hex_command_run, Hp. cbv zeta.
    rewrite (padding_fits_allocates hw _ _ Hf), Hf. reflexivity. }
  assert (forall es0, hid_calls es0 = [] -> hid_calls (es0 ++ sending :: w) = [])
    as Hquiet.
  { intros es0 H0. rewrite hid_calls_app, H0.
    cbn [app hid_calls List.filter is_hid_call sending]. exact Hw. }
  destruct d as [d|].
  - destruct (opened_as d) as [ids|] eqn:Ho.
    + destruct (hid_write hw report) as [n|] eqn:Hwr.
      * exists true, ([Print (MsgOutputSent n); HidWrite report] ++ sending :: w)%list.
        split; [|split; [|discriminate]].
        -- intros st Hd. rewrite Hrun, send_output_report_run.
           cbn [logged device]. rewrite Hd, Ho, Hwr, logged_logged. reflexivity.
        -- right. exists report. unfold write_ok. rewrite Hwr.
           split; [|reflexivity].
           cbn [app hid_calls List.filter is_hid_call sending]. fold (hid_calls w).
           rewrite Hw. reflexivity.
      * exists false, ([Print MsgOutputFailed; HidWrite report] ++ sending :: w)%list.
        split; [|split; [|discriminate]].
        -- intros st Hd. rewrite Hrun, send_output_report_run.
           cbn [logged device]. rewrite Hd, Ho, Hwr, logged_logged. reflexivity.
        -- right. exists report. unfold write_ok. rewrite Hwr.
           split; [|reflexivity].
           cbn [app hid_calls List.filter is_hid_call sending]. fold (hid_calls w).
           rewrite Hw. reflexivity.
    + exists false, ([Print MsgOutputFailed] ++ sending :: w)%list.
      split; [|split; [|discriminate]].
      * intros st Hd. rewrite Hrun, send_output_report_run.
        cbn [logged device]. rewrite Hd, Ho, logged_logged. reflexivity.
      * left. split; [reflexivity|]. apply Hquiet. reflexivity.
  - exists false, ([Print MsgNotConnected] ++ sending :: w)%list.
    split; [|split].
    + intros st Hd. rewrite Hrun, send_output_report_run.
      cbn [logged device]. rewrite Hd, logged_logged. reflexivity.
    + left. split; [reflexivity|]. apply Hquiet. reflexivity.
    + intros _. split; [reflexivity|]. apply Hquiet. reflexivity.
Qed.

Lemma send_multiple_commands_run (commands : list string) (delay : delay_kind)
    (st : state) :
  send_multiple_commands hw commands delay st =
  match send_commands_from hw commands delay 0 (len commands) 0 st with
  | (Return n, st') =>
      (Return n,
       logged [Print (MsgBatchDone n (len (List.filter is_command commands)))] st')
  | (Raise e, st') => (Raise e, st')
  end.
Proof.
  unfold send_multiple_commands, bind.
  destruct (send_commands_from hw commands delay 0 (len commands) 0 st)
    as [[n|e] st']; reflexivity.
Qed.

(** With a delay that can be slept (or none) the loop returns; the count
    and the writes depend on neither the position in the list nor the
    count so far. *)
Lemma send_commands_from_quiet (commands : list string) (delay : delay_kind)
    (d : option hid_device) :
  delay <> TooLarge ->
  exists n calls,
    0 <= n <= len calls
    /\ len calls <= len (List.filter is_command commands)
    /\ (d = None -> n = 0 /\ calls = [])
    /\ forall i total acc st,
        device st = d ->
        exists es,
          send_commands_from hw commands delay i total acc st
          = (Return (acc + n), logged es st)
          /\ hid_calls es = calls.
Proof.
  intros Hdelay. induction commands as [|cmd rest IH].
  - exists 0, []. split; [unfold len; simpl; lia|].
    split; [reflexivity|]. split; [intros _; split; reflexivity|].
    intros i total acc st _. exists [].
    rewrite logged_nil, Z.add_0_r. split; reflexivity.
  - destruct IH as (n & calls & Hn & Hlen & Hclosed & Hrun).
    cbn [List.filter]. unfold is_command at 1.
    destruct (strip cmd) as [|c0 tail] eqn:Hstrip.
    + exists n, calls. split; [exact Hn|]. split; [exact Hlen|].
      split; [exact Hclosed|].
      intros i total acc st Hst. cbn [send_commands_from]. rewrite Hstrip.
      apply Hrun. exact Hst.
    + destruct (send_hex_shape (String c0 tail) d)
        as (b & es1 & Hsend & Hcalls & Hclosed1).
      exists ((if b then 1 else 0) + n), (calls ++ hid_calls es1)%list.
      unfold len in *. rewrite length_app. cbn [length].
      split; [|split; [|split]].
      * destruct Hcalls as [[-> Hes1]|(r & Hes1 & _)]; rewrite Hes1; cbn [length].
        -- lia.
        -- destruct b; lia.
      * destruct Hcalls as [[_ Hes1]|(r & Hes1 & _)]; rewrite Hes1; cbn [length]; lia.
      * intros Hd. destruct (Hclosed1 Hd) as [-> Hes1].
        destruct (Hclosed Hd) as [-> ->]. rewrite Hes1. split; reflexivity.
      * intros i total acc st Hst. cbn [send_commands_from]. rewrite Hstrip.
        rewrite print_then. unfold bind at 1.
        rewrite (Hsend (logged [Print (MsgBatchCommand (i + 1) total (String c0 tail))] st))
          by exact Hst.
        unfold bind at 1.
        replace ((if delay_positive delay && (i <? total - 1)
                  then time_sleep delay else ret tt)
                   (logged es1
                      (logged [Print (MsgBatchCommand (i + 1) total (String c0 tail))] st)))
          with (@Return unit tt,
                logged es1
                  (logged [Print (MsgBatchCommand (i + 1) total (String c0 tail))] st))
          by (destruct delay, (i <? total - 1); try reflexivity; congruence).
        destruct (Hrun (i + 1) total (if b then acc + 1 else acc)
                    (logged es1
                       (logged [Print (MsgBatchCommand (i + 1) total (String c0 tail))] st))
                    Hst) as (es2 & Hrun2 & Hes2).
        rewrite Hrun2, !logged_logged.
        eexists. split; [destruct b; do 2 f_equal; lia|].
        rewrite !hid_calls_app, Hes2.
        cbn [hid_calls List.filter is_hid_call]. rewrite app_nil_r. reflexivity.
Qed.

(** With a delay that cannot be slept the loop raises after the first
    entry that is not blank, unless that entry is the last of the list. *)
Lemma send_commands_from_too_large (commands : list string) (i total acc : Z)
    (d : option hid_device) :
  total = i + len commands ->
  if existsb is_command (removelast commands)
  then
    exists es,
      (forall st, device st = d ->
                  send_commands_from hw commands TooLarge i total acc st
                  = (Raise OverflowError, logged es st))
      /\ len (hid_calls es) <= 1
      /\ (d = None -> hid_calls es = [])
  else
    exists n es,
      (forall st, device st = d ->
                  send_commands_from hw commands TooLarge i total acc st
                  = (Return (acc + n), logged es st))
      /\ 0 <= n <= len (hid_calls es)
      /\ len (hid_calls es) <= len (List.filter is_command commands)
      /\ (d = None -> n = 0 /\ hid_calls es = []).
Proof.
  revert i acc. induction commands as [|cmd rest IH]; intros i acc Htotal.
  - cbn [removelast existsb]. exists 0, [].
    split; [intros st _; rewrite logged_nil, Z.add_0_r; reflexivity|].
    split; [unfold len; simpl; lia|]. split; [reflexivity|].
    intros _. split; reflexivity.
  - assert (total = (i + 1) + len rest) as Hnext
        by (rewrite Htotal; unfold len; cbn [length]; lia).
    specialize (IH (i + 1)).
    destruct (send_hex_shape (strip cmd) d) as (b & es1 & Hsend & Hcalls & Hclosed1).
    assert (len (hid_calls es1) <= 1) as Hone.
    { destruct Hcalls as [[_ ->]|(r & -> & _)]; unfold len; simpl; lia. }
    destruct rest as [|next rest'].
    + cbn [removelast existsb List.filter]. unfold is_command at 1.
      destruct (strip cmd) as [|c0 tail] eqn:Hstrip.
      * exists 0, [].
        split; [intros st _; cbn [send_commands_from]; rewrite Hstrip;
                rewrite logged_nil, Z.add_0_r; reflexivity|].
        split; [unfold len; simpl; lia|]. split; [reflexivity|].
        intros _. split; reflexivity.
      * exists (if b then 1 else 0),
          (es1 ++ [Print (MsgBatchCommand (i + 1) total (String c0 tail))])%list.
        rewrite hid_calls_app. cbn [hid_calls List.filter is_hid_call].
        rewrite app_nil_r.
        split; [|split; [|split]].
        -- intros st Hst. cbn [send_commands_from]. rewrite Hstrip.
           rewrite print_then. unfold bind at 1.
           rewrite (Hsend (logged [Print (MsgBatchCommand (i + 1) total (String c0 tail))] st))
             by exact Hst.
           replace (i <? total - 1) with false
             by (symmetry; apply Z.ltb_ge; rewrite Htotal; unfold len; simpl; lia).
           rewrite andb_false_r. unfold bind, ret. rewrite logged_logged.
           destruct b; [reflexivity | rewrite Z.add_0_r; reflexivity].
        -- destruct Hcalls as [[-> Hes1]|(r & Hes1 & _)]; rewrite Hes1;
             unfold len; cbn [length]; [lia | destruct b; lia].
        -- unfold len in *. cbn [length]. lia.
        -- intros Hd. destruct (Hclosed1 Hd) as [-> Hes1]. split; [reflexivity | exact Hes1].
    + change (removelast (cmd :: next :: rest'))
        with (cmd :: removelast (next :: rest')).
      cbn [existsb List.filter]. unfold is_command at 1 3.
      destruct (strip cmd) as [|c0 tail] eqn:Hstrip.
      * cbn [orb].
        destruct (existsb is_command (removelast (next :: rest'))).
        -- destruct (IH acc Hnext) as (es & Hrun & Hrest).
           exists es. split; [|exact Hrest].
           intros st Hst. cbn [send_commands_from]. rewrite Hstrip.
           apply Hrun. exact Hst.
        -- destruct (IH acc Hnext) as (n & es & Hrun & Hrest).
           exists n, es. split; [|exact Hrest].
           intros st Hst. cbn [send_commands_from]. rewrite Hstrip.
           apply Hrun. exact Hst.
      * cbn [orb].
        exists (es1 ++ [Print (MsgBatchCommand (i + 1) total (String c0 tail))])%list.
        rewrite hid_calls_app. cbn [hid_calls List.filter is_hid_call].
        rewrite app_nil_r.
        split; [|split; [exact Hone|]].
        -- intros st Hst. cbn [send_commands_from]. rewrite Hstrip.
           rewrite print_then. unfold bind at 1.
           rewrite (Hsend (logged [Print (MsgBatchCommand (i + 1) total (String c0 tail))] st))
             by exact Hst.
           replace (i <? total - 1) with true
             by (symmetry; apply Z.ltb_lt; rewrite Htotal; unfold len; cbn [length]; lia).
           cbn [delay_positive andb time_sleep]. unfold bind, raise.
           rewrite logged_logged. reflexivity.
        -- intros Hd. apply (Hclosed1 Hd).
Qed.




Lemma enter_realtime_speed_mode_sends (st : state) :
  is_connected st = true ->
  sends hw (enter_realtime_speed_mode hw) st (x02 :: realtime_frame).
Proof.
  intros Hc.
  apply (sends_via hw _
           (send_hex hw "5aa523022500000000000000000000000000000000000000")
           [Print MsgEnterRealtime]); [reflexivity | reflexivity |].
  apply send_hex_24; [reflexivity | reflexivity | reflexivity | exact Hc].
Qed.

End BatchRuns.

(** X10. [send_multiple_commands] raises only in its pause: when the
    delay is positive but cannot be slept (such as [inf]) and an entry
    that is not blank is followed by another entry. Then it raises
    [OverflowError] after at most one write. In every other case it
    returns: it attempts at most one write per non-blank entry, the count
    it returns is at most the number of writes attempted, and on a
    controller without a handle it returns 0 and attempts none. *)
Theorem send_multiple_commands_counts
    (hw : hid_backend) (commands : list string) (delay : delay_kind) (st : state) :
  (sleep_raises delay commands = false ->
   exists n es,
     send_multiple_commands hw commands delay st = (Return n, logged es st)
     /\ 0 <= n <= len (hid_calls es)
     /\ len (hid_calls es) <= len (List.filter is_command commands)
     /\ (device st = None -> n = 0 /\ hid_calls es = []))
  /\ (sleep_raises delay commands = true ->
      exists es,
        send_multiple_commands hw commands delay st
        = (Raise OverflowError, logged es st)
        /\ len (hid_calls es) <= 1
        /\ (device st = None -> hid_calls es = [])).
Proof.
  rewrite send_multiple_commands_run.
  assert (delay <> TooLarge ->
          exists n es,
            match send_commands_from hw commands delay 0 (len commands) 0 st with
            | (Return n, st') =>
                (Return n,
                 logged [Print (MsgBatchDone n (len (List.filter is_command commands)))] st')
            | (Raise e, st') => (Raise e, st')
            end = (Return n, logged es st)
            /\ 0 <= n <= len (hid_calls es)
            /\ len (hid_calls es) <= len (List.filter is_command commands)
            /\ (device st = None -> n = 0 /\ hid_calls es = [])) as Hquiet.
  { intros Hdelay.
    destruct (send_commands_from_quiet hw commands delay (device st) Hdelay)
      as (n & calls & Hn & Hlen & Hclosed & Hrun).
    destruct (Hrun 0 (len commands) 0 st eq_refl) as (es & E & Hes).
    rewrite E, logged_logged. eexists (0 + n), _.
    split; [reflexivity|].
    rewrite hid_calls_app. cbn [hid_calls List.filter is_hid_call app].
    fold (hid_calls es). rewrite Hes.
    split; [lia|]. split; [exact Hlen|].
    intros Hd. destruct (Hclosed Hd) as [-> ->]. split; reflexivity. }
  destruct delay; cbn [sleep_raises].
  - split; [intros _; apply Hquiet; discriminate | discriminate].
  - split; [intros _; apply Hquiet; discriminate | discriminate].
  - pose proof (send_commands_from_too_large hw commands 0 (len commands) 0
                  (device st) eq_refl) as Hlarge.
    destruct (existsb is_command (removelast commands)).
    + split; [discriminate|]. intros _.
      destruct Hlarge as (es & Hrun & Hrest).
      rewrite (Hrun st eq_refl). exists es. split; [reflexivity | exact Hrest].
    + split; [|discriminate]. intros _.
      destruct Hlarge as (n & es & Hrun & Hn & Hlen & Hclosed).
      rewrite (Hrun st eq_refl), logged_logged. eexists (0 + n), _.
      split; [reflexivity|].
      rewrite hid_calls_app. cbn [hid_calls List.filter is_hid_call app].
      fold (hid_calls es).
      split; [lia|]. split; [exact Hlen|].
      intros Hd. destruct (Hclosed Hd) as [-> Hes]. split; [reflexivity | exact Hes].
Qed.

(** X10 on a connected controller with two commands and a blank line
    between them: with the default kind of delay, and with one that cannot
    be slept. *)
Lemma send_multiple_commands_counts_witness :
  (exists n es,
     send_multiple_commands responsive ["5aa5410243"; "   "; "5aa5230225"]
       Sleepable bound = (Return n, logged es bound)
     /\ 0 <= n <= len (hid_calls es)
     /\ len (hid_calls es)
        <= len (List.filter is_command ["5aa5410243"; "   "; "5aa5230225"])
     /\ (device bound = None -> n = 0 /\ hid_calls es = []))
  /\ (exists es,
        send_multiple_commands responsive ["5aa5410243"; "   "; "5aa5230225"]
          TooLarge bound = (Raise OverflowError, logged es bound)
        /\ len (hid_calls es) <= 1
        /\ (device bound = None -> hid_calls es = [])).
Proof.
  split.
  - apply (send_multiple_commands_counts responsive
             ["5aa5410243"; "   "; "5aa5230225"] Sleepable bound).
    reflexivity.
  - apply (send_multiple_commands_counts responsive
             ["5aa5410243"; "   "; "5aa5230225"] TooLarge bound).
    reflexivity.
Defined.



(** X12. The console line [speed <rpm>] first switches the device to
    realtime mode and only then validates the speed: on a connected
    controller a valid rpm writes the realtime report and then the speed
    report; an rpm outside [0, 65535] still writes the realtime report, and
    nothing after it. *)
Theorem speed_line_reports (hw : hid_backend) (rpm : Z) (st : state) :
  is_connected st = true ->
  (0 <= rpm <= 65535 ->
   exists es f,
     speed_line hw rpm st = (Return tt, logged es st)
     /\ hid_calls es = [HidWrite (x02 :: f); HidWrite (x02 :: realtime_frame)]
     /\ length f = 23%nat)
  /\ (rpm < 0 \/ 65535 < rpm ->
      exists es,
        speed_line hw rpm st = (Return tt, logged es st)
        /\ hid_calls es = [HidWrite (x02 :: realtime_frame)]).
Proof.
  intros Hc.
  destruct (enter_realtime_speed_mode_sends hw st Hc) as (es1 & Hrun1 & Hes1).
  split.
  - intros Hr.
    destruct (set_fan_speed_report hw rpm (logged es1 st) Hr Hc)
      as (b0 & b1 & ck & _ & _ & _ & es2 & Hrun2 & Hes2).
    exists (es2 ++ es1)%list,
      ([x5a; xa5; x21; x04; b0; b1; ck] ++ replicate 16 x00)%list.
    unfold speed_line, bind. rewrite Hrun1, Hrun2, logged_logged.
    split; [reflexivity|]. split; [|reflexivity].
    rewrite hid_calls_app, Hes1, Hes2. reflexivity.
  - intros Hout.
    exists ([Print (MsgRpmOutOfRange rpm)] ++ es1)%list.
    unfold speed_line, bind.
    rewrite Hrun1, (set_fan_speed_rejects hw rpm _ Hout), logged_logged.
    split; [reflexivity|].
    rewrite hid_calls_app, Hes1. reflexivity.
Qed.

(** X12 at [speed 2000] and [speed 70000] right after connecting. *)
Lemma speed_line_reports_witness :
  (exists es f,
      speed_line responsive 2000 bound = (Return tt, logged es bound)
      /\ hid_calls es = [HidWrite (x02 :: f); HidWrite (x02 :: realtime_frame)]
      /\ length f = 23%nat)
  /\ (exists es,
         speed_line responsive 70000 bound = (Return tt, logged es bound)
         /\ hid_calls es = [HidWrite (x02 :: realtime_frame)]).
Proof.
  destruct (speed_line_reports responsive 2000 bound eq_refl) as [Hok _].
  destruct (speed_line_reports responsive 70000 bound eq_refl) as [_ Hbad].
  split; [apply Hok; lia | apply Hbad; right; lia].
Defined.

(** ** Further properties: connecting *)

Section Connecting.

Variable hw : hid_backend.

Lemma try_connect_run (vid pid : Z) (st : state) :
  _try_connect hw vid pid st =
  if hid_open hw vid pid then
    match hid_manufacturer_string hw vid pid, hid_product_string hw vid pid with
    | Some m, Some p =>
        (Return true,
         {| device := Some {| opened_as := Some (vid, pid) |};
            vendor_id := Some vid; product_id := Some pid;
            trace := [Print (MsgProductId pid); Print (MsgVendorId vid);
                      Print (MsgProduct (or_unknown p));
                      Print (MsgManufacturer (or_unknown m));
                      Print MsgConnected; HidOpen vid pid] ++ trace st |})
    | _, _ =>
        (Return false,
         {| device := None; vendor_id := Some vid; product_id := Some pid;
            trace := [HidClose; Print (MsgConnectFailed vid pid); HidOpen vid pid]
                     ++ trace st |})
    end
  else
    (Return false,
     {| device := None; vendor_id := vendor_id st; product_id := product_id st;
        trace := [HidClose; Print (MsgConnectFailed vid pid); HidOpen vid pid]
                 ++ trace st |}).
Proof.
  unfold _try_connect, try_except, bind, device_open, close_quietly, device_close,
    try_except, bind, or_raise, get_device, set_device, set_ids, print, emit, ret, raise.
  cbn.
  destruct (hid_open hw vid pid); cbn.
  - destruct (hid_manufacturer_string hw vid pid); cbn.
    + destruct (hid_product_string hw vid pid); cbn; [reflexivity|].
      destruct (hid_close hw _); reflexivity.
    + destruct (hid_close hw _); reflexivity.
  - destruct (hid_close hw _); reflexivity.
Qed.

Lemma opens_unfold (vid pid : Z) (name : string) :
  opens hw (vid, pid, name)
  = if hid_open hw vid pid then
      match hid_manufacturer_string hw vid pid, hid_product_string hw vid pid with
      | Some _, Some _ => true
      | _, _ => false
      end
    else false.
Proof.
  unfold opens. cbn [fst snd].
  destruct (hid_open hw vid pid); [|reflexivity].
  destruct (hid_manufacturer_string hw vid pid), (hid_product_string hw vid pid);
    reflexivity.
Qed.

(** What one attempt leaves behind. *)
Lemma try_connect_effect (vid pid : Z) (name : string) (st : state) :
  exists es st',
    _try_connect hw vid pid st = (Return (opens hw (vid, pid, name)), st')
    /\ trace st' = (es ++ trace st)%list
    /\ (opens hw (vid, pid, name) = true ->
        device st' = Some {| opened_as := Some (vid, pid) |}
        /\ vendor_id st' = Some vid /\ product_id st' = Some pid
        /\ hid_calls es = [HidOpen vid pid])
    /\ (opens hw (vid, pid, name) = false ->
        device st' = None /\ hid_calls es = [HidClose; HidOpen vid pid]).
Proof.
  rewrite try_connect_run, opens_unfold.
  destruct (hid_open hw vid pid).
  - destruct (hid_manufacturer_string hw vid pid) as [m|],
      (hid_product_string hw vid pid) as [p|];
      do 2 eexists; (split; [reflexivity|]); (split; [reflexivity|]);
      split; intros H; try discriminate H; repeat split; reflexivity.
  - do 2 eexists. split; [reflexivity|]. split; [reflexivity|].
    split; intros H; try discriminate H. split; reflexivity.
Qed.

Lemma try_each_failing (devices : list (Z * Z * string)) (st : state) :
  Forall (fun d => opens hw d = false) devices ->
  exists es st',
    try_each hw devices st = (Return false, st')
    /\ trace st' = (es ++ trace st)%list
    /\ rev (hid_calls es) = failed_attempts devices.
Proof.
  revert st. induction devices as [|[[vid pid] name] rest IH]; intros st Hall.
  - exists [Print MsgAllFailed]. eexists. repeat split; reflexivity.
  - inversion Hall as [|d l Hd Hrest]; subst.
    cbn [try_each]. rewrite print_then. unfold bind at 1.
    destruct (try_connect_effect vid pid name
                (logged [Print (MsgTrying name vid pid)] st))
      as (es1 & st1 & Hrun & Htr & _ & Hfail).
    rewrite Hd in Hrun. rewrite Hrun.
    destruct (Hfail Hd) as [_ Hcalls].
    destruct (IH st1 Hrest) as (es2 & st2 & Hrun2 & Htr2 & Hcalls2).
    exists (es2 ++ es1 ++ [Print (MsgTrying name vid pid)])%list, st2.
    split; [exact Hrun2|]. split.
    + rewrite Htr2, Htr. cbn [logged trace]. rewrite <- !app_assoc. reflexivity.
    + rewrite !hid_calls_app, !rev_app_distr, Hcalls2, Hcalls.
      cbn [hid_calls List.filter is_hid_call rev app failed_attempts flat_map fst snd].
      reflexivity.
Qed.

Lemma try_each_first (before after : list (Z * Z * string)) (c : Z * Z * string)
    (st : state) :
  Forall (fun d => opens hw d = false) before ->
  opens hw c = true ->
  exists es st',
    try_each hw (before ++ c :: after) st = (Return true, st')
    /\ trace st' = (es ++ trace st)%list
    /\ device st' = Some {| opened_as := Some (c.1.1, c.1.2) |}
    /\ rev (hid_calls es) = (failed_attempts before ++ [HidOpen c.1.1 c.1.2])%list.
Proof.
  revert st. induction before as [|[[vid pid] name] rest IH]; intros st Hall Hc.
  - destruct c as [[vid pid] name].
    cbn [app try_each]. rewrite print_then. unfold bind at 1.
    destruct (try_connect_effect vid pid name
                (logged [Print (MsgTrying name vid pid)] st))
      as (es1 & st1 & Hrun & Htr & Hok & _).
    rewrite Hc in Hrun. rewrite Hrun.
    destruct (Hok Hc) as (Hdev & _ & _ & Hcalls).
    exists (es1 ++ [Print (MsgTrying name vid pid)])%list, st1.
    split; [reflexivity|]. split.
    + rewrite Htr. cbn [logged trace]. rewrite <- app_assoc. reflexivity.
    + split; [exact Hdev|].
      rewrite hid_calls_app, rev_app_distr, Hcalls. reflexivity.
  - inversion Hall as [|d l Hd Hrest]; subst.
    cbn [app try_each]. rewrite print_then. unfold bind at 1.
    destruct (try_connect_effect vid pid name
                (logged [Print (MsgTrying name vid pid)] st))
      as (es1 & st1 & Hrun & Htr & _ & Hfail).
    rewrite Hd in Hrun. rewrite Hrun.
    destruct (Hfail Hd) as [_ Hcalls].
    destruct (IH st1 Hrest Hc) as (es2 & st2 & Hrun2 & Htr2 & Hdev & Hcalls2).
    exists (es2 ++ es1 ++ [Print (MsgTrying name vid pid)])%list, st2.
    split; [exact Hrun2|]. split.
    + rewrite Htr2, Htr. cbn [logged trace]. rewrite <- !app_assoc. reflexivity.
    + split; [exact Hdev|].
      rewrite !hid_calls_app, !rev_app_distr, Hcalls2, Hcalls.
      cbn [hid_calls List.filter is_hid_call rev app failed_attempts flat_map fst snd].
      reflexivity.
Qed.

(** The first candidate that opens, if any. *)
Lemma first_opening (devices : list (Z * Z * string)) :
  (existsb (opens hw) devices = false
   /\ Forall (fun d => opens hw d = false) devices)
  \/ (existsb (opens hw) devices = true
      /\ exists before c after,
          devices = (before ++ c :: after)%list
          /\ Forall (fun d => opens hw d = false) before
          /\ opens hw c = true).
Proof.
  induction devices as [|d rest IH].
  - left. split; [reflexivity | constructor].
  - cbn [existsb]. destruct (opens hw d) eqn:Hd.
    + right. split; [reflexivity|]. exists [], d, rest. repeat split; auto.
    + destruct IH as [[He Hall]|[He (before & c & after & -> & Hall & Hc)]].
      * left. split; [exact He | constructor; assumption].
      * right. split; [exact He|].
        exists (d :: before), c, after. repeat split; auto.
Qed.

End Connecting.

(** X13. [connect] with both ids never raises and returns [True] exactly
    when the device opens and its two strings can be read; it then holds a
    handle opened on those ids and has recorded them, after one [open]
    call. In every other case it closes the handle it created and is left
    without any handle, even if it held an open one before the call. *)
Theorem connect_with_ids (hw : hid_backend) (vid pid : Z) (st : state) :
  exists es st',
    connect hw (Some vid) (Some pid) st
    = (Return (opens hw (vid, pid, EmptyString)), st')
    /\ trace st' = (es ++ trace st)%list
    /\ (opens hw (vid, pid, EmptyString) = true ->
        device st' = Some {| opened_as := Some (vid, pid) |}
        /\ vendor_id st' = Some vid /\ product_id st' = Some pid
        /\ hid_calls es = [HidOpen vid pid])
    /\ (opens hw (vid, pid, EmptyString) = false ->
        device st' = None /\ hid_calls es = [HidClose; HidOpen vid pid]).
Proof.
  destruct (try_connect_effect hw vid pid EmptyString st)
    as (es & st' & Hrun & Hrest).
  exists es, st'. split; [|exact Hrest].
  unfold connect, try_except. rewrite Hrun. reflexivity.
Qed.

(** X13 on a device that cannot be opened, from a connected controller. *)
Lemma connect_with_ids_witness :
  exists es st',
    connect unplugged (Some 0x37D7) (Some 0x1002) bound = (Return false, st')
    /\ trace st' = (es ++ trace bound)%list
    /\ device st' = None
    /\ hid_calls es = [HidClose; HidOpen 0x37D7 0x1002].
Proof.
  destruct (connect_with_ids unplugged 0x37D7 0x1002 bound)
    as (es & st' & Hrun & Htr & _ & Hfail).
  exists es, st'. split; [exact Hrun|]. split; [exact Htr|].
  apply Hfail. reflexivity.
Defined.

(** X14. [connect] with an id missing ignores the other one. It prints
    the search line and calls [hid.enumerate()] once. If that raises, it
    prints the error line and returns [False], with no further library
    call and the handle as it was. Otherwise it walks the candidates that
    [find_bs2pro_devices] computes from the enumeration, in order: it
    returns [True] exactly when some candidate opens and lets its two
    strings be read, holds the first such candidate, has opened and closed
    each earlier one in turn, and tries none after it. With no candidate
    at all it prints the not-found line and returns [False] after the
    enumeration alone, the handle as it was. *)
Theorem connect_search
    (hw : hid_backend) (vendor_id product_id : option Z) (st : state) :
  vendor_id = None \/ product_id = None ->
  (hid_enumerate hw = None ->
   connect hw vendor_id product_id st
   = (Return false,
      logged [Print MsgConnectError; HidEnumerate; Print MsgSearching] st))
  /\ (forall enumeration,
         hid_enumerate hw = Some enumeration ->
         let devices :=
           find_bs2pro_devices (text_upper hw) (text_unknown hw) enumeration in
         exists es st',
           connect hw vendor_id product_id st
           = (Return (existsb (opens hw) devices), st')
           /\ trace st' = (es ++ trace st)%list
           /\ In (Print MsgSearching) es
           /\ (devices = [] ->
               device st' = device st
               /\ hid_calls es = [HidEnumerate]
               /\ In (Print MsgNoDeviceFound) es)
           /\ (existsb (opens hw) devices = false ->
               rev (hid_calls es) = HidEnumerate :: failed_attempts devices)
           /\ (existsb (opens hw) devices = true ->
               exists before c after,
                 devices = (before ++ c :: after)%list
                 /\ Forall (fun d => opens hw d = false) before
                 /\ opens hw c = true
                 /\ device st' = Some {| opened_as := Some (c.1.1, c.1.2) |}
                 /\ rev (hid_calls es)
                    = (HidEnumerate :: failed_attempts before
                       ++ [HidOpen c.1.1 c.1.2])%list)).
Proof.
  intros Hnone. split.
  - intros He. rewrite connect_search_run by exact Hnone. rewrite He. reflexivity.
  - intros enumeration He devices.
    rewrite connect_search_run by exact Hnone. rewrite He.
    destruct (find_bs2pro_devices_io_found hw enumeration st He)
      as (es0 & Hrun0 & Hes0).
    rewrite Hrun0. fold devices.
    set (found := (es0 ++ [HidEnumerate; Print MsgSearching])%list).
    assert (rev (hid_calls found) = [HidEnumerate]) as Hfound.
    { unfold found. rewrite hid_calls_app, Hes0. reflexivity. }
    assert (In (Print MsgSearching) found) as Hline.
    { unfold found. apply in_or_app. right. right. left. reflexivity. }
    destruct devices as [|d rest] eqn:Hdev.
    { exists ([Print MsgHintExample; Print MsgHintManualIds; Print MsgNoDeviceFound]
              ++ found)%list.
      eexists. split; [rewrite logged_logged; reflexivity|].
      split; [reflexivity|].
      split; [apply in_or_app; right; exact Hline|].
      split; [|split; [|discriminate]].
      - intros _. split; [reflexivity|]. split.
        + unfold found. rewrite !hid_calls_app, Hes0. reflexivity.
        + right. right. left. reflexivity.
      - intros _. rewrite hid_calls_app.
        cbn [hid_calls List.filter is_hid_call app]. fold (hid_calls found).
        rewrite Hfound. reflexivity. }
    destruct (first_opening hw (d :: rest))
      as [[Hex Hall]|[Hex (before & c & after & Hsplit & Hall & Hc)]].
    + destruct (try_each_failing hw (d :: rest) (logged found st) Hall)
        as (es & st' & Hrun & Htr & Hcalls).
      exists (es ++ found)%list, st'. rewrite Hex. split; [exact Hrun|].
      split; [rewrite Htr; cbn [logged trace]; rewrite app_assoc; reflexivity|].
      split; [apply in_or_app; right; exact Hline|].
      split; [discriminate|]. split; [|discriminate].
      intros _. rewrite hid_calls_app, rev_app_distr, Hfound, Hcalls. reflexivity.
    + destruct (try_each_first hw before after c (logged found st) Hall Hc)
        as (es & st' & Hrun & Htr & Hdevice & Hcalls).
      exists (es ++ found)%list, st'. rewrite Hex, Hsplit. split; [exact Hrun|].
      split; [rewrite Htr; cbn [logged trace]; rewrite app_assoc; reflexivity|].
      split; [apply in_or_app; right; exact Hline|].
      split; [intros Hnil; destruct before; discriminate Hnil|].
      split; [discriminate|].
      intros _. exists before, c, after.
      split; [reflexivity|]. split; [exact Hall|]. split; [exact Hc|].
      split; [exact Hdevice|].
      rewrite hid_calls_app, rev_app_distr, Hfound, Hcalls. reflexivity.
Qed.

(** X14 with the product id alone, on two backends that enumerate two
    interfaces: one whose first candidate opens but keeps its strings and
    whose second connects, and one whose enumeration raises. *)
Lemma connect_search_witness :
  (exists es st',
      connect two_pads None (Some 0x1002) init = (Return true, st')
      /\ trace st' = (es ++ trace init)%list
      /\ device st' = Some {| opened_as := Some (0x2DC8, 0x6002) |}
      /\ rev (hid_calls es)
         = [HidEnumerate; HidOpen 0x2DC8 0x6001; HidClose; HidOpen 0x2DC8 0x6002])
  /\ connect no_bus None (Some 0x1002) init
     = (Return false,
        logged [Print MsgConnectError; HidEnumerate; Print MsgSearching] init).
Proof.
  split.
  - destruct (connect_search two_pads None (Some 0x1002) init) as [_ Hsearch];
      [left; reflexivity|].
    destruct (Hsearch _ eq_refl) as (es & st' & Hrun & Htr & _ & _ & _ & Hopen).
    destruct (Hopen eq_refl)
      as (before & c & after & Hsplit & Hall & Hc & Hdevice & Hcalls).
    assert (before = [(0x2DC8, 0x6001, "Pad A")] /\ c = (0x2DC8, 0x6002, "Pad B"))
      as [-> ->].
    { destruct before as [|b0 [|b1 before]].
      - injection Hsplit as <- _. discriminate Hc.
      - injection Hsplit as <- <- _. split; reflexivity.
      - injection Hsplit as <- <- Hrest. destruct before; discriminate Hrest. }
    exists es, st'. split; [exact Hrun|]. split; [exact Htr|].
    split; [exact Hdevice | exact Hcalls].
  - destruct (connect_search no_bus None (Some 0x1002) init) as [Hraise _];
      [left; reflexivity|].
    apply Hraise. reflexivity.
Defined.

(** ** Further properties: choosing a device *)

Section Choosing.

Variable upper : string -> string.
Variable unknown_name : Z -> Z -> string.

Lemma listed_elem (vid pid : Z) (devices : list (Z * Z * string)) :
  listed vid pid devices = true <-> (vid, pid) ∈ devices.*1.
Proof.
  unfold listed. rewrite existsb_exists. split.
  - intros ([[v p] name] & Hin & Heq). cbn [fst snd] in Heq.
    apply andb_true_iff in Heq as [Hv Hp].
    apply Z.eqb_eq in Hv. apply Z.eqb_eq in Hp. subst.
    apply list_elem_of_fmap. exists (vid, pid, name).
    split; [reflexivity|]. apply list_elem_of_In. exact Hin.
  - intros Hin. apply list_elem_of_fmap in Hin as ([[v p] name] & Heq & Hin).
    cbn [fst] in Heq. injection Heq as -> ->.
    exists (v, p, name). split; [apply list_elem_of_In; exact Hin|].
    cbn [fst snd]. rewrite !Z.eqb_refl. reflexivity.
Qed.

(** The body of the loop, known device or not. *)
Lemma find_step_unfold (devices : list (Z * Z * string)) (info : device_info) :
  let vid := info_vendor_id info in
  let pid := info_product_id info in
  find_step upper unknown_name devices info =
  if (vid =? 0x137D7) && (pid =? 0x1002)
  then (devices ++ [(vid, pid, "FlyDigi BS2PRO")])%list
  else if is_match upper info && negb (listed vid pid devices)
       then (devices
             ++ [(vid, pid, display_name unknown_name vid pid (info_product_string info))])%list
       else devices.
Proof.
  intros vid pid. unfold find_step. fold vid pid.
  cbn [known_bs2pro_devices fold_left fst snd].
  destruct ((vid =? 0x137D7) && (pid =? 0x1002)) eqn:Hknown; [|reflexivity].
  apply andb_true_iff in Hknown as [Hv Hp].
  apply Z.eqb_eq in Hv. apply Z.eqb_eq in Hp.
  replace (listed vid pid (devices ++ [(vid, pid, "FlyDigi BS2PRO")])) with true.
  - rewrite andb_false_r. reflexivity.
  - symmetry. apply listed_elem. rewrite fmap_app.
    apply elem_of_app. right. apply list_elem_of_singleton. reflexivity.
Qed.

Lemma known_is_match (info : device_info) :
  info_vendor_id info = 0x137D7 -> is_match upper info = true.
Proof.
  intros Hv. unfold is_match. rewrite Hv. apply orb_true_iff. right. reflexivity.
Qed.

Lemma find_step_elem (devices : list (Z * Z * string)) (info : device_info)
    (vid pid : Z) :
  (vid, pid) ∈ (find_step upper unknown_name devices info).*1
  <-> (vid, pid) ∈ devices.*1
      \/ ((info_vendor_id info, info_product_id info) = (vid, pid)
          /\ is_match upper info = true).
Proof.
  pose proof (find_step_unfold devices info) as Hstep. cbv zeta in Hstep.
  rewrite Hstep. clear Hstep.
  destruct ((info_vendor_id info =? 0x137D7) && (info_product_id info =? 0x1002))
    eqn:Hknown.
  - apply andb_true_iff in Hknown as [Hv Hp].
    apply Z.eqb_eq in Hv.
    rewrite fmap_app, elem_of_app. cbn [fmap list_fmap fst].
    rewrite list_elem_of_singleton. split.
    + intros [H|H]; [left; exact H|]. right. split; [congruence|].
      apply known_is_match. exact Hv.
    + intros [H|[H _]]; [left; exact H | right; congruence].
  - destruct (is_match upper info) eqn:Hm; cbn [andb].
    + destruct (listed (info_vendor_id info) (info_product_id info) devices) eqn:Hl;
        cbn [negb].
      * apply listed_elem in Hl. split; [intros H; left; exact H|].
        intros [H|[H _]]; [exact H|]. rewrite <- H. exact Hl.
      * rewrite fmap_app, elem_of_app. cbn [fmap list_fmap fst].
        rewrite list_elem_of_singleton. split.
        -- intros [H|H]; [left; exact H | right; split; congruence].
        -- intros [H|[H _]]; [left; exact H | right; congruence].
    + split; [intros H; left; exact H|].
      intros [H|[_ H]]; [exact H | discriminate H].
Qed.

Lemma find_fold_elem (enumeration : list device_info)
    (devices : list (Z * Z * string)) (vid pid : Z) :
  (vid, pid) ∈ (fold_left (find_step upper unknown_name) enumeration devices).*1
  <-> (vid, pid) ∈ devices.*1
      \/ exists info, In info enumeration
                      /\ (info_vendor_id info, info_product_id info) = (vid, pid)
                      /\ is_match upper info = true.
Proof.
  revert devices. induction enumeration as [|info rest IH]; intros devices.
  - cbn [fold_left]. split; [intros H; left; exact H|].
    intros [H|(info & [] & _)]. exact H.
  - cbn [fold_left]. rewrite IH, find_step_elem. split.
    + intros [[H|[Hid Hm]]|(i & Hin & Hid & Hm)].
      * left. exact H.
      * right. exists info. repeat split; [left; reflexivity | exact Hid | exact Hm].
      * right. exists i. repeat split; [right; exact Hin | exact Hid | exact Hm].
    + intros [H|(i & [-> | Hin] & Hid & Hm)].
      * left. left. exact H.
      * left. right. split; assumption.
      * right. exists i. repeat split; assumption.
Qed.

Lemma find_step_NoDup (devices : list (Z * Z * string)) (info : device_info) :
  info_vendor_id info <> 0x137D7 ->
  NoDup (devices.*1) ->
  NoDup ((find_step upper unknown_name devices info).*1).
Proof.
  intros Hv Hnd.
  pose proof (find_step_unfold devices info) as Hstep. cbv zeta in Hstep.
  rewrite Hstep. clear Hstep.
  replace (info_vendor_id info =? 0x137D7) with false
    by (symmetry; apply Z.eqb_neq; exact Hv).
  cbn [andb].
  destruct (is_match upper info); cbn [andb]; [|exact Hnd].
  destruct (listed (info_vendor_id info) (info_product_id info) devices) eqn:Hl;
    cbn [negb]; [exact Hnd|].
  rewrite fmap_app. cbn [fmap list_fmap fst].
  apply NoDup_app. split; [exact Hnd|]. split.
  - intros x Hx Hx'. apply list_elem_of_singleton in Hx'. subst x.
    apply listed_elem in Hx. congruence.
  - apply NoDup_singleton.
Qed.

Lemma find_fold_NoDup (enumeration : list device_info)
    (devices : list (Z * Z * string)) :
  Forall (fun info => info_vendor_id info <> 0x137D7) enumeration ->
  NoDup (devices.*1) ->
  NoDup ((fold_left (find_step upper unknown_name) enumeration devices).*1).
Proof.
  revert devices. induction enumeration as [|info rest IH]; intros devices Hall Hnd.
  - exact Hnd.
  - inversion Hall as [|i l Hi Hrest]; subst.
    cbn [fold_left]. apply IH; [exact Hrest|].
    apply find_step_NoDup; assumption.
Qed.

Lemma find_bs2pro_devices_matches_aux
    (enumeration : list device_info) (vid pid : Z) :
  (vid, pid) ∈ (find_bs2pro_devices upper unknown_name enumeration).*1
  <-> exists info,
      In info enumeration
      /\ (info_vendor_id info, info_product_id info) = (vid, pid)
      /\ is_match upper info = true.
Proof.
  unfold find_bs2pro_devices. rewrite find_fold_elem. split.
  - intros [H|H]; [|exact H]. cbn in H. apply elem_of_nil in H. destruct H.
  - intros H. right. exact H.
Qed.

End Choosing.

(** X15. [find_bs2pro_devices] lists a vendor/product pair exactly when
    some enumerated device with that pair matches: one of the five search
    terms occurs in its upper-cased manufacturer or product string, or its
    vendor id is one of the seven listed. Nothing that was not enumerated
    is ever returned. *)
Theorem find_bs2pro_devices_matches
    (upper : string -> string) (unknown_name : Z -> Z -> string)
    (enumeration : list device_info) (vid pid : Z) :
  (vid, pid) ∈ (find_bs2pro_devices upper unknown_name enumeration).*1
  <-> exists info,
      In info enumeration
      /\ (info_vendor_id info, info_product_id info) = (vid, pid)
      /\ is_match upper info = true.
Proof. apply find_bs2pro_devices_matches_aux. Qed.

(** X15 on an enumeration listing an 8BitDo pad twice and a keyboard, with
    the identity standing in for [upper]. *)
Lemma find_bs2pro_devices_matches_witness :
  (0x2DC8, 0x6001)
    ∈ (find_bs2pro_devices (fun s => s) (fun _ _ => "Unknown") sample_enumeration).*1
  /\ ~ (0x046D, 0xC31C)
        ∈ (find_bs2pro_devices (fun s => s) (fun _ _ => "Unknown") sample_enumeration).*1.
Proof.
  split.
  - apply find_bs2pro_devices_matches. eexists. split; [left; reflexivity|].
    split; reflexivity.
  - intros H. apply find_bs2pro_devices_matches in H.
    destruct H as (info & Hin & Hid & Hm).
    destruct Hin as [<- | [<- | [<- | []]]]; discriminate.
Defined.

(** X16. When every enumerated vendor id fits in 16 bits, as USB ids do,
    the known-device entry [0x137D7:0x1002] can never apply, and the list
    returned names each vendor/product pair at most once, however often the
    device is enumerated. *)
Theorem find_bs2pro_devices_distinct
    (upper : string -> string) (unknown_name : Z -> Z -> string)
    (enumeration : list device_info) :
  Forall (fun info => 0 <= info_vendor_id info <= 0xFFFF) enumeration ->
  NoDup ((find_bs2pro_devices upper unknown_name enumeration).*1)
  /\ Forall (fun d => d.1 <> (0x137D7, 0x1002))
            (find_bs2pro_devices upper unknown_name enumeration).
Proof.
  intros Hall.
  assert (Forall (fun info => info_vendor_id info <> 0x137D7) enumeration) as Hne.
  { eapply Forall_impl; [exact Hall|]. cbn. intros info H. lia. }
  split.
  - apply find_fold_NoDup; [exact Hne | constructor].
  - apply Forall_forall. intros [[v p] name] Hin Heq. cbn [fst] in Heq.
    injection Heq as -> ->.
    assert ((0x137D7, 0x1002)
              ∈ (find_bs2pro_devices upper unknown_name enumeration).*1) as Hmem.
    { apply list_elem_of_fmap. exists (0x137D7, 0x1002, name).
      split; [reflexivity | exact Hin]. }
    apply find_bs2pro_devices_matches_aux in Hmem.
    destruct Hmem as (info & Hi & Hid & _).
    rewrite Forall_forall in Hne. injection Hid as Hv _.
    apply (Hne info); [apply list_elem_of_In; exact Hi | exact Hv].
Qed.

(** X16 on the same enumeration: the pad, enumerated twice, is listed
    once. *)
Lemma find_bs2pro_devices_distinct_witness :
  NoDup ((find_bs2pro_devices (fun s => s) (fun _ _ => "Unknown") sample_enumeration).*1)
  /\ length (find_bs2pro_devices (fun s => s) (fun _ _ => "Unknown") sample_enumeration)
     = 1%nat.
Proof.
  split; [|reflexivity].
  apply (find_bs2pro_devices_distinct (fun s => s) (fun _ _ => "Unknown")
           sample_enumeration).
  unfold sample_enumeration. repeat constructor; cbn; lia.
Defined.


(** ** Further properties: the BLE monitor *)

Lemma vendor_lookup (prefix : string) :
  default "Unknown" (VENDOR_PREFIXES !! prefix)
  = if decide (prefix = "e5:66:e5") then "NanjingQinhe" else "Unknown".
Proof.
  unfold VENDOR_PREFIXES. cbn [list_to_map foldr fst snd uncurry].
  destruct (decide (prefix = "e5:66:e5")) as [->|Hne].
  - rewrite lookup_insert_eq. reflexivity.
  - rewrite lookup_insert_ne by congruence.
    destruct (decide (prefix = "00:00:00")) as [->|Hne0].
    + rewrite lookup_insert_eq. reflexivity.
    + rewrite lookup_insert_ne by congruence. rewrite lookup_empty. reflexivity.
Qed.

Lemma lower_char_idem (c : ascii) : lower_char (lower_char c) = lower_char c.
Proof. destruct c as [[] [] [] [] [] [] [] []]; reflexivity. Qed.

Lemma lower_idem (s : string) : lower (lower s) = lower s.
Proof.
  induction s as [|c s IH]; [reflexivity|].
  cbn [lower]. rewrite lower_char_idem, IH. reflexivity.
Qed.

Lemma str_take_lower_app (n : nat) (s rest : string) :
  String.length s = n ->
  str_take n (lower (s +:+ rest)) = lower s.
Proof.
  revert n. induction s as [|c s IH]; intros n Hn.
  - cbn in Hn. subst n. reflexivity.
  - cbn [String.length] in Hn. subst n.
    specialize (IH (String.length s) eq_refl).
    change (String (lower_char c) (str_take (String.length s) (lower (s +:+ rest)))
            = String (lower_char c) (lower s)).
    rewrite IH. reflexivity.
Qed.

(** X17. [get_vendor_from_mac] answers [NanjingQinhe] exactly when the
    first eight characters of the address, lower-cased, are [e5:66:e5],
    and [Unknown] otherwise (also for the listed prefix [00:00:00] and for
    addresses shorter than eight characters); the answer depends on
    neither the case of the address nor anything after its eighth
    character. *)
Theorem get_vendor_from_mac_prefix (mac_address : string) :
  (get_vendor_from_mac mac_address = "NanjingQinhe"
   <-> str_take 8 (lower mac_address) = "e5:66:e5")
  /\ (get_vendor_from_mac mac_address = "NanjingQinhe"
      \/ get_vendor_from_mac mac_address = "Unknown")
  /\ get_vendor_from_mac (lower mac_address) = get_vendor_from_mac mac_address
  /\ (forall rest rest',
         String.length mac_address = 8%nat ->
         get_vendor_from_mac (mac_address +:+ rest)
         = get_vendor_from_mac (mac_address +:+ rest')).
Proof.
  unfold get_vendor_from_mac. rewrite !vendor_lookup.
  split; [|split; [|split]].
  - destruct (decide (str_take 8 (lower mac_address) = "e5:66:e5")) as [E|E].
    + split; auto.
    + split; [discriminate | contradiction].
  - destruct (decide (str_take 8 (lower mac_address) = "e5:66:e5")); auto.
  - rewrite lower_idem. reflexivity.
  - intros rest rest' Hlen. rewrite !vendor_lookup.
    rewrite !(str_take_lower_app 8 mac_address) by exact Hlen. reflexivity.
Qed.

(** X17 on the address of the device in upper case, with two different
    tails. *)
Lemma get_vendor_from_mac_prefix_witness :
  get_vendor_from_mac "E5:66:E5:10:CE:04" = "NanjingQinhe"
  /\ get_vendor_from_mac ("E5:66:E5" +:+ ":10:CE:04")
     = get_vendor_from_mac ("E5:66:E5" +:+ "").
Proof.
  destruct (get_vendor_from_mac_prefix "E5:66:E5:10:CE:04") as (Hiff & _).
  destruct (get_vendor_from_mac_prefix "E5:66:E5") as (_ & _ & _ & Htail).
  split; [apply Hiff; reflexivity | apply Htail; reflexivity].
Defined.

Lemma scan_fold_app (before : list ble_device) (d : ble_device) (start : option ble_device) :
  fold_left
    (fun target_device device =>
       if decide (ble_name device = Some TARGET_DEVICE_NAME)
       then Some device
       else target_device)
    (before ++ [d]) start
  = if decide (ble_name d = Some TARGET_DEVICE_NAME)
    then Some d
    else fold_left
           (fun target_device device =>
              if decide (ble_name device = Some TARGET_DEVICE_NAME)
              then Some device
              else target_device)
           before start.
Proof. rewrite fold_left_app. reflexivity. Qed.

(** X18. [scan_devices] returns the last discovered device whose name is
    exactly [FlyDigi BS2PRO], and [None] exactly when no discovered device
    bears that name (a device without a name never matches). *)
Theorem scan_devices_last (devices : list ble_device) :
  match scan_devices devices with
  | None => Forall (fun d => ble_name d <> Some TARGET_DEVICE_NAME) devices
  | Some target =>
      exists before after,
        devices = (before ++ target :: after)%list
        /\ ble_name target = Some TARGET_DEVICE_NAME
        /\ Forall (fun d => ble_name d <> Some TARGET_DEVICE_NAME) after
  end.
Proof.
  unfold scan_devices.
  induction devices as [|d before IH] using rev_ind.
  - constructor.
  - rewrite scan_fold_app.
    destruct (decide (ble_name d = Some TARGET_DEVICE_NAME)) as [Hd|Hd].
    + exists before, []. repeat split; [exact Hd | constructor].
    + destruct (fold_left _ before None) as [target|].
      * destruct IH as (b & a & -> & Ht & Ha).
        exists b, (a ++ [d])%list. split; [rewrite <- app_assoc; reflexivity|].
        split; [exact Ht|]. apply Forall_app. split; [exact Ha|].
        constructor; [exact Hd | constructor].
      * apply Forall_app. split; [exact IH|]. constructor; [exact Hd | constructor].
Qed.
